(* ===== verification/_CoqProject ===== *)
-Q . S2P
Prelude.v
PySyntax.v
Interfaces.v
Interp.v
InterpFacts.v
Invariants.v
FileSystem.v
Bodies.v
Scripts.v
Sealed.v
Package.v
Completed.v
Partial.v
Missing.v
Setup.v
