(* ===== verification/Prelude.v ===== *)
(** * Monte Carlo Option Pricing Lab: verification development

    ** The program

    The repository [lorenlorenloren/monte-carlo-option-pricing-lab] ships,
    under [src/], four Python files and nothing else:

    - [src/src/__init__.py]: the root package.  It sets [__version__],
      [__author__], [__email__], imports six subpackages with
      [from . import ...] and lists them in [__all__].
    - [src/src/pricing/__init__.py]: the pricing package.  It imports five
      submodules ([european], [american], [exotic], [engine], [greeks]) and
      lists them in [__all__].
    - [src/src/models/__init__.py]: the models package, a docstring and an
      empty [__all__].
    - [src/setup.py]: the packaging script.  It reads [README.md] inside a
      [with] block and calls [setuptools.setup] once, with
      [find_packages(where="src")].

    None of the imported submodules is part of the sources, and no pricing,
    path generation or regression code exists.  What the code does is
    therefore decided by the semantics of Python's import system and of the
    packaging script, and this is what the development models from the
    source.  The simulation core that [spec.md] describes (path generation,
    payoffs, least-squares Monte Carlo, Greeks, result merging) has no code
    and is not modelled.

    ** Files

    The runtime the sources run on:

    - [Prelude] (this file): the outcome monad in which all effectful code
      is written (state passing, Python exceptions as values that carry the
      state at the point of the raise, and an out-of-fuel outcome), its
      notations in [outcome_scope], the refinement order in the amount of
      fuel ([M_le], with the hint database [fuel]), postconditions
      ([post]), relations between the initial and the final state
      ([preserves]), triples ([triple]) and invariants ([invariant], with
      the hint database [inv]), and the string utilities for dotted
      module names and paths.
    - [PySyntax]: the fragment of Python the four files use.  Values,
      expressions, statements and exceptions, one constructor per construct
      that occurs in the sources, and the names a statement binds
      ([binds]).
    - [Interfaces]: the type classes [Finder] (where a module is and what
      loads it) and [Builtins] (built-in names, calls, context managers),
      and the effects a script has on the outside world.
    - [Interp]: the interpreter.  The state is [sys.modules] (a finite map
      from module names to namespaces) and the effects; [gcd_import],
      [find_and_load], [load_unlocked], [handle_fromlist], [import_from]
      follow the functions of CPython's importlib, [exec_stmt] and
      [exec_body] run a module body, [import_star] and [run_script] are
      the two ways in from outside.
    - [InterpFacts]: equations that unfold one step of the import system;
      more fuel never changes an outcome ([gcd_import_fuel_mono]); the
      order [grows] on states; the attributes a loader sets.
    - [Invariants]: what keeps an invariant of the state.  A statement
      keeps what the stores of the names it binds keep
      ([invariant_exec_stmt]); the class [ImportInvariant] lists what an
      invariant must tell of a module that is found and was not imported,
      and every import keeps its instances ([gcd_import_invariant]).  The
      instance [grows_invariant] is the frame of an import: successful or
      not, it keeps every module and every attribute that was there
      ([gcd_import_grows]).
    - [FileSystem]: a directory as a finite map from paths to files, the
      path-based finder (regular package before module before namespace
      package) as the [Finder] instance [env_finder], and [find_packages]
      of setuptools.
    - [Bodies]: static facts about module bodies.  Definite assignment
      ([exec_body_binds]); bodies that cannot fail ([quiet_body],
      [loaded_ns]); runs of [from . import x] ([exec_import_stmts]); star
      imports ([import_then_star]).
    - [Scripts]: expressions without effects ([pure_eval]), the [with]
      statement, absolute imports of attributes, [run_script].
    - [Sealed]: a second instance of [ImportInvariant].  A package that
      has no attribute [x] and whose submodule [x] cannot be found, or is
      being loaded, stays so through every import; hence a body that
      reaches [from . import x] raises ([gcd_import_fails]).

    The sources:

    - [Package]: the three [__init__.py] files, statement by statement
      ([src_init], [pricing_init], [models_init], with the values they
      assign in the modules [SrcInit], [PricingInit], [ModelsInit]), and
      what importing them does with the files of the repository: C1, C5,
      the fuel it takes (C15), and in the layout [setup.py] installs, C7
      and C8.
    - [Completed]: the package in a source tree that holds every module
      the [__init__] files import (C2), and star imports (C4).
    - [Partial]: the package when only the modules below [pricing] are
      added: what a failed import leaves in [sys.modules] (C11) and what a
      second import does (C12).
    - [Missing]: each of the eleven modules the two [__init__] files
      import is needed, whatever the rest of the environment holds: C13
      and C14.
    - [Setup]: [setup.py] statement by statement ([setup_py],
      [setup_kwargs], the values in module [SetupPy]), the built-in
      functions it calls as the [Builtins] instance [script_builtins], and
      what running it does: C3, C6, C9, C10.

    ** Correspondence

    A Python module body is a [list stmt]; the map of the manifest gives the
    lines of each.  Module names are lists of components
    ([["src"; "pricing"]] for [src.pricing]); where Python stores a dotted
    string ([__name__], [__package__]) the model stores the string and
    converts with [undotted], as [_resolve_name] does with [rsplit].  A
    module object is its entry in [sys.modules]: a [VModule n] value is a
    reference into that map, so a namespace changed through one reference
    is seen through all.  Python strings are sequences of code points,
    Rocq strings sequences of bytes; the one non-ASCII literal of the
    sources (the author's name) is kept as its UTF-8 bytes, and no theorem
    depends on its length.

    ** Theorems

    C1 to C12 and C15 are stated for an arbitrary finder that answers as
    the repository does on the files in question, an arbitrary
    interpreter state in which the package is not imported yet, and every
    amount of fuel from a stated bound on; each has a witness that
    evaluates the interpreter on a concrete directory ([package_env],
    [installed_env], [completed_env], [partial_env], [repo_fs]).  They say
    what is raised or returned and give the final state in full, so that
    what stays in [sys.modules] after a failure is part of the statement.
    C13 and C14 go the other way: they assume nothing of the environment
    but that one module is missing (the other modules are any code of
    the fragment), and so cannot name the exception or the final state; they show that with no amount of fuel the import
    ends normally, and that when it raises [src] is not left in
    [sys.modules], by an invariant of the import system instead of by
    running it.

    ** Fuel

    Only imports recurse, so fuel bounds the nesting depth of imports and
    nothing else; statements and expressions are structurally recursive.
    The import of [src] nests three deep ([src], [src.pricing],
    [src.pricing.european]), the import of a name below [src] one deeper
    for each component, the script [setup.py] one deep.  The theorems
    state the fuel they need, and [InterpFacts.gcd_import_fuel_mono] shows
    that any larger amount gives the same outcome; for [import src] the
    bound is shown to be the least ([Package.import_src_fuel]).  An
    import of Python succeeds when some amount of fuel gives a normal
    end, so C13 and C14, which exclude a normal end for every amount,
    exclude success.

    ** What is not modelled

    The simulation and estimation core of [spec.md]: the repository has
    no code for it.  Of Python: the module attributes [__loader__],
    [__spec__], [__cached__] and [__builtins__]; import locks; byte-code
    caches; [sys.path] beyond the project root followed by the installed
    libraries; the body of third-party libraries (an installed library is
    a namespace given by the environment); the position of a file object
    (a file is read once) and the decoding of its bytes (the contents of
    a text file are a string, and [open] records its [encoding] argument
    without using it); calls that raise (the log of calls holds those
    that returned); the order in which a file system lists the entries
    of a directory ([find_packages] lists them by name); [..] in paths;
    what [setuptools.setup] does after it has received its arguments (the
    call is recorded as an event). *)

From stdpp Require Import gmap strings list fin_maps.
From Stdlib Require Import Ascii.

#[export] Set Warnings "-clear-no-such-hyp".

(** * The outcome monad *)

(** The result of running effectful code on a state: a value and the final
    state, an exception and the state at the raise (a Python exception does
    not undo the effects that preceded it), or fuel exhaustion. *)
Inductive outcome (E S A : Type) : Type :=
| Done (a : A) (s : S)
| Raise (e : E) (s : S)
| OutOfFuel.

Arguments Done {E S A} a s.
Arguments Raise {E S A} e s.
Arguments OutOfFuel {E S A}.

Definition M (E S A : Type) : Type := S → outcome E S A.

Definition ret {E S A} (a : A) : M E S A := λ s, Done a s.

Definition bind {E S A B} (c : M E S A) (k : A → M E S B) : M E S B :=
  λ s, match c s with
       | Done a s' => k a s'
       | Raise e s' => Raise e s'
       | OutOfFuel => OutOfFuel
       end.

Definition raise {E S A} (e : E) : M E S A := λ s, Raise e s.

Definition out_of_fuel {E S A} : M E S A := λ _, OutOfFuel.

Definition get {E S} : M E S S := λ s, Done s s.

Definition gets {E S A} (f : S → A) : M E S A := λ s, Done (f s) s.

Definition modify {E S} (f : S → S) : M E S unit := λ s, Done tt (f s).

(** [try: c except e: h e], where [h e = None] re-raises. *)
Definition catch {E S A} (c : M E S A) (h : E → option (M E S A)) : M E S A :=
  λ s, match c s with
       | Raise e s' => match h e with Some k => k s' | None => Raise e s' end
       | o => o
       end.

(** [try: c finally: cleanup].  The cleanup runs on both paths; when it
    raises, its exception replaces the pending one. *)
Definition finally {E S A} (c : M E S A) (cleanup : M E S unit) : M E S A :=
  λ s, match c s with
       | Done a s' => bind cleanup (λ _, ret a) s'
       | Raise e s' => bind cleanup (λ _, raise e) s'
       | OutOfFuel => OutOfFuel
       end.

(** Running a computation on a component [T] of the state [S]. *)
Definition zoom {E S T A} (proj : S → T) (upd : T → S → S) (c : M E T A) : M E S A :=
  λ s, match c (proj s) with
       | Done a t => Done a (upd t s)
       | Raise e t => Raise e (upd t s)
       | OutOfFuel => OutOfFuel
       end.

Definition of_option {E S A} (o : option A) (e : E) : M E S A :=
  match o with Some a => ret a | None => raise e end.

Declare Scope outcome_scope.
Delimit Scope outcome_scope with M.

Notation "'do' x <- c ; k" := (bind c (fun x => k))
  (at level 10, x name, c at level 100, k at level 200,
   format "'[v' 'do'  x  <-  c ; '/' k ']'") : outcome_scope.
Notation "'run' c ; k" := (bind c (fun _ => k))
  (at level 10, c at level 100, k at level 200,
   format "'[v' 'run'  c ; '/' k ']'") : outcome_scope.

Open Scope outcome_scope.

Section traversals.
Context {E S A B : Type}.

(** Left-to-right evaluation of a list of computations. *)
Definition mapM (f : A → M E S B) : list A → M E S (list B) :=
  fix go l :=
    match l with
    | [] => ret []
    | x :: l' => do y <- f x; do ys <- go l'; ret (y :: ys)
    end.

(** [for x in l: f x]. *)
Definition forM_ (f : A → M E S unit) : list A → M E S unit :=
  fix go l :=
    match l with
    | [] => ret tt
    | x :: l' => run f x; go l'
    end.

End traversals.

(** The values of a list under a partial function, when all are
    defined. *)
Definition traverse {A B} (f : A → option B) : list A → option (list B) :=
  fix go l :=
    match l with
    | [] => Some []
    | x :: l' => y ← f x; ys ← go l'; Some (y :: ys)
    end.

(** * Refinement in the amount of fuel *)

(** [o ⊑ o']: [o'] is what [o] becomes when more fuel is given. *)
Definition outcome_le {E S A} (o o' : outcome E S A) : Prop :=
  o = OutOfFuel ∨ o = o'.

Definition M_le {E S A} (c c' : M E S A) : Prop := ∀ s, outcome_le (c s) (c' s).

(** * Frames *)

(** [post Q o]: the state in which [o] ended, normally or by an
    exception, is in [Q]. *)
Definition post {E S A} (Q : S → Prop) (o : outcome E S A) : Prop :=
  match o with
  | Done _ s' | Raise _ s' => Q s'
  | OutOfFuel => True
  end.

(** An outcome that is not a normal end. *)
Definition unfinished {E S A} (o : outcome E S A) : Prop :=
  match o with
  | Done _ _ => False
  | Raise _ _ | OutOfFuel => True
  end.

(** [preserves R c]: whatever [c] does to the state, normally or by an
    exception, relates the initial state to the final one by [R]. *)
Definition preserves {E S A} (R : relation S) (c : M E S A) : Prop :=
  ∀ s, post (R s) (c s).

(** * Triples *)

(** [triple P c Q X]: from a state in [P], [c] ends normally in [Q] or by
    an exception in [X]; nothing is said when fuel runs out, which the
    theorems that give the fuel settle. *)
Definition triple {E S A} (P : S → Prop) (c : M E S A)
  (Q : A → S → Prop) (X : E → S → Prop) : Prop :=
  ∀ s, P s → match c s with
             | Done a s' => Q a s'
             | Raise e s' => X e s'
             | OutOfFuel => True
             end.

(** [invariant I c]: [c] keeps [I], however it ends. *)
Definition invariant {E S A} (I : S → Prop) (c : M E S A) : Prop :=
  triple I c (λ _, I) (λ _, I).

(** * Strings: separators *)

(** Python's [s.split(c)] for a one-character separator. *)
Fixpoint split_on (c : ascii) (s : string) : list string :=
  match s with
  | EmptyString => [EmptyString]
  | String a s' =>
      if Ascii.eqb a c then EmptyString :: split_on c s'
      else match split_on c s' with
           | [] => [String a EmptyString]
           | w :: ws => String a w :: ws
           end
  end.

(** Python's [c.join(l)]. *)
Definition join (c : ascii) (l : list string) : string :=
  String.concat (String c EmptyString) l.

Fixpoint has_char (c : ascii) (s : string) : bool :=
  match s with
  | EmptyString => false
  | String a s' => Ascii.eqb a c || has_char c s'
  end.

(** The inverse of [join] on lists of components, the empty list included:
    the empty string stands for no component at all (Python tests
    [if not package] before it splits). *)
Definition unjoin (c : ascii) (s : string) : list string :=
  if decide (s = EmptyString) then [] else split_on c s.

(** Components that survive [join]: non-empty and free of the separator. *)
Definition components_ok (c : ascii) (l : list string) : Prop :=
  Forall (λ w, w ≠ EmptyString ∧ has_char c w = false) l.

(** A list of components that [join] and [split_on] keep apart: at least
    one, none containing the separator. *)
Definition sep_free (c : ascii) (l : list string) : Prop :=
  l ≠ [] ∧ Forall (λ w, has_char c w = false) l.

#[export] Instance sep_free_dec c l : Decision (sep_free c l).
Proof. unfold sep_free. apply _. Defined.

#[export] Instance components_ok_dec c l : Decision (components_ok c l).
Proof. unfold components_ok. apply _. Defined.

(** * Automation *)

Create HintDb inv discriminated.
Create HintDb fuel discriminated.

(** A closed decidable proposition, by evaluation. *)
Ltac by_compute := apply (bool_decide_unpack _); vm_compute; exact I.

(** Monotonicity in the fuel and invariance, by the rules of the
    databases [fuel] and [inv]. *)
Ltac solve_mono := eauto 20 with fuel.
Ltac solve_invariant := eauto 20 with inv.

(** * Lemmas *)

Section monad_laws.
Context {E S : Type}.

Lemma bind_ret_l {A B} (a : A) (k : A → M E S B) s : bind (ret a) k s = k a s.
Proof. reflexivity. Qed.

Lemma bind_ret_r {A} (c : M E S A) s : bind c ret s = c s.
Proof. unfold bind, ret. by destruct (c s). Qed.

Lemma bind_assoc {A B C} (c : M E S A) (k : A → M E S B) (h : B → M E S C) s :
  bind (bind c k) h s = bind c (λ a, bind (k a) h) s.
Proof. unfold bind. by destruct (c s). Qed.

Lemma bind_done {A B} (c : M E S A) (k : A → M E S B) s a s' :
  c s = Done a s' → bind c k s = k a s'.
Proof. unfold bind. by intros ->. Qed.

Lemma bind_raise {A B} (c : M E S A) (k : A → M E S B) s e s' :
  c s = Raise e s' → bind c k s = Raise e s'.
Proof. unfold bind. by intros ->. Qed.

Lemma bind_unfinished {A B} (c : M E S A) (k : A → M E S B) s :
  unfinished (c s) → unfinished (bind c k s).
Proof. unfold bind. by destruct (c s). Qed.

Lemma bind_out_of_fuel {A B} (c : M E S A) (k : A → M E S B) s :
  c s = OutOfFuel → bind c k s = OutOfFuel.
Proof. unfold bind. by intros ->. Qed.

(** Inversion of a [bind] that finished. *)
Lemma forM__app {A} (f : A → M E S unit) (l1 l2 : list A) s :
  forM_ f (l1 ++ l2) s = bind (forM_ f l1) (λ _, forM_ f l2) s.
Proof.
  revert s. induction l1 as [|x l1 IH]; intros s; simpl.
  - reflexivity.
  - unfold bind in *. destruct (f x s) as [[] s'| |]; [apply IH|done..].
Qed.

Lemma mapM_app {A B} (f : A → M E S B) (l1 l2 : list A) s :
  mapM f (l1 ++ l2) s
  = bind (mapM f l1) (λ ys1, bind (mapM f l2) (λ ys2, ret (ys1 ++ ys2))) s.
Proof.
  revert s. induction l1 as [|x l1 IH]; intros s.
  - change (mapM f l2 s = bind (mapM f l2) (λ ys2, ret ys2) s).
    unfold bind. destruct (mapM f l2 s); reflexivity.
  - change (mapM f ((x :: l1) ++ l2))
      with (bind (f x) (λ y, bind (mapM f (l1 ++ l2)) (λ ys, ret (y :: ys)))).
    change (mapM f (x :: l1))
      with (bind (f x) (λ y, bind (mapM f l1) (λ ys, ret (y :: ys)))).
    unfold bind, ret in *. destruct (f x s) as [y s'| |]; [|done..]. rewrite IH.
    destruct (mapM f l1 s') as [ys1 s1| |]; [|done..].
    destruct (mapM f l2 s1); reflexivity.
Qed.

(** A traversal whose steps are given by a partial function and leave
    the state alone. *)
Lemma mapM_traverse {A B} (f : A → M E S B) (g : A → option B) l ys s :
  Forall (λ x, ∀ y, g x = Some y → f x s = Done y s) l →
  traverse g l = Some ys →
  mapM f l s = Done ys s.
Proof.
  intros Hl. revert ys. induction Hl as [|x l Hx _ IH]; intros ys; simpl.
  - by intros [= <-].
  - destruct (g x) as [y|]; [|done]. simpl.
    destruct (traverse g l) as [ys'|]; [|done]. intros [= <-].
    unfold bind. by rewrite (Hx y eq_refl), (IH ys' eq_refl).
Qed.

Lemma finally_done {A} (c : M E S A) (f : M E S unit) s a s' s'' :
  c s = Done a s' → f s' = Done tt s'' → finally c f s = Done a s''.
Proof. intros Hc Hf. unfold finally, bind. by rewrite Hc, Hf. Qed.

Lemma bind_done_inv {A B} (c : M E S A) (k : A → M E S B) s b s'' :
  bind c k s = Done b s'' → ∃ a s', c s = Done a s' ∧ k a s' = Done b s''.
Proof. unfold bind. destruct (c s); [eauto|done..]. Qed.

End monad_laws.

Section fuel_order.
Context {E S : Type}.

Lemma outcome_le_refl {A} (o : outcome E S A) : outcome_le o o.
Proof. by right. Qed.

Lemma outcome_le_trans {A} (o1 o2 o3 : outcome E S A) :
  outcome_le o1 o2 → outcome_le o2 o3 → outcome_le o1 o3.
Proof. intros [->| ->]; [by left|done]. Qed.

Lemma outcome_le_done {A} (o : outcome E S A) a s :
  outcome_le (Done a s) o → o = Done a s.
Proof. by intros [?| <-]. Qed.

Lemma outcome_le_raise {A} (o : outcome E S A) e s :
  outcome_le (Raise e s) o → o = Raise e s.
Proof. by intros [?| <-]. Qed.

#[export] Instance M_le_preorder {A} : PreOrder (@M_le E S A).
Proof.
  split; [intros c s; apply outcome_le_refl|].
  intros c1 c2 c3 H12 H23 s. eapply outcome_le_trans; eauto.
Qed.

Lemma M_le_bind {A B} (c c' : M E S A) (k k' : A → M E S B) :
  M_le c c' → (∀ a, M_le (k a) (k' a)) → M_le (bind c k) (bind c' k').
Proof.
  intros Hc Hk s. unfold bind.
  destruct (Hc s) as [->| ->]; [by left|].
  destruct (c' s); [apply Hk|by right..].
Qed.

Lemma M_le_catch {A} (c c' : M E S A) (h h' : E → option (M E S A)) :
  M_le c c' →
  (∀ e, option_Forall2 M_le (h e) (h' e)) →
  M_le (catch c h) (catch c' h').
Proof.
  intros Hc Hh s. unfold catch.
  destruct (Hc s) as [->| ->]; [by left|].
  destruct (c' s) as [| e s' |]; [by right| |by right].
  destruct (Hh e) as [k k' Hk|]; [apply Hk|by right].
Qed.

Lemma M_le_finally {A} (c c' : M E S A) (f f' : M E S unit) :
  M_le c c' → M_le f f' → M_le (finally c f) (finally c' f').
Proof.
  intros Hc Hf s. unfold finally.
  destruct (Hc s) as [->| ->]; [by left|].
  destruct (c' s); [apply M_le_bind; [done|]; by intros ? ?; right..|by right].
Qed.

Lemma M_le_mapM {A B} (f f' : A → M E S B) (l : list A) :
  (∀ a, M_le (f a) (f' a)) → M_le (mapM f l) (mapM f' l).
Proof.
  intros Hf. induction l as [|x l IH]; simpl; [done|].
  apply M_le_bind; [apply Hf|]. intros y.
  apply M_le_bind; [done|]. by intros ys.
Qed.

Lemma M_le_forM_ {A} (f f' : A → M E S unit) (l : list A) :
  (∀ a, M_le (f a) (f' a)) → M_le (forM_ f l) (forM_ f' l).
Proof.
  intros Hf. induction l as [|x l IH]; simpl; [done|].
  apply M_le_bind; [apply Hf|done].
Qed.

Lemma M_le_refl {A} (c : M E S A) : M_le c c.
Proof. done. Qed.

Lemma M_le_forM_Forall {A} (P : A → Prop) (f f' : A → M E S unit) (l : list A) :
  (∀ a, P a → M_le (f a) (f' a)) → Forall P l → M_le (forM_ f l) (forM_ f' l).
Proof.
  intros Hf Hl. induction Hl as [|x l Hx Hl IH]; simpl; [done|].
  apply M_le_bind; [by apply Hf|done].
Qed.

Lemma M_le_out_of_fuel {A} (c : M E S A) : M_le out_of_fuel c.
Proof. intros s. by left. Qed.

(** What more fuel gives when the computation had enough. *)
Lemma M_le_done {A} (c c' : M E S A) s a s' :
  M_le c c' → c s = Done a s' → c' s = Done a s'.
Proof. intros Hc Hs. apply outcome_le_done. rewrite <- Hs. apply Hc. Qed.

Lemma M_le_raise {A} (c c' : M E S A) s e s' :
  M_le c c' → c s = Raise e s' → c' s = Raise e s'.
Proof. intros Hc Hs. apply outcome_le_raise. rewrite <- Hs. apply Hc. Qed.

End fuel_order.

#[export] Hint Resolve outcome_le_refl M_le_refl M_le_bind M_le_catch
  M_le_finally M_le_forM_ M_le_mapM M_le_out_of_fuel : fuel.

#[export] Hint Extern 2 (M_le (if decide _ then _ else _) _) =>
  case_decide : fuel.
#[export] Hint Extern 2 (M_le (match ?x with _ => _ end) _) =>
  destruct x : fuel.
#[export] Hint Extern 2 (option_Forall2 _ (if decide _ then _ else _) _) =>
  case_decide : fuel.
#[export] Hint Constructors option_Forall2 : fuel.


Section triples.
Context {E S : Type}.
Implicit Types (P : S → Prop) (I : S → Prop).

Lemma triple_conseq {A} P P' (c : M E S A) Q Q' X X' :
  triple P' c Q' X' →
  (∀ s, P s → P' s) → (∀ a s, Q' a s → Q a s) → (∀ e s, X' e s → X e s) →
  triple P c Q X.
Proof.
  intros Hc HP HQ HX s Hs. specialize (Hc s (HP s Hs)). destruct (c s); auto.
Qed.

Lemma triple_ret {A} P (a : A) (Q : A → S → Prop) (X : E → S → Prop) :
  (∀ s, P s → Q a s) → triple P (ret a) Q X.
Proof. intros HQ s Hs. by apply HQ. Qed.

Lemma triple_raise {A} P (e : E) (Q : A → S → Prop) (X : E → S → Prop) :
  (∀ s, P s → X e s) → triple P (raise e) Q X.
Proof. intros HX s Hs. by apply HX. Qed.

Lemma triple_out_of_fuel {A} P (Q : A → S → Prop) (X : E → S → Prop) :
  triple P out_of_fuel Q X.
Proof. by intros s Hs. Qed.

Lemma triple_gets {A} P (f : S → A) (Q : A → S → Prop) (X : E → S → Prop) :
  (∀ s, P s → Q (f s) s) → triple P (gets f) Q X.
Proof. intros HQ s Hs. by apply HQ. Qed.

Lemma triple_get P (Q : S → S → Prop) (X : E → S → Prop) :
  (∀ s, P s → Q s s) → triple P get Q X.
Proof. intros HQ s Hs. by apply HQ. Qed.

Lemma triple_modify P (f : S → S) (Q : unit → S → Prop) (X : E → S → Prop) :
  (∀ s, P s → Q tt (f s)) → triple P (modify f) Q X.
Proof. intros HQ s Hs. by apply HQ. Qed.

Lemma triple_bind {A B} P (c : M E S A) (k : A → M E S B) Q' Q X :
  triple P c Q' X → (∀ a, triple (Q' a) (k a) Q X) → triple P (bind c k) Q X.
Proof.
  intros Hc Hk s Hs. unfold bind. specialize (Hc s Hs).
  destruct (c s) as [a s'| |]; [|done..]. by apply Hk.
Qed.

Lemma triple_catch {A} P (c : M E S A) (h : E → option (M E S A)) Q X X' :
  triple P c Q X' →
  (∀ e k, h e = Some k → triple (X' e) k Q X) →
  (∀ e s, h e = None → X' e s → X e s) →
  triple P (catch c h) Q X.
Proof.
  intros Hc Hh Hnone s Hs. unfold catch. specialize (Hc s Hs).
  destruct (c s) as [|e s'|]; [done| |done].
  destruct (h e) as [k|] eqn:He; [by eapply Hh|by apply Hnone].
Qed.

Lemma triple_finally {A} P (c : M E S A) (f : M E S unit) Q Q' X X' :
  triple P c Q' X' →
  (∀ a, triple (Q' a) f (λ _, Q a) X) →
  (∀ e, triple (X' e) f (λ _, X e) X) →
  triple P (finally c f) Q X.
Proof.
  intros Hc HQ HX s Hs. unfold finally. specialize (Hc s Hs).
  destruct (c s) as [a s'|e s'|]; [| |done].
  - apply (triple_bind (Q' a) f (λ _, ret a) (λ _, Q a) Q X); [done| |done].
    intros _. by apply triple_ret.
  - apply (triple_bind (X' e) f (λ _, raise e) (λ _, X e) Q X); [done| |done].
    intros _. by apply triple_raise.
Qed.

(** A fact that does not depend on the state is known once and for
    all. *)
Lemma triple_pure {A} (φ : Prop) P (c : M E S A) Q X :
  (φ → triple P c Q X) → triple (λ s, P s ∧ φ) c Q X.
Proof. intros Hc s [Hs Hφ]. by apply Hc. Qed.

(** Two triples of the same code hold together. *)
Lemma triple_and {A} P P' (c : M E S A) Q Q' X X' :
  triple P c Q X → triple P' c Q' X' →
  triple (λ s, P s ∧ P' s) c (λ a s, Q a s ∧ Q' a s) (λ e s, X e s ∧ X' e s).
Proof.
  intros Hc Hc' s [Hs Hs']. specialize (Hc s Hs). specialize (Hc' s Hs').
  by destruct (c s).
Qed.

(** Code that runs on a component keeps what an update of the component
    keeps. *)
Lemma triple_zoom {T A} (proj : S → T) (upd : T → S → S) (c : M E T A) I :
  (∀ s t, I s → I (upd t s)) →
  triple I (zoom proj upd c) (λ _, I) (λ _, I).
Proof.
  intros H s Hs. unfold zoom. destruct (c (proj s)); [by apply H..|done].
Qed.

(** A loop whose invariant is indexed by the elements already done. *)
Lemma triple_forM_elem {A} (I : list A → S → Prop) (f : A → M E S unit) l X :
  (∀ seen x, x ∈ l → triple (I seen) (f x) (λ _, I (seen ++ [x])) X) →
  triple (I []) (forM_ f l) (λ _, I l) X.
Proof.
  intros Hf.
  assert (∀ seen, triple (I seen) (forM_ f l) (λ _, I (seen ++ l)) X) as H.
  { induction l as [|x l IH]; intros seen; simpl.
    - apply triple_ret. intros s. by rewrite app_nil_r.
    - eapply triple_bind; [apply Hf, list_elem_of_here|]. intros ?.
      eapply triple_conseq; [apply (IH (λ _ y Hy, Hf _ y (list_elem_of_further _ _ _ Hy))
                                      (seen ++ [x]))|done| |done].
      intros ? s. by rewrite <- app_assoc. }
  apply (H []).
Qed.

Lemma triple_forM_ {A} (I : list A → S → Prop) (f : A → M E S unit) l X :
  (∀ seen x, triple (I seen) (f x) (λ _, I (seen ++ [x])) X) →
  triple (I []) (forM_ f l) (λ _, I l) X.
Proof. intros Hf. apply triple_forM_elem. intros ???. apply Hf. Qed.

Lemma triple_mapM_inv {A B} I (f : A → M E S B) l X :
  (∀ x, triple I (f x) (λ _, I) X) → triple I (mapM f l) (λ _, I) X.
Proof.
  intros Hf. induction l as [|x l IH]; simpl; [by apply triple_ret|].
  eapply triple_bind; [apply Hf|]. intros y.
  eapply triple_bind; [apply IH|]. intros ys. by apply triple_ret.
Qed.

(** A frame gives a triple for every property it cannot break. *)
Lemma triple_preserves {A} (R : relation S) I (c : M E S A) :
  preserves R c → (∀ s s', I s → R s s' → I s') →
  triple I c (λ _, I) (λ _, I).
Proof.
  intros Hc HI s Hs. specialize (Hc s). destruct (c s); eauto.
Qed.

(** ... and a triple for the frame itself, started anywhere. *)
Lemma preserves_triple {A} (R : relation S) `{!PreOrder R} (c : M E S A) :
  preserves R c ↔ ∀ s0, triple (R s0) c (λ _, R s0) (λ _, R s0).
Proof.
  split.
  - intros Hc s0 s Hs. specialize (Hc s). destruct (c s); [by etrans..|done].
  - intros Hc s. by apply (Hc s s).
Qed.

End triples.

Section invariants.
Context {E S : Type}.
Implicit Types (I J : S → Prop).

Lemma invariant_ret {A} I (a : A) : invariant I (ret (E:=E) a).
Proof. by apply triple_ret. Qed.

Lemma invariant_raise {A} I (e : E) : invariant I (raise (A:=A) e).
Proof. by apply triple_raise. Qed.

Lemma invariant_out_of_fuel {A} I : invariant I (out_of_fuel (E:=E) (A:=A)).
Proof. apply triple_out_of_fuel. Qed.

Lemma invariant_gets {A} I (f : S → A) : invariant I (gets (E:=E) f).
Proof. by apply triple_gets. Qed.

Lemma invariant_get I : invariant I (get (E:=E)).
Proof. by apply triple_get. Qed.

Lemma invariant_modify I (f : S → S) :
  (∀ s, I s → I (f s)) → invariant I (modify (E:=E) f).
Proof. intros Hf. by apply triple_modify. Qed.

Lemma invariant_of_option {A} I (o : option A) (e : E) :
  invariant I (of_option o e).
Proof. destruct o; [apply invariant_ret|apply invariant_raise]. Qed.

Lemma invariant_bind {A B} I (c : M E S A) (k : A → M E S B) :
  invariant I c → (∀ a, invariant I (k a)) → invariant I (bind c k).
Proof. intros Hc Hk. eapply triple_bind; [exact Hc|exact Hk]. Qed.

Lemma invariant_catch {A} I (c : M E S A) (h : E → option (M E S A)) :
  invariant I c → (∀ e k, h e = Some k → invariant I k) →
  invariant I (catch c h).
Proof. intros Hc Hh. eapply triple_catch; [exact Hc|exact Hh|done]. Qed.

Lemma invariant_finally {A} I (c : M E S A) (f : M E S unit) :
  invariant I c → invariant I f → invariant I (finally c f).
Proof. intros Hc Hf. by eapply triple_finally; [exact Hc|..]. Qed.

Lemma invariant_forM_ {A} I (f : A → M E S unit) l :
  (∀ x, x ∈ l → invariant I (f x)) → invariant I (forM_ f l).
Proof. intros Hf. apply (triple_forM_elem (λ _, I)). intros _. exact Hf. Qed.

Lemma invariant_mapM {A B} I (f : A → M E S B) l :
  (∀ x, invariant I (f x)) → invariant I (mapM f l).
Proof. apply triple_mapM_inv. Qed.

Lemma invariant_zoom {T A} (proj : S → T) (upd : T → S → S) (c : M E T A) I :
  (∀ s t, I s → I (upd t s)) → invariant I (zoom proj upd c).
Proof. apply triple_zoom. Qed.

(** Two invariants of the same code hold together. *)
Lemma invariant_and {A} I J (c : M E S A) :
  invariant I c → invariant J c → invariant (λ s, I s ∧ J s) c.
Proof. apply triple_and. Qed.

End invariants.

#[export] Hint Resolve invariant_ret invariant_raise invariant_out_of_fuel
  invariant_get invariant_gets invariant_of_option invariant_bind
  invariant_catch invariant_finally invariant_mapM : inv.

#[export] Hint Extern 2 (invariant _ (if decide _ then _ else _)) =>
  case_decide : inv.
#[export] Hint Extern 2 (invariant _ (match ?x with _ => _ end)) =>
  destruct x : inv.

Section lists.
Context {A B : Type}.

(** [omap] keeps a list duplicate-free when [f] is injective where it is
    defined. *)
Lemma NoDup_omap (f : A → option B) (l : list A) :
  (∀ x y z, x ∈ l → y ∈ l → f x = Some z → f y = Some z → x = y) →
  NoDup l → NoDup (omap f l).
Proof.
  intros Hinj Hl. induction Hl as [|x l Hx Hl IH]; simpl; [constructor|].
  assert (NoDup (omap f l)) as IH'.
  { apply IH. intros ???????. eapply Hinj; eauto using list_elem_of_further. }
  destruct (f x) as [z|] eqn:Hfx; [|done].
  constructor; [|done].
  intros (y & Hy & Hfy)%list_elem_of_omap.
  apply Hx. rewrite (Hinj x y z); eauto using list_elem_of_here, list_elem_of_further.
Qed.

Lemma snoc_ne (l : list A) (x : A) : l ≠ l ++ [x].
Proof.
  intros Heq. apply (f_equal length) in Heq. rewrite length_app in Heq.
  simpl in Heq. lia.
Qed.

End lists.

Section strings.
Context (c : ascii).

Lemma split_on_nonempty s : split_on c s ≠ [].
Proof.
  destruct s as [|a s]; simpl; [done|].
  destruct (Ascii.eqb a c); [done|]. by destruct (split_on c s).
Qed.

(** [c.join(s.split(c)) == s], for every string. *)
Lemma join_split_on s : join c (split_on c s) = s.
Proof.
  unfold join. induction s as [|a s IH]; simpl; [done|].
  destruct (Ascii.eqb_spec a c) as [->|Hne].
  - simpl. pose proof (split_on_nonempty s).
    destruct (split_on c s) as [|w ws] eqn:Hs; [done|].
    simpl in *. by rewrite IH.
  - destruct (split_on c s) as [|w ws] eqn:Hs; simpl in *.
    + by rewrite <- IH.
    + destruct ws; simpl in *; by rewrite <- IH.
Qed.

Lemma split_on_no_sep w : has_char c w = false → split_on c w = [w].
Proof.
  induction w as [|a w IH]; simpl; [done|].
  intros [Ha Hw]%orb_false_iff. rewrite Ha, (IH Hw). done.
Qed.

Lemma split_on_app_sep w s :
  has_char c w = false →
  split_on c (w +:+ String c s) = w :: split_on c s.
Proof.
  induction w as [|a w IH]; simpl.
  - intros _. by rewrite Ascii.eqb_refl.
  - intros [Ha Hw]%orb_false_iff. rewrite Ha, (IH Hw). done.
Qed.

Lemma join_cons2 w w' l :
  join c (w :: w' :: l) = w +:+ String c (join c (w' :: l)).
Proof. reflexivity. Qed.

(** [c.join(l).split(c) == l] when no component contains [c]. *)
Lemma split_on_join l : sep_free c l → split_on c (join c l) = l.
Proof.
  intros [Hne Hall].
  induction Hall as [|w l Hw Hall IH]; [done|].
  destruct l as [|w' l].
  - by apply split_on_no_sep.
  - rewrite join_cons2, split_on_app_sep by done. f_equal. by apply IH.
Qed.

(** Dotted names and paths: [unjoin] undoes [join] on well-formed
    components, the empty list included. *)
Lemma unjoin_join l : components_ok c l → unjoin c (join c l) = l.
Proof.
  intros Hl. destruct l as [|w l]; [done|]. unfold unjoin.
  rewrite decide_False.
  - apply split_on_join. split; [done|].
    eapply Forall_impl; [done|]. by intros ? [].
  - apply Forall_cons in Hl as [[Hw _] _].
    destruct w; [done|]. by destruct l.
Qed.

End strings.
