(* ===== verification/PySyntax.v ===== *)
(** * The Python fragment of the sources

    Values, expressions, statements and exceptions: one constructor for each
    construct that [src/src/__init__.py], [src/src/models/__init__.py],
    [src/src/pricing/__init__.py] and [src/setup.py] use, and the exceptions
    the import system and the built-in functions raise on them.  Module names
    and paths are lists of components; [dotted]/[undotted] and
    [path_str]/[str_path] convert to and from the strings Python stores. *)

From stdpp Require Import gmap strings list fin_maps.
From Stdlib Require Import Ascii.
From S2P Require Import Prelude.

Set Warnings "-register-all".

(** A module name [a.b.c] by its components; a path [a/b/c] likewise,
    relative to the project root. *)
Abbreviation modname := (list string).
Abbreviation path := (list string).

(** ** Values *)

Inductive value : Type :=
| VNone
| VBool (b : bool)
| VStr (s : string)
| VList (vs : list value)
| VDict (kvs : list (string * value))
| VModule (name : modname)
| VBuiltin (f : string)
| VFile (p : string)
| VMethod (self : value) (m : string).

(** A module's namespace (its [__dict__], the globals of its body). *)
Abbreviation namespace := (gmap string value).

(** ** Expressions *)

Inductive expr : Type :=
| EStr (s : string)
| EBool (b : bool)
| EName (x : string)
| EList (es : list expr)
| EDict (kvs : list (string * expr))
| EAttr (e : expr) (a : string)
| ECall (f : expr) (args : list expr) (kwargs : list (string * expr)).

(** ** Statements *)

(** [SDoc] is the string literal that opens a module body, which the
    compiler stores in [__doc__]; [SImportFrom level m names] is
    [from <level dots><m> import names]. *)
Inductive stmt : Type :=
| SDoc (s : string)
| SAssign (x : string) (e : expr)
| SExpr (e : expr)
| SImportFrom (level : nat) (module : modname) (names : list string)
| SWith (e : expr) (x : string) (body : list stmt).

(** The names a statement and a body bind in the namespace of their
    module when they finish. *)
Fixpoint binds (s : stmt) : list string :=
  match s with
  | SDoc _ => ["__doc__"]
  | SAssign x _ => [x]
  | SExpr _ => []
  | SImportFrom _ _ names => names
  | SWith _ x body => x :: (body ≫= binds)
  end.

Definition binds_body (body : list stmt) : list string := body ≫= binds.

(** ** Exceptions *)

Inductive exn : Type :=
| ModuleNotFoundError (name : modname)
| ImportError_cannot_import (x : string) (from : modname)
| ImportError_no_parent
| ImportError_beyond_top
| TypeError_package
| ValueError_empty_name
| NameError (x : string)
| AttributeError (a : string)
| KeyError (k : string)
| TypeError (msg : string)
| ValueError (msg : string)
| FileNotFoundError (p : string).

#[export] Instance exn_eq_dec : EqDecision exn.
Proof. solve_decision. Defined.

(** ** Names and paths as strings *)

Definition dotted (n : modname) : string := join "."%char n.
Definition undotted (s : string) : modname := unjoin "."%char s.

Definition path_str (p : path) : string := join "/"%char p.
Definition str_path (s : string) : path := unjoin "/"%char s.

(** Names and paths whose components Python can tell apart again. *)
Definition valid_modname (n : modname) : Prop := components_ok "."%char n.
Definition valid_path (p : path) : Prop := components_ok "/"%char p.

#[export] Instance valid_modname_dec n : Decision (valid_modname n).
Proof. unfold valid_modname. apply _. Defined.

#[export] Instance valid_path_dec p : Decision (valid_path p).
Proof. unfold valid_path. apply _. Defined.

(** [name.rpartition('.')[0]] and [name.rpartition('.')[2]]. *)
Definition parent (n : modname) : modname := removelast n.
Definition child (n : modname) : string := List.last n "".

(** ** Dictionaries *)

(** [d[k] = v] on an insertion-ordered dictionary: an existing key keeps
    its place. *)
Fixpoint dict_set (k : string) (v : value) (d : list (string * value))
  : list (string * value) :=
  match d with
  | [] => [(k, v)]
  | (k', v') :: d' =>
      if decide (k' = k) then (k, v) :: d' else (k', v') :: dict_set k v d'
  end.

Fixpoint dict_get (k : string) (d : list (string * value)) : option value :=
  match d with
  | [] => None
  | (k', v') :: d' => if decide (k' = k) then Some v' else dict_get k d'
  end.

(** ** Lemmas *)

(** Induction on statements that reaches the statements of a [with]
    body. *)
Lemma stmt_ind_nested (P : stmt → Prop) :
  (∀ d, P (SDoc d)) →
  (∀ x e, P (SAssign x e)) →
  (∀ e, P (SExpr e)) →
  (∀ level module names, P (SImportFrom level module names)) →
  (∀ e x body, Forall P body → P (SWith e x body)) →
  ∀ s, P s.
Proof.
  intros Hdoc Hassign Hexpr Himport Hwith. fix IH 1.
  intros [d|x e|e|level module names|e x body]; [by auto..|].
  apply Hwith. induction body as [|s body IHbody]; constructor; [apply IH|done].
Qed.

(** Induction on expressions that reaches the elements of displays and
    the arguments of calls. *)
Lemma expr_ind_nested (P : expr → Prop) :
  (∀ s, P (EStr s)) →
  (∀ b, P (EBool b)) →
  (∀ x, P (EName x)) →
  (∀ es, Forall P es → P (EList es)) →
  (∀ kvs, Forall (λ kv, P kv.2) kvs → P (EDict kvs)) →
  (∀ e a, P e → P (EAttr e a)) →
  (∀ f args kwargs, P f → Forall P args → Forall (λ kv, P kv.2) kwargs →
                    P (ECall f args kwargs)) →
  ∀ e, P e.
Proof.
  intros Hstr Hbool Hname Hlist Hdict Hattr Hcall. fix IH 1.
  intros [s|b|x|es|kvs|e a|f args kwargs].
  - apply Hstr.
  - apply Hbool.
  - apply Hname.
  - apply Hlist. induction es; constructor; [apply IH|done].
  - apply Hdict. induction kvs as [|[k e] kvs]; constructor; [apply IH|done].
  - apply Hattr, IH.
  - apply Hcall; [apply IH| |].
    + induction args; constructor; [apply IH|done].
    + induction kwargs as [|[k e] kwargs]; constructor; [apply IH|done].
Qed.

Lemma undotted_dotted n : valid_modname n → undotted (dotted n) = n.
Proof. apply unjoin_join. Qed.

Lemma str_path_path_str p : valid_path p → str_path (path_str p) = p.
Proof. apply unjoin_join. Qed.

Lemma parent_snoc n x : parent (n ++ [x]) = n.
Proof. apply removelast_last. Qed.

Lemma child_snoc n x : child (n ++ [x]) = x.
Proof. apply last_last. Qed.

Lemma parent_child n : n ≠ [] → parent n ++ [child n] = n.
Proof. intros Hn. symmetry. by apply app_removelast_last. Qed.

Lemma dict_get_set k v d : dict_get k (dict_set k v d) = Some v.
Proof.
  induction d as [|[k' v'] d IH]; simpl; [by rewrite decide_True|].
  destruct (decide (k' = k)) as [->|Hne]; simpl.
  - by rewrite decide_True.
  - by rewrite decide_False.
Qed.

Lemma dict_get_set_ne k k' v d :
  k ≠ k' → dict_get k' (dict_set k v d) = dict_get k' d.
Proof.
  intros Hne. induction d as [|[k0 v0] d IH]; simpl.
  - by rewrite decide_False.
  - destruct (decide (k0 = k)) as [->|Hne0]; simpl.
    + by rewrite !decide_False.
    + by rewrite IH.
Qed.
