(* ===== verification/Interfaces.v ===== *)
(** * Interfaces between the interpreter and its environment

    The import system asks a finder where a module is and what loads it;
    module bodies call built-in functions and methods of built-in objects.
    Both are type classes here: [Interp] is written and proved against
    them, [FileSystem] and [Setup] provide the instances.

    - [module_spec] is importlib's [ModuleSpec]: name, loader, origin and,
      for a package, the locations its submodules are searched in.
    - [Finder] is [sys.meta_path] seen as one function, [find_spec], with
      the law that a spec carries the name it was asked for.
    - [effects] is the part of the outside world a script changes: the
      files it holds open and the calls it made to built-in functions, in
      order.
    - [Builtins] gives the built-in names, the attributes of built-in
      objects, calls, and the context-manager protocol used by [with]. *)

From stdpp Require Import gmap strings list fin_maps.
From S2P Require Import Prelude PySyntax.

(** ** Module specs *)

(** How a module is initialised: by running a source file, by nothing at
    all (a namespace package), or by an installed library, whose namespace
    after initialisation is given by the environment. *)
Inductive loader : Type :=
| SourceFileLoader (body : list stmt)
| NamespaceLoader
| ExternalLoader (ns : namespace).

Record module_spec : Type := ModuleSpec {
  spec_name : modname;
  spec_loader : loader;
  spec_origin : option path;
  spec_locations : option (list path)
}.

(** [spec.parent]: the package a module belongs to; a package belongs to
    itself. *)
Definition spec_parent (s : module_spec) : modname :=
  match spec_locations s with
  | Some _ => spec_name s
  | None => parent (spec_name s)
  end.

(** ** The finder *)

(** [find_spec name search]: [search] is the parent package's [__path__],
    or [None] for a top-level module ([sys.path] is searched). *)
Class Finder : Type := {
  find_spec : modname → option (list path) → option module_spec;
  find_spec_name n p s : find_spec n p = Some s → spec_name s = n
}.

(** ** Effects on the outside world *)

(** One call of a built-in function or method: its name, positional and
    keyword arguments. *)
Record call : Type := Call {
  call_name : string;
  call_args : list value;
  call_kwargs : list (string * value)
}.

Record effects : Type := Effects {
  open_files : gset string;
  calls : list call
}.

Definition no_effects : effects := Effects ∅ [].

Definition set_open_files (f : gset string → gset string) (w : effects) : effects :=
  Effects (f (open_files w)) (calls w).

Definition log_call (c : call) (w : effects) : effects :=
  Effects (open_files w) (calls w ++ [c]).

(** ** Built-in functions and objects *)

Class Builtins : Type := {
  (** The [builtins] namespace, consulted after the globals. *)
  builtin_name : string → option value;
  (** [getattr] on a value that is not a module. *)
  builtin_getattr : value → string → option value;
  (** Calling a built-in function or bound method. *)
  call_builtin : value → list value → list (string * value) → M exn effects value;
  (** [__enter__] and [__exit__] of a context manager. *)
  with_enter : value → M exn effects value;
  with_exit : value → M exn effects unit
}.

(** An interpreter without built-in names: what a module needs that only
    imports and assigns literals. *)
Definition no_builtins : Builtins :=
  {| builtin_name := λ _, None;
     builtin_getattr := λ _ _, None;
     call_builtin := λ _ _ _, raise (TypeError "object is not callable");
     with_enter := λ _, raise (AttributeError "__enter__");
     with_exit := λ _, raise (AttributeError "__exit__") |}.
