(* ===== verification/Interp.v ===== *)
(** * The interpreter: module bodies and the import system

    The state is [sys.modules], a finite map from module names to
    namespaces, together with the effects on the outside world.  A module
    object is the entry of its name in [sys.modules]: a [VModule n] value is
    a reference into that map, so a namespace updated through one reference
    is seen through all of them.

    The functions follow CPython 3.8 to 3.11, the versions [setup.py]
    declares:
    - [calc_package], [resolve_name]: [resolve_name] of [Python/import.c]
      (the package of a relative import and the absolute name it denotes);
    - [gcd_import], [find_and_load], [load_found], [load_unlocked],
      [init_module_attrs], [handle_fromlist]: [_gcd_import],
      [_find_and_load], [_find_and_load_unlocked], [_load_unlocked],
      [_init_module_attrs], [_handle_fromlist] of
      [Lib/importlib/_bootstrap.py];
    - [import_from]: the [IMPORT_FROM] instruction;
    - [exec_stmt], [exec_body]: the evaluation loop on the statements of
      the fragment; [eval] on its expressions.

    Only imports recurse without a structural bound: [gcd_import] takes
    fuel, and everything it calls reaches it again through the section
    variable [import_rec]. *)

From stdpp Require Import gmap strings list fin_maps.
From Stdlib Require Import Ascii.
From S2P Require Import Prelude PySyntax Interfaces.

(** ** State *)

Record state : Type := State {
  modules : gmap modname namespace;
  world : effects
}.

Definition set_modules (f : gmap modname namespace → gmap modname namespace)
  (st : state) : state :=
  State (f (modules st)) (world st).

Definition set_world (w : effects) (st : state) : state :=
  State (modules st) w.

(** An effect on the outside world, run on the whole state. *)
Definition in_world {A} (c : M exn effects A) : M exn state A :=
  zoom world set_world c.

(** The namespace of module [m]; a name that is not in [sys.modules] has
    no attributes. *)
Definition namespace_of (m : modname) (st : state) : namespace :=
  default ∅ (modules st !! m).

(** [setattr(sys.modules[m], x, v)]. *)
Definition store (m : modname) (x : string) (v : value) : M exn state unit :=
  modify (set_modules (alter (<[x:=v]>) m)).

(** ** Module attributes set by the loader *)

Definition init_module_attrs (s : module_spec) : namespace :=
  let base : namespace :=
    {[ "__name__" := VStr (dotted (spec_name s));
       "__doc__" := VNone;
       "__package__" := VStr (dotted (spec_parent s)) ]} in
  let with_path :=
    match spec_locations s with
    | Some ls => <["__path__" := VList ((λ d, VStr (path_str d)) <$> ls)]> base
    | None => base
    end in
  match spec_origin s with
  | Some o => <["__file__" := VStr (path_str o)]> with_path
  | None => with_path
  end.

(** The entries of a [__path__]: the strings of the list, as paths. *)
Definition path_entries (vs : list value) : list path :=
  omap (λ v, match v with VStr s => Some (str_path s) | _ => None end) vs.

(** A name that [import *] takes when there is no [__all__]: one that
    does not start with an underscore. *)
Definition public_name (x : string) : Prop :=
  match x with
  | String "_"%char _ => False
  | _ => True
  end.

#[export] Instance public_name_dec x : Decision (public_name x).
Proof. destruct x as [|[[] [] [] [] [] [] [] []] ?]; simpl; apply _. Defined.

Section interp.
Context `{!Finder, !Builtins}.

(** ** Expressions *)

Definition getattr (mods : gmap modname namespace) (v : value) (a : string)
  : M exn effects value :=
  match v with
  | VModule m => of_option (mods !! m ≫= (.!! a)) (AttributeError a)
  | _ => of_option (builtin_getattr v a) (AttributeError a)
  end.

Definition lookup_name (g : namespace) (x : string) : option value :=
  match g !! x with
  | Some v => Some v
  | None => builtin_name x
  end.

Fixpoint eval (mods : gmap modname namespace) (g : namespace) (e : expr)
  : M exn effects value :=
  match e with
  | EStr s => ret (VStr s)
  | EBool b => ret (VBool b)
  | EName x => of_option (lookup_name g x) (NameError x)
  | EList es => do vs <- mapM (eval mods g) es; ret (VList vs)
  | EDict kvs =>
      do d <- mapM (λ ke, match ke with
                          | (k, e') => do v <- eval mods g e'; ret (k, v)
                          end) kvs;
      ret (VDict (foldl (λ acc kv, dict_set kv.1 kv.2 acc) [] d))
  | EAttr e' a => do v <- eval mods g e'; getattr mods v a
  | ECall f args kwargs =>
      do fv <- eval mods g f;
      do avs <- mapM (eval mods g) args;
      do kvs <- mapM (λ ke, match ke with
                            | (k, e') => do v <- eval mods g e'; ret (k, v)
                            end) kwargs;
      call_builtin fv avs kvs
  end.

(** An expression of module [self], evaluated in the current state. *)
Definition eval_in (self : modname) (e : expr) : M exn state value :=
  do st <- get;
  in_world (eval (modules st) (namespace_of self st) e).

(** ** Relative imports *)

(** The package a relative import is relative to: [__package__] when it
    is set, else [__name__], cut at its last dot unless the module is a
    package. *)
Definition calc_package (g : namespace) : M exn state modname :=
  do pkg <-
    match g !! "__package__" with
    | Some (VStr s) => ret (undotted s)
    | Some VNone | None =>
        match g !! "__name__" with
        | Some (VStr n) =>
            ret (if decide (is_Some (g !! "__path__")) then undotted n
                 else parent (undotted n))
        | Some _ => raise TypeError_package
        | None => raise (KeyError "__name__")
        end
    | Some _ => raise TypeError_package
    end;
  if decide (pkg = []) then raise ImportError_no_parent else ret pkg.

(** [level] dots in front of [module], seen from package [pkg]. *)
Definition resolve_name (module pkg : modname) (level : nat)
  : M exn state modname :=
  if decide (length pkg < level) then raise ImportError_beyond_top
  else ret (take (length pkg - (level - 1)) pkg ++ module).

Section statements.
Variable import_rec : modname → M exn state unit.

(** ** [from base import names] *)

(** Names of the list that are not attributes of the package are tried as
    submodules; a submodule that does not exist is not an error here. *)
Definition handle_fromlist (base : modname) (names : list string)
  : M exn state unit :=
  forM_ (λ x,
    do ns <- gets (namespace_of base);
    if decide (is_Some (ns !! x)) then ret tt
    else catch (import_rec (base ++ [x]))
           (λ e, if decide (e = ModuleNotFoundError (base ++ [x]))
                 then Some (ret tt) else None)) names.

(** The value bound to [x]: the attribute, else the submodule of that
    name in [sys.modules], else [ImportError]. *)
Definition import_from (base : modname) (x : string) : M exn state value :=
  do mods <- gets modules;
  match mods !! base ≫= (.!! x) with
  | Some v => ret v
  | None =>
      if decide (is_Some (mods !! (base ++ [x]))) then ret (VModule (base ++ [x]))
      else raise (ImportError_cannot_import x base)
  end.

Definition exec_import (self : modname) (level : nat) (module : modname)
  (names : list string) : M exn state unit :=
  do g <- gets (namespace_of self);
  do base <-
    match level with
    | 0 => if decide (module = []) then raise ValueError_empty_name
           else ret module
    | S _ => do pkg <- calc_package g; resolve_name module pkg level
    end;
  run import_rec base;
  do ns <- gets (namespace_of base);
  run (if decide (is_Some (ns !! "__path__")) then handle_fromlist base names
       else ret tt);
  forM_ (λ x, do v <- import_from base x; store self x v) names.

(** ** Statements *)

Fixpoint exec_stmt (self : modname) (s : stmt) : M exn state unit :=
  match s with
  | SDoc d => store self "__doc__" (VStr d)
  | SAssign x e => do v <- eval_in self e; store self x v
  | SExpr e => do _ <- eval_in self e; ret tt
  | SImportFrom level module names => exec_import self level module names
  | SWith e x body =>
      do mgr <- eval_in self e;
      do v <- in_world (with_enter mgr);
      finally (run store self x v; forM_ (exec_stmt self) body)
              (in_world (with_exit mgr))
  end.

Definition exec_body (self : modname) (body : list stmt) : M exn state unit :=
  forM_ (exec_stmt self) body.

(** ** Loading *)

(** The module is entered in [sys.modules] before its body runs and is
    taken out again when the body raises. *)
Definition load_unlocked (s : module_spec) : M exn state unit :=
  let name := spec_name s in
  match spec_loader s with
  | SourceFileLoader body =>
      run modify (set_modules (<[name := init_module_attrs s]>));
      catch (exec_body name body)
        (λ e, Some (run modify (set_modules (delete name)); raise e))
  | NamespaceLoader => modify (set_modules (<[name := init_module_attrs s]>))
  | ExternalLoader ns =>
      modify (set_modules (<[name := ns ∪ init_module_attrs s]>))
  end.

(** Where the submodules of a package are searched: its [__path__]. *)
Definition search_locations (name : modname) (pns : namespace)
  : M exn state (list path) :=
  match pns !! "__path__" with
  | None => raise (ModuleNotFoundError name)
  | Some (VList vs) => ret (path_entries vs)
  | Some _ => raise (TypeError "__path__")
  end.

(** Find, load, and bind the module in its parent. *)
Definition load_found (name : modname) (search : option (list path))
  : M exn state unit :=
  match find_spec name search with
  | None => raise (ModuleNotFoundError name)
  | Some s =>
      run load_unlocked s;
      if decide (parent name = []) then ret tt
      else store (parent name) (child name) (VModule (spec_name s))
  end.

(** The parent package is imported first; importing it may already have
    imported [name]. *)
Definition find_and_load (name : modname) : M exn state unit :=
  let p := parent name in
  if decide (p = []) then load_found name None
  else
    do mods <- gets modules;
    run (if decide (is_Some (mods !! p)) then ret tt else import_rec p);
    do mods' <- gets modules;
    if decide (is_Some (mods' !! name)) then ret tt
    else match mods' !! p with
         | None => raise (KeyError (dotted p))
         | Some pns =>
             do search <- search_locations name pns;
             load_found name (Some search)
         end.

End statements.

(** ** The import loop *)

Fixpoint gcd_import (fuel : nat) (name : modname) : M exn state unit :=
  match fuel with
  | 0 => out_of_fuel
  | S fuel' =>
      do mods <- gets modules;
      if decide (is_Some (mods !! name)) then ret tt
      else find_and_load (gcd_import fuel') name
  end.

(** [importlib.import_module(name)], which is what [import name] does
    before it binds the result. *)
Definition import_module (fuel : nat) (name : modname) : M exn state unit :=
  gcd_import fuel name.

(** [from base import *] seen from outside: the package is imported, the
    names of its [__all__] that are not attributes yet are tried as
    submodules, and each name is read; a name that is still missing
    raises [AttributeError].  Without [__all__] the public names of the
    namespace are taken. *)
Definition import_star (fuel : nat) (base : modname)
  : M exn state (list (string * value)) :=
  run gcd_import fuel base;
  do ns <- gets (namespace_of base);
  do names <-
    match ns !! "__all__" with
    | Some (VList vs) =>
        do names <- mapM (λ v, match v with
                               | VStr x => ret x
                               | _ => raise (TypeError "__all__")
                               end) vs;
        run (if decide (is_Some (ns !! "__path__"))
             then handle_fromlist (gcd_import fuel) base names else ret tt);
        ret names
    | Some _ => raise (TypeError "__all__")
    | None => ret (filter public_name (elements (dom ns)))
    end;
  mapM (λ x, do ns' <- gets (namespace_of base);
             do v <- of_option (ns' !! x) (AttributeError x);
             ret (x, v)) names.

(** ** Running a script *)

Definition main : modname := ["__main__"].

(** The namespace of [__main__] when [python file] starts. *)
Definition main_attrs (file : path) : namespace :=
  {[ "__name__" := VStr "__main__";
     "__doc__" := VNone;
     "__package__" := VNone;
     "__file__" := VStr (path_str file) ]}.

(** [python file]: the body runs as module [__main__]. *)
Definition run_script (fuel : nat) (file : path) (body : list stmt)
  : M exn state unit :=
  run modify (set_modules (<[main := main_attrs file]>));
  exec_body (gcd_import fuel) main body.

End interp.

(** The state of a fresh interpreter. *)
Definition initial_state : state := State ∅ no_effects.
