(* ===== verification/InterpFacts.v ===== *)
(** * Facts about the interpreter

    - Equations that unfold one call of the import system under the
      condition that selects a branch ([gcd_import_hit],
      [find_and_load_sub], [load_unlocked_source], ...): proofs about a
      concrete module body rewrite with them, statement by statement.
    - What a relative import of one name does inside a package
      ([exec_import_relative]) and its two outcomes
      ([from_import_missing], [from_import_loaded]). *)

From stdpp Require Import gmap strings list fin_maps.
From S2P Require Import Prelude PySyntax Interfaces Interp.

Section unfold.
Context `{!Finder, !Builtins}.
Implicit Types (r : modname → M exn state unit) (st : state).

(** ** The import loop *)

Lemma gcd_import_hit fuel name st :
  is_Some (modules st !! name) → gcd_import (S fuel) name st = Done tt st.
Proof. intros Hin. simpl. unfold bind, gets. by rewrite decide_True. Qed.

Lemma gcd_import_miss fuel name st :
  modules st !! name = None →
  gcd_import (S fuel) name st = find_and_load (gcd_import fuel) name st.
Proof.
  intros Hout. simpl. unfold bind, gets. rewrite decide_False; [done|].
  rewrite Hout. by intros [? ?].
Qed.

Lemma find_and_load_top r name st :
  parent name = [] → find_and_load r name st = load_found r name None st.
Proof. intros Hp. unfold find_and_load. by rewrite decide_True. Qed.

(** A submodule whose parent is already imported: the parent's
    [__path__] is searched. *)
Lemma find_and_load_sub r name st pns vs :
  parent name ≠ [] →
  modules st !! parent name = Some pns →
  modules st !! name = None →
  pns !! "__path__" = Some (VList vs) →
  find_and_load r name st = load_found r name (Some (path_entries vs)) st.
Proof.
  intros Hp Hparent Hname Hpath. unfold find_and_load.
  rewrite decide_False by done. unfold bind, gets, ret.
  rewrite decide_True by (by rewrite Hparent).
  rewrite decide_False by (rewrite Hname; by intros [? ?]).
  rewrite Hparent. unfold search_locations. by rewrite Hpath.
Qed.

(** A parent package that cannot be imported: the exception passes
    through. *)
Lemma find_and_load_parent_raises r name st e st' :
  parent name ≠ [] →
  modules st !! parent name = None →
  r (parent name) st = Raise e st' →
  find_and_load r name st = Raise e st'.
Proof.
  intros Hp Hparent Hr. unfold find_and_load.
  rewrite decide_False by done. unfold bind at 1, gets at 1.
  rewrite decide_False by (rewrite Hparent; by intros [? ?]).
  by apply bind_raise.
Qed.

Lemma load_found_none r name search st :
  find_spec name search = None →
  load_found r name search st = Raise (ModuleNotFoundError name) st.
Proof. intros Hf. unfold load_found. by rewrite Hf. Qed.

Lemma load_found_some r name search s st :
  find_spec name search = Some s →
  load_found r name search st
  = bind (load_unlocked r s)
      (λ _, if decide (parent name = []) then ret tt
            else store (parent name) (child name) (VModule (spec_name s))) st.
Proof. intros Hf. unfold load_found. by rewrite Hf. Qed.

(** Loading a source file: the body runs with the module entered under
    its name, and an exception takes the module out again. *)
Lemma load_unlocked_source r s body st :
  spec_loader s = SourceFileLoader body →
  load_unlocked r s st =
  match exec_body r (spec_name s) body
          (set_modules (<[spec_name s := init_module_attrs s]>) st) with
  | Done _ st' => Done tt st'
  | Raise e st' => Raise e (set_modules (delete (spec_name s)) st')
  | OutOfFuel => OutOfFuel
  end.
Proof.
  intros Hl. unfold load_unlocked. rewrite Hl. unfold bind, modify, catch, raise.
  by destruct (exec_body _ _ _ _) as [[] ?| |].
Qed.

(** ** Statements *)

Lemma store_insert m x v ns mods w :
  store m x v (State (<[m := ns]> mods) w)
  = Done tt (State (<[m := <[x := v]> ns]> mods) w).
Proof.
  unfold store, modify, set_modules. cbn [modules world].
  by rewrite alter_insert_eq.
Qed.

Lemma in_world_done {A} (c : M exn effects A) m w a w' :
  c w = Done a w' → in_world c (State m w) = Done a (State m w').
Proof. intros Hc. unfold in_world, zoom. cbn [world]. by rewrite Hc. Qed.

Lemma exec_body_nil r self st : exec_body r self [] st = Done tt st.
Proof. done. Qed.

Lemma exec_body_cons r self s body st :
  exec_body r self (s :: body) st
  = bind (exec_stmt r self s) (λ _, exec_body r self body) st.
Proof. done. Qed.

Lemma exec_doc r self d st :
  exec_stmt r self (SDoc d) st
  = Done tt (set_modules (alter (<["__doc__" := VStr d]>) self) st).
Proof. done. Qed.

(** An assignment whose right-hand side has no effect. *)
Lemma exec_assign_pure r self x e v st :
  (∀ w, eval (modules st) (namespace_of self st) e w = Done v w) →
  exec_stmt r self (SAssign x e) st
  = Done tt (set_modules (alter (<[x := v]>) self) st).
Proof.
  intros He. simpl. unfold eval_in, bind, get, in_world, zoom.
  rewrite He. by destruct st.
Qed.

Lemma eval_list mods g es :
  eval mods g (EList es) = bind (mapM (eval mods g) es) (λ vs, ret (VList vs)).
Proof. done. Qed.

Lemma eval_dict mods g kvs :
  eval mods g (EDict kvs)
  = bind (mapM (λ ke, match ke with
                      | (k, e') => do v <- eval mods g e'; ret (k, v)
                      end) kvs)
      (λ d, ret (VDict (foldl (λ acc kv, dict_set kv.1 kv.2 acc) [] d))).
Proof. done. Qed.

Lemma eval_call mods g f args kwargs :
  eval mods g (ECall f args kwargs)
  = (do fv <- eval mods g f;
     do avs <- mapM (eval mods g) args;
     do kvs <- mapM (λ ke, match ke with
                           | (k, e') => do v <- eval mods g e'; ret (k, v)
                           end) kwargs;
     call_builtin fv avs kvs).
Proof. done. Qed.

Lemma mapM_cons {E S A B} (f : A → M E S B) x l :
  mapM f (x :: l) = bind (f x) (λ y, bind (mapM f l) (λ ys, ret (y :: ys))).
Proof. done. Qed.

Lemma eval_str_list mods g (l : list string) w :
  eval mods g (EList (EStr <$> l)) w = Done (VList (VStr <$> l)) w.
Proof.
  rewrite eval_list. unfold bind at 1.
  assert (mapM (eval mods g) (EStr <$> l) w = Done (VStr <$> l) w) as ->; [|done].
  induction l as [|x l IH]; [done|].
  rewrite !fmap_cons, mapM_cons. unfold bind at 1. simpl. unfold bind. by rewrite IH.
Qed.

(** ** [from . import x] inside a package *)

Lemma import_from_missing self x st ns :
  modules st !! self = Some ns →
  ns !! x = None →
  modules st !! (self ++ [x]) = None →
  import_from self x st = Raise (ImportError_cannot_import x self) st.
Proof.
  intros Hself Hx Hsub. unfold import_from, bind, gets.
  rewrite Hself. simpl. rewrite Hx.
  rewrite decide_False; [done|]. rewrite Hsub. by intros [? ?].
Qed.

Lemma import_from_attr self x st ns v :
  modules st !! self = Some ns →
  ns !! x = Some v →
  import_from self x st = Done v st.
Proof.
  intros Hself Hx. unfold import_from, bind, gets.
  rewrite Hself. simpl. by rewrite Hx.
Qed.

(** The name is not an attribute, but the submodule is in
    [sys.modules]: the module is the value. *)
Lemma import_from_module self x st ns :
  modules st !! self = Some ns →
  ns !! x = None →
  is_Some (modules st !! (self ++ [x])) →
  import_from self x st = Done (VModule (self ++ [x])) st.
Proof.
  intros Hself Hx Hsub. unfold import_from, bind, gets.
  rewrite Hself. simpl. rewrite Hx. by rewrite decide_True.
Qed.

(** The statement [from . import x] in the [__init__] of package
    [self], when [x] is not yet an attribute: the submodule is imported,
    a submodule that cannot be found is passed over, and the name is
    looked up and bound. *)
Lemma exec_import_relative r self x st ns :
  modules st !! self = Some ns →
  ns !! "__package__" = Some (VStr (dotted self)) →
  valid_modname self → self ≠ [] →
  is_Some (ns !! "__path__") →
  ns !! x = None →
  r self st = Done tt st →
  exec_stmt r self (SImportFrom 1 [] [x]) st =
  match r (self ++ [x]) st with
  | Done _ st' => bind (import_from self x) (store self x) st'
  | Raise e st' =>
      if decide (e = ModuleNotFoundError (self ++ [x]))
      then bind (import_from self x) (store self x) st'
      else Raise e st'
  | OutOfFuel => OutOfFuel
  end.
Proof.
  intros Hself Hpkg Hok Hne Hpath Hx Hhit. simpl.
  unfold exec_import, calc_package, resolve_name, handle_fromlist, namespace_of.
  unfold bind, gets, ret, raise, catch. simpl.
  rewrite Hself. simpl. rewrite Hpkg, undotted_dotted by done.
  rewrite decide_False by done.
  rewrite decide_False by (destruct self; [done|simpl; lia]).
  rewrite Nat.sub_0_r, firstn_all, app_nil_r, Hhit, Hself. simpl.
  rewrite decide_True by done. unfold bind, ret. rewrite Hself. simpl.
  rewrite decide_False by (rewrite Hx; by intros [? ?]).
  destruct (r (self ++ [x]) st) as [[] st'|e st'|]; [| |done].
  - by destruct (import_from self x st') as [? ?| |];
      [destruct (store _ _ _ _) as [[] ?| |]|..].
  - case_decide; [|done].
    by destruct (import_from self x st') as [? ?| |];
      [destruct (store _ _ _ _) as [[] ?| |]|..].
Qed.

(** The same statement when the import of the package itself runs out
    of fuel: so does the statement. *)
Lemma exec_import_out_of_fuel r self names st ns :
  modules st !! self = Some ns →
  ns !! "__package__" = Some (VStr (dotted self)) →
  valid_modname self → self ≠ [] →
  r self st = OutOfFuel →
  exec_stmt r self (SImportFrom 1 [] names) st = OutOfFuel.
Proof.
  intros Hself Hpkg Hok Hne Hfuel. simpl.
  unfold exec_import, calc_package, resolve_name, namespace_of.
  unfold bind, gets, ret, raise. simpl.
  rewrite Hself. simpl. rewrite Hpkg, undotted_dotted by done.
  rewrite decide_False by done.
  rewrite decide_False by (destruct self; [done|simpl; lia]).
  by rewrite Nat.sub_0_r, firstn_all, app_nil_r, Hfuel.
Qed.

(** The name is neither an attribute nor a module that can be found:
    [ImportError], and nothing has changed. *)
Lemma from_import_missing fuel self x st ns vs :
  modules st !! self = Some ns →
  ns !! "__package__" = Some (VStr (dotted self)) →
  valid_modname self → self ≠ [] →
  ns !! "__path__" = Some (VList vs) →
  ns !! x = None →
  modules st !! (self ++ [x]) = None →
  find_spec (self ++ [x]) (Some (path_entries vs)) = None →
  exec_stmt (gcd_import (S fuel)) self (SImportFrom 1 [] [x]) st
  = Raise (ImportError_cannot_import x self) st.
Proof.
  intros Hself Hpkg Hok Hne Hpath Hx Hsub Hfind.
  rewrite (exec_import_relative _ _ _ _ ns);
    [|first [done|rewrite Hpath; by eexists
             |apply gcd_import_hit; rewrite Hself; by eexists]..].
  rewrite gcd_import_miss by done.
  rewrite (find_and_load_sub _ _ _ ns vs) by (by rewrite ?parent_snoc).
  rewrite load_found_none by done. rewrite decide_True by done.
  rewrite (bind_raise _ _ _ (ImportError_cannot_import x self) st); [done|].
  by apply (import_from_missing _ _ _ ns).
Qed.

(** A body that raises takes its module out of [sys.modules]. *)
Lemma load_unlocked_raises r s body st e st' :
  spec_loader s = SourceFileLoader body →
  exec_body r (spec_name s) body
    (set_modules (<[spec_name s := init_module_attrs s]>) st) = Raise e st' →
  load_unlocked r s st = Raise e (set_modules (delete (spec_name s)) st').
Proof. intros Hl Hbody. by rewrite (load_unlocked_source _ _ body), Hbody. Qed.

(** A body that runs out of fuel: so does the load. *)
Lemma load_unlocked_out_of_fuel r s body st :
  spec_loader s = SourceFileLoader body →
  exec_body r (spec_name s) body
    (set_modules (<[spec_name s := init_module_attrs s]>) st) = OutOfFuel →
  load_unlocked r s st = OutOfFuel.
Proof. intros Hl Hbody. by rewrite (load_unlocked_source _ _ body), Hbody. Qed.

(** A top-level module whose body raises: the import raises, and what
    the body did to the other modules stays. *)
Lemma gcd_import_top_raises fuel name s body st e ns m' w' :
  parent name = [] →
  modules st !! name = None →
  find_spec name None = Some s →
  spec_loader s = SourceFileLoader body →
  exec_body (gcd_import fuel) name body
    (set_modules (<[name := init_module_attrs s]>) st)
  = Raise e (State (<[name := ns]> m') w') →
  m' !! name = None →
  gcd_import (S fuel) name st = Raise e (State m' w').
Proof.
  intros Hparent Hname Hfind Hloader Hbody Hm'.
  pose proof (find_spec_name _ _ _ Hfind) as Hs.
  rewrite gcd_import_miss, find_and_load_top by done.
  rewrite (load_found_some _ _ _ s) by done. apply bind_raise.
  rewrite <- Hs in Hbody.
  rewrite (load_unlocked_raises _ s body st _ _ Hloader Hbody).
  unfold set_modules; cbn [modules world].
  by rewrite Hs, delete_insert_eq, delete_id.
Qed.

(** A body that finishes leaves its module in [sys.modules]; and a load
    that finished ran the body to its end. *)
Lemma load_unlocked_done r s body st st' :
  spec_loader s = SourceFileLoader body →
  exec_body r (spec_name s) body
    (set_modules (<[spec_name s := init_module_attrs s]>) st) = Done tt st' →
  load_unlocked r s st = Done tt st'.
Proof. intros Hl Hbody. by rewrite (load_unlocked_source _ _ body), Hbody. Qed.

Lemma load_unlocked_done_inv r s body st st' :
  spec_loader s = SourceFileLoader body →
  load_unlocked r s st = Done tt st' →
  exec_body r (spec_name s) body
    (set_modules (<[spec_name s := init_module_attrs s]>) st) = Done tt st'.
Proof.
  intros Hl. rewrite (load_unlocked_source _ _ body) by done.
  by destruct (exec_body _ _ _ _) as [[] ?| |].
Qed.

Lemma exec_body_app r self body1 body2 st :
  exec_body r self (body1 ++ body2) st
  = bind (exec_body r self body1) (λ _, exec_body r self body2) st.
Proof. apply forM__app. Qed.

End unfold.

(** * More fuel, same outcome *)

Section fuel.
Context `{!Finder, !Builtins}.
Implicit Types (r : modname → M exn state unit) (st : state).

(** [r'] does what [r] does, with at least as much fuel. *)
Definition rec_le r r' : Prop := ∀ n, M_le (r n) (r' n).

Lemma handle_fromlist_mono r r' base names :
  rec_le r r' → M_le (handle_fromlist r base names) (handle_fromlist r' base names).
Proof. intros Hr. unfold handle_fromlist. solve_mono. Qed.

Lemma exec_import_mono r r' self level module names :
  rec_le r r' →
  M_le (exec_import r self level module names)
       (exec_import r' self level module names).
Proof.
  intros Hr. unfold exec_import. eauto 20 using handle_fromlist_mono with fuel.
Qed.

Lemma exec_stmt_mono r r' self s :
  rec_le r r' → M_le (exec_stmt r self s) (exec_stmt r' self s).
Proof.
  intros Hr. induction s as [| | | |e x body IH] using stmt_ind_nested;
    [done|done|done|by apply exec_import_mono|].
  change (exec_stmt ?r self (SWith e x body))
    with (bind (eval_in self e) (λ mgr, bind (in_world (with_enter mgr))
          (λ v, finally (bind (store self x v) (λ _, forM_ (exec_stmt r self) body))
                        (in_world (with_exit mgr))))).
  pose proof (M_le_forM_Forall _ _ _ _ (λ _ H, H) IH). solve_mono.
Qed.

Lemma exec_body_mono r r' self body :
  rec_le r r' → M_le (exec_body r self body) (exec_body r' self body).
Proof. intros Hr. apply M_le_forM_. intros s. by apply exec_stmt_mono. Qed.

Lemma load_unlocked_mono r r' s :
  rec_le r r' → M_le (load_unlocked r s) (load_unlocked r' s).
Proof.
  intros Hr. unfold load_unlocked. eauto 20 using exec_body_mono with fuel.
Qed.

Lemma load_found_mono r r' name search :
  rec_le r r' → M_le (load_found r name search) (load_found r' name search).
Proof.
  intros Hr. unfold load_found. eauto 20 using load_unlocked_mono with fuel.
Qed.

Lemma find_and_load_mono r r' name :
  rec_le r r' → M_le (find_and_load r name) (find_and_load r' name).
Proof.
  intros Hr. unfold find_and_load. eauto 20 using load_found_mono with fuel.
Qed.

(** The outcome of an import that had enough fuel is its outcome with
    any larger amount. *)
Lemma gcd_import_fuel_mono n m name :
  n ≤ m → M_le (gcd_import n name) (gcd_import m name).
Proof.
  revert m name. induction n as [|n IH]; intros m name Hnm.
  { apply M_le_out_of_fuel. }
  destruct m as [|m]; [lia|].
  change (gcd_import (S ?k) name)
    with (bind (gets modules) (λ mods,
            if decide (is_Some (mods !! name)) then ret tt
            else find_and_load (gcd_import k) name)).
  apply M_le_bind; [done|]. intros mods. case_decide; [done|].
  apply find_and_load_mono. intros name'. apply IH. lia.
Qed.

End fuel.

(** * The frame of an import: [sys.modules] only grows *)

(** [grows st st']: every module of [st] is a module of [st'], with at
    least the attributes it had. *)
Definition grows (st st' : state) : Prop :=
  ∀ m ns, modules st !! m = Some ns →
          ∃ ns', modules st' !! m = Some ns' ∧ dom ns ⊆ dom ns'.

#[export] Instance grows_preorder : PreOrder grows.
Proof.
  split; [intros st m ns ?; by exists ns|].
  intros st1 st2 st3 H12 H23 m ns Hm.
  destruct (H12 m ns Hm) as (ns2 & Hm2 & ?).
  destruct (H23 m ns2 Hm2) as (ns3 & Hm3 & ?).
  exists ns3. split; [done|set_solver].
Qed.

Lemma grows_refl st : grows st st.
Proof. reflexivity. Qed.

#[export] Hint Resolve grows_refl : core.

Lemma grows_store m x v st : grows st (set_modules (alter (<[x:=v]>) m) st).
Proof.
  intros k ns Hk. cbn [modules set_modules].
  destruct (decide (m = k)) as [->|Hne].
  - exists (<[x:=v]> ns). rewrite lookup_alter_eq, Hk. split; [done|].
    rewrite dom_insert. set_solver.
  - exists ns. by rewrite lookup_alter_ne.
Qed.

Lemma grows_set_world w st : grows st (set_world w st).
Proof. intros k ns Hk. by exists ns. Qed.

Lemma grows_insert_fresh name ns st st' :
  modules st !! name = None → grows st st' →
  grows st (set_modules (<[name:=ns]>) st').
Proof.
  intros Hname Hst k ns' Hk. destruct (Hst k ns' Hk) as (ns'' & Hk' & ?).
  exists ns''. cbn [modules set_modules].
  rewrite lookup_insert_ne; [done|]. by intros ->; rewrite Hname in Hk.
Qed.

Lemma grows_delete_fresh name st st' :
  modules st !! name = None → grows st st' → grows st (set_modules (delete name) st').
Proof.
  intros Hname Hst k ns Hk. destruct (Hst k ns Hk) as (ns' & Hk' & ?).
  exists ns'. cbn [modules set_modules].
  rewrite lookup_delete_ne; [done|]. by intros ->; rewrite Hname in Hk.
Qed.

(** A property of states that growth cannot break. *)
Definition up_closed (I : state → Prop) : Prop :=
  ∀ st st', I st → grows st st' → I st'.

(** Module [m] is in [sys.modules] and has attribute [x]. *)
Definition bound (m : modname) (x : string) (st : state) : Prop :=
  is_Some (modules st !! m ≫= (.!! x)).

Definition present (m : modname) (st : state) : Prop :=
  is_Some (modules st !! m).

Lemma up_closed_present m : up_closed (present m).
Proof.
  unfold present. intros st st' [ns Hm] Hst.
  destruct (Hst m ns Hm) as (ns' & -> & _). done.
Qed.

Lemma up_closed_bound m x : up_closed (bound m x).
Proof.
  unfold bound. intros st st' [v Hv] Hst.
  destruct (modules st !! m) as [ns|] eqn:Hm; [|done]. simpl in Hv.
  destruct (Hst m ns Hm) as (ns' & -> & Hdom). simpl.
  apply elem_of_dom, Hdom, elem_of_dom. by exists v.
Qed.

Lemma up_closed_and I J : up_closed I → up_closed J → up_closed (λ st, I st ∧ J st).
Proof. intros HI HJ st st' [??] Hst. split; [by eapply HI|by eapply HJ]. Qed.

Lemma up_closed_forall {A} (P : A → Prop) (I : A → state → Prop) :
  (∀ a, up_closed (I a)) → up_closed (λ st, ∀ a, P a → I a st).
Proof. intros HI st st' H Hst a Ha. eapply HI; eauto. Qed.

Lemma bound_store m x v st : present m st → bound m x (set_modules (alter (<[x:=v]>) m) st).
Proof.
  intros [ns Hm]. unfold bound. cbn [modules set_modules].
  rewrite lookup_alter_eq, Hm. simpl. rewrite lookup_insert_eq. done.
Qed.

(** [r] keeps the frame, whatever it imports. *)
Definition rec_grows (r : modname → M exn state unit) : Prop :=
  ∀ n, preserves grows (r n).

#[global] Arguments exec_body : simpl never.
#[global] Arguments exec_stmt : simpl never.
#[global] Arguments gcd_import : simpl never.
#[global] Arguments init_module_attrs : simpl never.


(** * The attributes a loader sets *)

Lemma init_attrs_package s ls :
  spec_locations s = Some ls →
  init_module_attrs s !! "__package__" = Some (VStr (dotted (spec_name s))).
Proof.
  intros Hls. unfold init_module_attrs, spec_parent. rewrite Hls.
  destruct (spec_origin s); rewrite ?(lookup_insert_ne _ "__file__") by done;
    by rewrite (lookup_insert_ne _ "__path__"), (lookup_insert_ne _ "__name__"),
         (lookup_insert_ne _ "__doc__"), lookup_singleton_eq by done.
Qed.

Lemma init_attrs_path s ls :
  spec_locations s = Some ls →
  init_module_attrs s !! "__path__"
  = Some (VList ((λ d, VStr (path_str d)) <$> ls)).
Proof.
  intros Hls. unfold init_module_attrs. rewrite Hls.
  destruct (spec_origin s); rewrite ?(lookup_insert_ne _ "__file__") by done;
    by rewrite lookup_insert_eq.
Qed.

(** The loader sets five attributes and no other. *)
Lemma init_attrs_fresh s x :
  x ∉ ["__name__"; "__doc__"; "__package__"; "__path__"; "__file__"] →
  init_module_attrs s !! x = None.
Proof.
  rewrite !not_elem_of_cons. intros (? & ? & ? & ? & ? & _).
  unfold init_module_attrs.
  destruct (spec_origin s), (spec_locations s);
    rewrite ?(lookup_insert_ne _ "__file__"), ?(lookup_insert_ne _ "__path__") by done;
    by rewrite (lookup_insert_ne _ "__name__"), (lookup_insert_ne _ "__doc__"),
         lookup_singleton_ne by done.
Qed.

Lemma path_entries_strs ls :
  Forall valid_path ls → path_entries ((λ d, VStr (path_str d)) <$> ls) = ls.
Proof.
  unfold path_entries. induction 1 as [|d ls Hd _ IH]; [done|].
  rewrite fmap_cons. cbn [omap list_omap]. fold (@omap list _).
  rewrite str_path_path_str by done. by f_equal.
Qed.

Lemma path_entries_singleton d :
  valid_path d → path_entries [VStr (path_str d)] = [d].
Proof. intros Hd. apply (path_entries_strs [d]). by constructor. Qed.
