(* ===== verification/Invariants.v ===== *)
(** * Invariants of module bodies and of the import system

    What a statement can do to the interpreter state is little: it
    evaluates expressions, which reach the outside world and nothing
    else; it imports, through the import system; and it stores the names
    it binds in the namespace of its own module.  So a property of the
    state that the outside world cannot break, that imports keep and that
    these stores keep is kept by the statement, however it ends
    ([invariant_exec_stmt], [invariant_exec_body]).

    The import system in turn changes [sys.modules] in four ways only,
    which the class [ImportInvariant] lists; every import keeps an
    instance of it ([gcd_import_invariant]).  The first instance is the
    frame of an import: whether it succeeds or raises, every module that
    was in [sys.modules] is still there, with at least the attributes it
    had ([gcd_import_grows]). *)

From stdpp Require Import gmap strings list fin_maps.
From S2P Require Import Prelude PySyntax Interfaces Interp InterpFacts.

(** A property of [sys.modules] alone. *)
Definition ignores_world (I : state → Prop) : Prop :=
  ∀ w st, I st → I (set_world w st).

Section statements.
Context `{!Finder, !Builtins}.
Variable I : state → Prop.
Hypothesis I_world : ignores_world I.
Variable r : modname → M exn state unit.
Hypothesis I_rec : ∀ n, invariant I (r n).

Lemma invariant_in_world {A} (c : M exn effects A) : invariant I (in_world c).
Proof. apply invariant_zoom. intros s t. apply I_world. Qed.

Lemma invariant_eval_in self e : invariant I (eval_in self e).
Proof. unfold eval_in. eauto using invariant_in_world with inv. Qed.

Lemma invariant_import_from base x : invariant I (import_from base x).
Proof. unfold import_from. solve_invariant. Qed.

Lemma invariant_handle_fromlist base names :
  invariant I (handle_fromlist r base names).
Proof.
  apply invariant_forM_. intros x _.
  apply invariant_bind; [solve_invariant|]. intros ns.
  case_decide; [solve_invariant|].
  apply invariant_catch; [apply I_rec|]. intros e k.
  case_decide; [|done]. intros [= <-]. apply invariant_ret.
Qed.

Lemma invariant_calc_package g : invariant I (calc_package g).
Proof. unfold calc_package. solve_invariant. Qed.

(** The absolute name an import statement denotes. *)
Lemma invariant_import_base level module g :
  invariant I
    (match level with
     | 0 => if decide (module = []) then raise ValueError_empty_name
            else ret module
     | S _ => do pkg <- calc_package g; resolve_name module pkg level
     end).
Proof. unfold resolve_name. eauto 20 using invariant_calc_package with inv. Qed.

Lemma invariant_exec_import self level module names :
  (∀ y v, y ∈ names → invariant I (store self y v)) →
  invariant I (exec_import r self level module names).
Proof.
  intros Hstore. unfold exec_import.
  apply invariant_bind; [solve_invariant|]. intros g.
  apply invariant_bind; [apply invariant_import_base|]. intros base.
  apply invariant_bind; [apply I_rec|]. intros _.
  apply invariant_bind; [solve_invariant|]. intros ns.
  apply invariant_bind; [eauto using invariant_handle_fromlist with inv|].
  intros _. apply invariant_forM_. intros x Hx.
  eauto using invariant_import_from with inv.
Qed.

(** A statement keeps what the stores of the names it binds keep. *)
Lemma invariant_exec_stmt self s :
  (∀ y v, y ∈ binds s → invariant I (store self y v)) →
  invariant I (exec_stmt r self s).
Proof.
  induction s as [d|x e|e|level module names|e x body IH]
    using stmt_ind_nested; intros Hstore.
  - apply Hstore. set_solver.
  - apply (invariant_bind _ (eval_in self e)); [apply invariant_eval_in|].
    intros v. apply Hstore. set_solver.
  - apply (invariant_bind _ (eval_in self e)); [apply invariant_eval_in|].
    intros v. apply invariant_ret.
  - by apply invariant_exec_import.
  - apply (invariant_bind _ (eval_in self e)); [apply invariant_eval_in|].
    intros mgr. apply invariant_bind; [apply invariant_in_world|].
    intros v. apply invariant_finally; [|apply invariant_in_world].
    apply invariant_bind; [apply Hstore; set_solver|]. intros _.
    apply invariant_forM_. intros s Hs.
    apply (proj1 (Forall_forall _ _) IH s Hs). intros y v' Hy.
    apply Hstore. simpl. apply list_elem_of_further, list_elem_of_bind. eauto.
Qed.

Lemma invariant_exec_body self body :
  (∀ y v, y ∈ binds_body body → invariant I (store self y v)) →
  invariant I (exec_body r self body).
Proof.
  intros Hstore. apply invariant_forM_. intros s Hs.
  apply invariant_exec_stmt. intros y v Hy.
  apply Hstore, list_elem_of_bind. eauto.
Qed.

End statements.

(** * Invariants of the import system

    The import system changes [sys.modules] in four ways: it enters a
    module it has found and that was not there, it takes such a module
    out again when its body raises, it runs the body, which stores in the
    namespace of that module, and it binds the module in its parent.  An
    invariant that from its own truth, the absence of a module and the
    answer of the finder can tell that these four are harmless for that
    module ([foreign]) is kept by every import. *)
Class ImportInvariant `{!Finder} (I : state → Prop) (foreign : modname → Prop) := {
  inv_world : ignores_world I;
  inv_fresh name search s st :
    I st → modules st !! name = None → find_spec name search = Some s →
    foreign name;
  inv_insert name ns st :
    foreign name → I st → I (set_modules (<[name := ns]>) st);
  inv_delete name st :
    foreign name → I st → I (set_modules (delete name) st);
  inv_store name y v st :
    foreign name → I st → I (set_modules (alter (<[y := v]>) name) st);
  inv_child name st :
    foreign name → parent name ≠ [] → I st →
    I (set_modules (alter (<[child name := VModule name]>) (parent name)) st)
}.

Section imports.
Context `{!Finder, !Builtins}.
Context (I : state → Prop) (foreign : modname → Prop).
Context `{!ImportInvariant I foreign}.
Variable r : modname → M exn state unit.
Hypothesis I_rec : ∀ n, invariant I (r n).

Lemma invariant_load_unlocked s :
  foreign (spec_name s) → invariant I (load_unlocked r s).
Proof.
  intros Hs. unfold load_unlocked.
  assert (invariant I (modify (E:=exn)
            (set_modules (<[spec_name s := init_module_attrs s]>)))) as Hins.
  { apply invariant_modify. intros st. by apply inv_insert. }
  destruct (spec_loader s) as [body| |ns]; [|done|].
  - apply invariant_bind; [done|]. intros _. apply invariant_catch.
    + apply invariant_exec_body; [apply inv_world|done|]. intros y v _.
      apply invariant_modify. intros st. by apply inv_store.
    + intros e k [= <-]. apply invariant_bind; [|intros; apply invariant_raise].
      apply invariant_modify. intros st. by apply inv_delete.
  - apply invariant_modify. intros st. by apply inv_insert.
Qed.

Lemma invariant_load_found name search :
  triple (λ st, I st ∧ modules st !! name = None) (load_found r name search)
    (λ _, I) (λ _, I).
Proof.
  unfold load_found. destruct (find_spec name search) as [s|] eqn:Hfind.
  - intros st [HI Hname]. pose proof (find_spec_name _ _ _ Hfind) as Hs.
    pose proof (inv_fresh _ _ _ _ HI Hname Hfind) as Hforeign.
    refine (invariant_bind I (load_unlocked r s) _ _ _ st HI).
    + apply invariant_load_unlocked. by rewrite Hs.
    + intros _. case_decide; [apply invariant_ret|]. apply invariant_modify.
      intros st'. rewrite Hs. by apply inv_child.
  - apply triple_raise. by intros st [??].
Qed.

Lemma invariant_find_and_load name :
  triple (λ st, I st ∧ modules st !! name = None) (find_and_load r name)
    (λ _, I) (λ _, I).
Proof.
  unfold find_and_load. case_decide; [apply invariant_load_found|].
  apply (triple_bind _ _ _ (λ _, I)); [apply triple_gets; by intros ? []|].
  intros mods. apply (triple_bind _ _ _ (λ _, I)).
  { case_decide; [apply invariant_ret|apply I_rec]. }
  intros _. apply (triple_bind _ _ _ (λ mods' st, I st ∧ mods' = modules st));
    [by apply triple_gets|].
  intros mods'. case_decide as Hname; [apply triple_ret; by intros ? []|].
  destruct (mods' !! parent name) as [pns|]; [|apply triple_raise; by intros ? []].
  apply (triple_bind _ _ _ (λ _ st, I st ∧ mods' = modules st)).
  { unfold search_locations.
    destruct (pns !! "__path__") as [[]|];
      first [by apply triple_ret|by apply triple_raise; intros ? []]. }
  intros search. eapply triple_conseq; [apply invariant_load_found| |done..].
  intros st [HI ->]. split; [done|by apply eq_None_not_Some].
Qed.

End imports.

(** Every import keeps an invariant of the import system. *)
Lemma gcd_import_invariant `{!Finder, !Builtins} I foreign
    `{!ImportInvariant I foreign} fuel name :
  invariant I (gcd_import fuel name).
Proof.
  revert name. induction fuel as [|fuel IH]; intros name.
  { apply invariant_out_of_fuel. }
  change (gcd_import (S fuel) name)
    with (bind (gets modules) (λ mods,
            if decide (is_Some (mods !! name)) then ret tt
            else find_and_load (gcd_import fuel) name)).
  apply (triple_bind _ _ _ (λ mods st, I st ∧ mods = modules st));
    [by apply triple_gets|].
  intros mods. case_decide as Hname; [apply triple_ret; by intros ? []|].
  eapply triple_conseq; [by apply (invariant_find_and_load I foreign)| |done..].
  intros st [HI ->]. split; [done|by apply eq_None_not_Some].
Qed.

(** * The frame of an import: [sys.modules] only grows *)

(** The modules that may be entered and taken out again without harm to
    what [st0] holds are those that [st0] does not hold. *)
#[export] Instance grows_invariant `{!Finder} st0 :
  ImportInvariant (grows st0) (λ name, modules st0 !! name = None).
Proof.
  split.
  - intros w st Hst. exact (transitivity Hst (grows_set_world w st)).
  - intros name search s st Hst Hname _.
    destruct (modules st0 !! name) as [ns|] eqn:Hname0; [|done].
    destruct (Hst name ns Hname0) as (ns' & Hname' & _). congruence.
  - intros name ns st. apply grows_insert_fresh.
  - intros name st. apply grows_delete_fresh.
  - intros name y v st _ Hst. exact (transitivity Hst (grows_store _ _ _ _)).
  - intros name st _ _ Hst. exact (transitivity Hst (grows_store _ _ _ _)).
Qed.

(** The frame theorem: an import, whether it succeeds or raises, keeps
    every module that was in [sys.modules] and every attribute it had. *)
Lemma gcd_import_grows `{!Finder, !Builtins} fuel name :
  preserves grows (gcd_import fuel name).
Proof.
  intros st. pose proof (gcd_import_invariant (grows st) _ fuel name st
                           (reflexivity st)) as Hst.
  by destruct (gcd_import fuel name st).
Qed.

(** Code that keeps the frame keeps what growth cannot break. *)
Lemma up_closed_invariant {A} (c : M exn state A) (I : state → Prop) :
  preserves grows c → up_closed I → invariant I c.
Proof. intros Hc HI. exact (triple_preserves grows I c Hc HI). Qed.

Lemma up_closed_world (I : state → Prop) : up_closed I → ignores_world I.
Proof. intros HI w st Hst. exact (HI _ _ Hst (grows_set_world w st)). Qed.
