(* ===== verification/FileSystem.v ===== *)
(** * The file system and the path-based finder

    A project directory is a finite map from paths (relative to the
    project root) to files: Python sources, kept as their statement lists,
    and text files.  A directory exists when a file lies below it.

    - [file_finder] is [FileFinder.find_spec] of
      [Lib/importlib/_bootstrap_external.py] for one directory of the
      search path: a directory with an [__init__.py] is a regular package,
      else a file [name.py] is a module, else a bare directory is a portion
      of a namespace package.
    - [path_finder] is [PathFinder.find_spec]: the entries in order, the
      first loader wins, namespace portions are collected.
    - [env_find_spec] searches the project first and the installed
      libraries next (the order of [sys.path] when the interpreter is
      started in the project root); it is the [Finder] instance.
    - [find_packages] is [setuptools.find_packages(where=...)] with its
      default [include] and [exclude]: every directory below [where] that
      has an [__init__.py], as have all directories between [where] and
      it, and no dot in its name.  setuptools returns them in the order
      of [os.walk], parents first and the entries of one directory as the
      file system lists them; the model lists them by name
      ([walk_le]). *)

From stdpp Require Import gmap strings list fin_maps sorting lexico.
From Stdlib Require Import Ascii.
From S2P Require Import Prelude PySyntax Interfaces.

(** ** Files and directories *)

Record file_system : Type := FileSystem {
  py_files : gmap path (list stmt);
  text_files : gmap path string
}.

Definition all_files (fs : file_system) : gset path :=
  dom (py_files fs) ∪ dom (text_files fs).

Definition is_file (fs : file_system) (p : path) : bool :=
  bool_decide (p ∈ all_files fs).

(** The directories above a file: its proper prefixes. *)
Definition proper_prefixes (p : path) : list path :=
  (λ k, take k p) <$> seq 0 (length p).

Definition directories (fs : file_system) : gset path :=
  list_to_set (elements (all_files fs) ≫= proper_prefixes).

Definition is_dir (fs : file_system) (d : path) : bool :=
  bool_decide (d ∈ directories fs).

(** A path string as the operating system reads it from the project
    root ([os.path.normpath], [os.path.relpath]): empty components and
    [.] drop out, so that [""], ["."] and ["./"] are the root itself.
    A component [..] is not resolved. *)
Definition normpath (s : string) : path :=
  filter (λ c, c ≠ "" ∧ c ≠ ".") (split_on "/"%char s).

(** What the interpreter finds installed: the project directory and the
    libraries of the installation, each given by its namespace. *)
Record environment : Type := Environment {
  env_fs : file_system;
  env_site : gmap modname namespace
}.

(** ** The finder *)

Inductive found : Type :=
| FoundSpec (s : module_spec)
| FoundPortion (d : path)
| NotFound.

Definition package_spec (name : modname) (dir : path) (body : list stmt)
  : module_spec :=
  ModuleSpec name (SourceFileLoader body) (Some (dir ++ ["__init__.py"]))
    (Some [dir]).

Definition source_spec (name : modname) (file : path) (body : list stmt)
  : module_spec :=
  ModuleSpec name (SourceFileLoader body) (Some file) None.

Definition namespace_spec (name : modname) (portions : list path)
  : module_spec :=
  ModuleSpec name NamespaceLoader None (Some portions).

Definition external_spec (name : modname) (ns : namespace) : module_spec :=
  ModuleSpec name (ExternalLoader ns) None None.

Definition file_finder (fs : file_system) (entry : path) (name : modname)
  : found :=
  let tail := child name in
  let dir := entry ++ [tail] in
  let file := entry ++ [tail +:+ ".py"] in
  match (if is_dir fs dir then py_files fs !! (dir ++ ["__init__.py"]) else None) with
  | Some body => FoundSpec (package_spec name dir body)
  | None =>
      match py_files fs !! file with
      | Some body => FoundSpec (source_spec name file body)
      | None => if is_dir fs dir then FoundPortion dir else NotFound
      end
  end.

Fixpoint path_finder (fs : file_system) (entries : list path) (name : modname)
  (portions : list path) : found + list path :=
  match entries with
  | [] => inr portions
  | e :: es =>
      match file_finder fs e name with
      | FoundSpec s => inl (FoundSpec s)
      | FoundPortion d => path_finder fs es name (portions ++ [d])
      | NotFound => path_finder fs es name portions
      end
  end.

(** [sys.path] without the installed libraries: the project root. *)
Definition project_path : list path := [[]].

Definition env_find_spec (env : environment) (name : modname)
  (search : option (list path)) : option module_spec :=
  match path_finder (env_fs env) (default project_path search) name [] with
  | inl (FoundSpec s) => Some s
  | inl _ => None
  | inr portions =>
      match env_site env !! name with
      | Some ns => Some (external_spec name ns)
      | None => if decide (portions = []) then None
                else Some (namespace_spec name portions)
      end
  end.

(** No file and no directory is called [x] or [x.py]. *)
Definition names_nothing (fs : file_system) (x : string) : Prop :=
  set_Forall (λ p, (x ∉ p) ∧ ((x +:+ ".py") ∉ p)) (all_files fs).

#[export] Instance names_nothing_dec fs x : Decision (names_nothing fs x).
Proof. unfold names_nothing. apply _. Defined.

(** ** [find_packages] *)

Definition looks_like_package (fs : file_system) (d : path) : bool :=
  is_file fs (d ++ ["__init__.py"]).

(** Every directory from [where_] down to [where_ ++ rel] is a package
    with a dot-free name. *)
Definition package_chain (fs : file_system) (where_ rel : path) : bool :=
  forallb (λ k, looks_like_package fs (where_ ++ take k rel)
                && negb (has_char "." (child (take k rel))))
          (seq 1 (length rel)).

(** The part of [p] below [where_], when [p] is below it. *)
Fixpoint strip_prefix (where_ p : path) : option path :=
  match where_, p with
  | [], _ => Some p
  | w :: ws, x :: xs => if decide (w = x) then strip_prefix ws xs else None
  | _ :: _, [] => None
  end.

(** The order of a top-down walk in which every directory lists its
    entries by name: a directory comes before what lies below it, and
    the entries of one directory by their character codes.  ([os.walk]
    visits a directory before its subdirectories too; the order of the
    entries of one directory is the file system's.) *)
Definition path_key (p : path) : list (list N) :=
  (λ s, N_of_ascii <$> String.list_ascii_of_string s) <$> p.

Definition walk_le (p q : path) : Prop :=
  path_key p = path_key q ∨ lexico (path_key p) (path_key q).

#[export] Instance walk_le_dec : RelDecision walk_le.
Proof. intros p q. unfold walk_le. apply _. Defined.

Definition find_packages (fs : file_system) (where_ : path) : list modname :=
  merge_sort walk_le
    (filter (λ rel, rel ≠ [] ∧ package_chain fs where_ rel = true)
            (omap (strip_prefix where_) (elements (directories fs)))).

(** ** Lemmas *)

Lemma strip_prefix_Some where_ p rel :
  strip_prefix where_ p = Some rel ↔ p = where_ ++ rel.
Proof.
  revert p. induction where_ as [|w ws IH]; intros p; simpl.
  - naive_solver.
  - destruct p as [|x xs]; [naive_solver|].
    case_decide; [subst; rewrite IH|]; naive_solver.
Qed.

Lemma elem_of_proper_prefixes d p :
  d ∈ proper_prefixes p ↔ d `prefix_of` p ∧ d ≠ p.
Proof.
  unfold proper_prefixes. rewrite list_elem_of_fmap. split.
  - intros (k & -> & Hk%elem_of_seq). split; [apply prefix_take|].
    intros Heq. apply (f_equal length) in Heq. rewrite length_take in Heq. lia.
  - intros [[l ->] Hne]. exists (length d). rewrite take_app_length.
    split; [done|]. apply elem_of_seq. rewrite length_app.
    destruct l; [by rewrite app_nil_r in Hne|simpl; lia].
Qed.

(** A directory exists exactly when some file lies strictly below it. *)
Lemma is_dir_spec fs d :
  is_dir fs d = true ↔ ∃ p, p ∈ all_files fs ∧ d `prefix_of` p ∧ d ≠ p.
Proof.
  unfold is_dir, directories. rewrite bool_decide_eq_true, elem_of_list_to_set.
  rewrite list_elem_of_bind. setoid_rewrite elem_of_elements.
  setoid_rewrite elem_of_proper_prefixes. naive_solver.
Qed.

Lemma is_file_py fs p body : py_files fs !! p = Some body → is_file fs p = true.
Proof.
  intros Hp. unfold is_file, all_files. rewrite bool_decide_eq_true.
  apply elem_of_union_l, elem_of_dom. eauto.
Qed.

Lemma is_dir_of_file fs d x p :
  p ∈ all_files fs → p = d ++ [x] → is_dir fs d = true.
Proof.
  intros Hp ->. apply is_dir_spec. exists (d ++ [x]).
  split; [done|]. split; [by apply prefix_app_r|].
  intros Heq. apply (f_equal length) in Heq. rewrite length_app in Heq.
  simpl in Heq. lia.
Qed.

(** The three answers of [file_finder], by what the directory holds. *)
Lemma file_finder_package fs entry name body :
  py_files fs !! (entry ++ [child name] ++ ["__init__.py"]) = Some body →
  file_finder fs entry name
  = FoundSpec (package_spec name (entry ++ [child name]) body).
Proof.
  intros Hinit. unfold file_finder. rewrite app_assoc in Hinit.
  rewrite (is_dir_of_file fs _ "__init__.py" _ (proj1 (bool_decide_eq_true _)
    (is_file_py _ _ _ Hinit)) eq_refl).
  by rewrite Hinit.
Qed.

Lemma file_finder_module fs entry name body :
  py_files fs !! (entry ++ [child name] ++ ["__init__.py"]) = None →
  py_files fs !! (entry ++ [child name +:+ ".py"]) = Some body →
  file_finder fs entry name
  = FoundSpec (source_spec name (entry ++ [child name +:+ ".py"]) body).
Proof.
  intros Hinit Hfile. unfold file_finder. rewrite app_assoc in Hinit.
  rewrite Hinit, Hfile. by destruct (is_dir fs _).
Qed.

Lemma file_finder_not_found fs entry name :
  is_dir fs (entry ++ [child name]) = false →
  py_files fs !! (entry ++ [child name +:+ ".py"]) = None →
  file_finder fs entry name = NotFound.
Proof. intros Hdir Hfile. unfold file_finder. by rewrite Hdir, Hfile. Qed.

Lemma file_finder_name fs entry name s :
  file_finder fs entry name = FoundSpec s → spec_name s = name.
Proof.
  unfold file_finder. intros Hs.
  repeat case_match; simplify_eq; done.
Qed.

Lemma path_finder_name fs entries name portions s :
  path_finder fs entries name portions = inl (FoundSpec s) → spec_name s = name.
Proof.
  revert portions. induction entries as [|e es IH]; intros portions; simpl; [done|].
  destruct (file_finder fs e name) eqn:Hf; [|by eauto..].
  intros [= ->]. by eapply file_finder_name.
Qed.

Lemma env_find_spec_name env name search s :
  env_find_spec env name search = Some s → spec_name s = name.
Proof.
  unfold env_find_spec. intros Hs.
  repeat case_match; simplify_eq; try done.
  by eapply path_finder_name.
Qed.

(** A name that names nothing is found nowhere, whatever path is
    searched. *)
Lemma file_finder_nothing fs entry name :
  names_nothing fs (child name) → file_finder fs entry name = NotFound.
Proof.
  intros Hx. apply file_finder_not_found.
  - apply not_true_iff_false. intros (p & Hp & [l ->] & _)%is_dir_spec.
    apply (proj1 (Hx _ Hp)). set_solver.
  - destruct (py_files fs !! _) as [body|] eqn:Hfile; [|done].
    apply is_file_py, bool_decide_eq_true in Hfile.
    destruct (proj2 (Hx _ Hfile)). set_solver.
Qed.

Lemma path_finder_nothing fs entries name portions :
  names_nothing fs (child name) →
  path_finder fs entries name portions = inr portions.
Proof.
  intros Hx. induction entries as [|e es IH]; simpl; [done|].
  by rewrite file_finder_nothing.
Qed.

Lemma env_find_spec_nothing env name search :
  names_nothing (env_fs env) (child name) → env_site env !! name = None →
  env_find_spec env name search = None.
Proof.
  intros Hx Hsite. unfold env_find_spec.
  by rewrite path_finder_nothing, Hsite.
Qed.

(** The finder of an environment. *)
#[export] Instance env_finder (env : environment) : Finder :=
  {| find_spec := env_find_spec env;
     find_spec_name := env_find_spec_name env |}.

(** The order of the walk. *)
#[export] Instance walk_le_total : Total walk_le.
Proof.
  intros p q. unfold walk_le.
  destruct (trichotomy lexico (path_key p) (path_key q)) as [?|[?|?]]; auto.
Qed.

#[export] Instance walk_le_trans : Transitive walk_le.
Proof.
  intros p q r [Hpq|Hpq] [Hqr|Hqr]; unfold walk_le.
  - left. congruence.
  - right. by rewrite Hpq.
  - right. by rewrite <- Hqr.
  - right. by etrans.
Qed.

(** A directory is visited before what lies below it. *)
Lemma walk_le_prefix p q : p `prefix_of` q → walk_le p q.
Proof.
  intros [l ->]. unfold walk_le, path_key. rewrite fmap_app.
  induction p as [|x p IH]; [destruct l; [by left|by right]|].
  destruct IH as [IH|IH]; [left; simpl; by f_equal|right].
  right. by split.
Qed.

(** [find_packages] returns exactly the package chains below [where_],
    each once, in the order of the walk. *)
Lemma elem_of_find_packages fs where_ rel :
  rel ∈ find_packages fs where_ ↔
  rel ≠ [] ∧ is_dir fs (where_ ++ rel) = true ∧ package_chain fs where_ rel = true.
Proof.
  unfold find_packages. rewrite merge_sort_Permutation.
  rewrite list_elem_of_filter, list_elem_of_omap.
  setoid_rewrite strip_prefix_Some. setoid_rewrite elem_of_elements.
  unfold is_dir. rewrite bool_decide_eq_true. naive_solver.
Qed.

Lemma NoDup_find_packages fs where_ : NoDup (find_packages fs where_).
Proof.
  unfold find_packages. rewrite merge_sort_Permutation. apply NoDup_filter.
  apply NoDup_omap; [|apply NoDup_elements].
  intros p q rel _ _ ->%strip_prefix_Some ->%strip_prefix_Some. done.
Qed.

Lemma Sorted_find_packages fs where_ :
  StronglySorted walk_le (find_packages fs where_).
Proof. apply StronglySorted_merge_sort; apply _. Qed.
