(* ===== verification/Bodies.v ===== *)
(** * Module bodies: what they bind, and bodies that cannot fail

    - [exec_body_binds] is definite assignment: after a body that
      finished, each of the names it binds ([binds_body]) is an attribute
      of the module, whatever the finder and the built-in functions are.
    - [literal]: the value of an expression built from literals;
      [quiet_body]: a body of docstrings and assignments of literals,
      with the stores it makes; [loaded_ns]: the namespace of a module
      whose loading cannot fail (a quiet source file, a namespace package,
      an installed library).
    - [from_import_loaded], [from_import_quiet], [exec_import_stmts]: what
      [from . import x] does in the [__init__] of a package when the
      submodule can be imported. *)

From stdpp Require Import gmap strings list fin_maps.
From S2P Require Import Prelude PySyntax Interfaces Interp InterpFacts Invariants.

(** ** Literals *)

(** The value of an expression built from string and Boolean literals,
    list displays and dictionary displays. *)
Fixpoint literal (e : expr) : option value :=
  match e with
  | EStr s => Some (VStr s)
  | EBool b => Some (VBool b)
  | EList es => VList <$> traverse literal es
  | EDict kvs =>
      (λ d, VDict (foldl (λ acc kv, dict_set kv.1 kv.2 acc) [] d))
        <$> traverse (λ ke, (ke.1,.) <$> literal ke.2) kvs
  | _ => None
  end.

(** Keyword arguments and dictionary items that are literals. *)
Definition literal_items (kvs : list (string * expr))
  : option (list (string * value)) :=
  traverse (λ ke, (ke.1,.) <$> literal ke.2) kvs.

(** ** Quiet bodies *)

(** A statement that only stores a literal: the name and the value. *)
Definition quiet_stmt (s : stmt) : option (string * value) :=
  match s with
  | SDoc d => Some ("__doc__", VStr d)
  | SAssign x e => (x,.) <$> literal e
  | _ => None
  end.

Fixpoint quiet_body (body : list stmt) : option (list (string * value)) :=
  match body with
  | [] => Some []
  | s :: body => kv ← quiet_stmt s; kvs ← quiet_body body; Some (kv :: kvs)
  end.

(** The stores of a quiet body, applied in order. *)
Definition run_quiet (kvs : list (string * value)) (ns : namespace) : namespace :=
  foldl (λ ns kv, <[kv.1 := kv.2]> ns) ns kvs.

(** The namespace of a module whose initialisation cannot fail, once it
    is loaded. *)
Definition loaded_ns (s : module_spec) : option namespace :=
  match spec_loader s with
  | SourceFileLoader body =>
      (λ kvs, run_quiet kvs (init_module_attrs s)) <$> quiet_body body
  | NamespaceLoader => Some (init_module_attrs s)
  | ExternalLoader ns => Some (ns ∪ init_module_attrs s)
  end.

(** ** Runs of [from . import x] *)

Definition import_stmts (xs : list string) : list stmt :=
  (λ x, SImportFrom 1 [] [x]) <$> xs.

(** The namespace of a package after it bound its submodules [xs], and
    [sys.modules] after they were entered. *)
Definition bind_submodules (self : modname) (xs : list string)
  (pns : namespace) : namespace :=
  foldl (λ p x, <[x := VModule (self ++ [x])]> p) pns xs.

Definition enter_submodules (self : modname) (nsof : string → namespace)
  (xs : list string) (m : gmap modname namespace) : gmap modname namespace :=
  foldl (λ m x, <[self ++ [x] := nsof x]> m) m xs.

(** ** Definite assignment *)

(** Module [self] is in [sys.modules] and has every attribute of [xs]. *)
Definition all_bound (self : modname) (xs : list string) (st : state) : Prop :=
  present self st ∧ ∀ x, x ∈ xs → bound self x st.

(** * Bodies that cannot fail *)

Section quiet.
Context `{!Finder, !Builtins}.
Implicit Types (r : modname → M exn state unit) (st : state).

(** Submodule [x] of package [self] is found in [search] and loads
    quietly; its namespace once loaded. *)
Definition quiet_submodule (self : modname) (search : list path) (x : string)
  : Prop :=
  is_Some (find_spec (self ++ [x]) (Some search) ≫= loaded_ns).

Definition submodule_ns (self : modname) (search : list path) (x : string)
  : namespace :=
  default ∅ (find_spec (self ++ [x]) (Some search) ≫= loaded_ns).

#[export] Instance quiet_submodule_dec self search x :
  Decision (quiet_submodule self search x).
Proof. unfold quiet_submodule. apply _. Defined.

Lemma quiet_submodule_spec self search x :
  quiet_submodule self search x →
  ∃ s, find_spec (self ++ [x]) (Some search) = Some s ∧
       loaded_ns s = Some (submodule_ns self search x).
Proof.
  unfold quiet_submodule, submodule_ns. intros [ns Hns].
  destruct (find_spec _ _) as [s|]; [|done]. exists s. split; [done|].
  simpl in *. by rewrite Hns.
Qed.

Lemma eval_literal mods g e v w :
  literal e = Some v → eval mods g e w = Done v w.
Proof.
  revert v. induction e as [s|b|x|es IH|kvs IH|e a|f args kwargs] using expr_ind_nested;
    intros v Hv; try done.
  - by injection Hv as <-.
  - by injection Hv as <-.
  - simpl in Hv. destruct (traverse literal es) as [vs|] eqn:Hvs; [|done].
    injection Hv as <-. rewrite eval_list.
    by rewrite (bind_done _ _ _ vs w (mapM_traverse _ literal _ _ _ IH Hvs)).
  - simpl in Hv. destruct (traverse _ kvs) as [d|] eqn:Hd; [|done].
    injection Hv as <-. rewrite eval_dict.
    rewrite (bind_done _ _ _ d w); [done|].
    eapply mapM_traverse; [|exact Hd]. eapply Forall_impl; [exact IH|].
    intros [k e] He [k' v]. cbn [fst snd] in *.
    destruct (literal e) as [v'|]; [|done]. intros [= <- <-].
    by rewrite (bind_done _ _ _ v' w (He _ eq_refl)).
Qed.

(** Keyword arguments that are literals evaluate to their values. *)
Lemma eval_literal_items mods g kvs d w :
  literal_items kvs = Some d →
  mapM (λ ke, match ke with
              | (k, e') => do v <- eval mods g e'; ret (k, v)
              end) kvs w = Done d w.
Proof.
  apply mapM_traverse, Forall_forall. intros [k e] _ [k' v]. cbn [fst snd].
  destruct (literal e) as [v'|] eqn:He; [|done]. intros [= <- <-].
  by rewrite (bind_done _ _ _ v' w (eval_literal _ _ _ _ _ He)).
Qed.

Lemma exec_quiet_stmt r self s kv st :
  quiet_stmt s = Some kv →
  exec_stmt r self s st
  = Done tt (set_modules (alter (<[kv.1 := kv.2]>) self) st).
Proof.
  destruct s as [d|x e| | |]; try done; simpl quiet_stmt.
  - intros [= <-]. apply exec_doc.
  - destruct (literal e) as [v|] eqn:He; [|done]. intros [= <-].
    apply exec_assign_pure. intros w. by apply eval_literal.
Qed.

(** A quiet body cannot fail: it stores its literals in order. *)
Lemma exec_quiet_body r self body kvs m w ns :
  quiet_body body = Some kvs →
  exec_body r self body (State (<[self := ns]> m) w)
  = Done tt (State (<[self := run_quiet kvs ns]> m) w).
Proof.
  revert kvs ns. induction body as [|s body IH]; intros kvs ns Hq.
  - by injection Hq as <-.
  - simpl in Hq. destruct (quiet_stmt s) as [kv|] eqn:Hs; [|done].
    destruct (quiet_body body) as [kvs'|]; [|done]. injection Hq as <-.
    rewrite exec_body_cons, (bind_done _ _ _ tt _ (exec_quiet_stmt _ _ _ _ _ Hs)).
    unfold set_modules; cbn [modules world]. rewrite alter_insert_eq.
    apply (IH kvs' (<[kv.1:=kv.2]> ns) eq_refl).
Qed.

Lemma load_unlocked_quiet r s ns m w :
  loaded_ns s = Some ns →
  load_unlocked r s (State m w) = Done tt (State (<[spec_name s := ns]> m) w).
Proof.
  unfold loaded_ns, load_unlocked.
  destruct (spec_loader s) as [body| |ens]; [|by intros [= <-]..].
  destruct (quiet_body body) as [kvs|] eqn:Hq; [|done]. intros [= <-].
  unfold bind at 1, modify, catch. unfold set_modules; cbn [modules world].
  by rewrite (exec_quiet_body _ _ _ kvs).
Qed.

(** Importing a submodule that loads quietly, from a state in which its
    parent package is imported: the module is entered and bound in its
    parent. *)
Lemma gcd_import_quiet fuel self x pns vs s ns m w :
  self ≠ [] →
  pns !! "__path__" = Some (VList vs) →
  m !! (self ++ [x]) = None →
  find_spec (self ++ [x]) (Some (path_entries vs)) = Some s →
  loaded_ns s = Some ns →
  gcd_import (S fuel) (self ++ [x]) (State (<[self := pns]> m) w)
  = Done tt (State (<[self := <[x := VModule (self ++ [x])]> pns]>
                      (<[self ++ [x] := ns]> m)) w).
Proof.
  intros Hself Hpath Hsub Hfind Hns.
  assert (self ≠ self ++ [x]) as Hne by apply snoc_ne.
  rewrite gcd_import_miss by (cbn [modules]; by rewrite lookup_insert_ne).
  rewrite (find_and_load_sub _ _ _ pns vs);
    [|rewrite ?parent_snoc; cbn [modules];
      first [done|apply lookup_insert_eq|by rewrite lookup_insert_ne]..].
  rewrite (load_found_some _ _ _ s) by done.
  rewrite (find_spec_name _ _ _ Hfind) in *.
  rewrite (bind_done _ _ _ tt _ (load_unlocked_quiet _ _ _ _ _ Hns)).
  rewrite (find_spec_name _ _ _ Hfind), parent_snoc, child_snoc.
  rewrite decide_False by done. unfold store, modify, set_modules.
  cbn [modules world]. by rewrite insert_insert_ne, alter_insert_eq by done.
Qed.

(** [from . import x] when importing [self.x] succeeds and leaves [x]
    bound in the package: the name is bound to that value. *)
Lemma from_import_loaded r self x st ns st' ns' v :
  modules st !! self = Some ns →
  ns !! "__package__" = Some (VStr (dotted self)) →
  valid_modname self → self ≠ [] →
  is_Some (ns !! "__path__") →
  ns !! x = None →
  r self st = Done tt st →
  r (self ++ [x]) st = Done tt st' →
  modules st' !! self = Some ns' →
  ns' !! x = Some v →
  exec_stmt r self (SImportFrom 1 [] [x]) st
  = Done tt (set_modules (alter (<[x := v]>) self) st').
Proof.
  intros Hself Hpkg Hok Hne Hpath Hx Hhit Hsub Hself' Hx'.
  rewrite (exec_import_relative _ _ _ _ ns) by done. rewrite Hsub.
  by rewrite (bind_done _ _ _ v st' (import_from_attr _ _ _ _ _ Hself' Hx')).
Qed.

(** The same for a submodule that loads quietly. *)
Lemma from_import_quiet fuel self x pns vs s ns m w :
  pns !! "__package__" = Some (VStr (dotted self)) →
  valid_modname self → self ≠ [] →
  pns !! "__path__" = Some (VList vs) →
  pns !! x = None →
  m !! (self ++ [x]) = None →
  find_spec (self ++ [x]) (Some (path_entries vs)) = Some s →
  loaded_ns s = Some ns →
  exec_stmt (gcd_import (S fuel)) self (SImportFrom 1 [] [x])
    (State (<[self := pns]> m) w)
  = Done tt (State (<[self := <[x := VModule (self ++ [x])]> pns]>
                      (<[self ++ [x] := ns]> m)) w).
Proof.
  intros Hpkg Hok Hne Hpath Hx Hsub Hfind Hns.
  rewrite (from_import_loaded _ _ _ _ pns
             (State (<[self := <[x := VModule (self ++ [x])]> pns]>
                       (<[self ++ [x] := ns]> m)) w)
             (<[x := VModule (self ++ [x])]> pns) (VModule (self ++ [x])));
    [|first [done|apply lookup_insert_eq|by rewrite Hpath
            |apply gcd_import_hit; cbn [modules]; by rewrite lookup_insert_eq
            |by apply (gcd_import_quiet _ _ _ _ vs s)]..].
  unfold set_modules; cbn [modules world].
  by rewrite alter_insert_eq, insert_insert_eq.
Qed.

(** The same for a submodule that is in [sys.modules] already, without
    being an attribute of the package: it is bound, and nothing is
    loaded. *)
Lemma from_import_present fuel self x pns m w :
  pns !! "__package__" = Some (VStr (dotted self)) →
  valid_modname self → self ≠ [] →
  is_Some (pns !! "__path__") →
  pns !! x = None →
  is_Some (m !! (self ++ [x])) →
  exec_stmt (gcd_import (S fuel)) self (SImportFrom 1 [] [x])
    (State (<[self := pns]> m) w)
  = Done tt (State (<[self := <[x := VModule (self ++ [x])]> pns]> m) w).
Proof.
  intros Hpkg Hok Hne Hpath Hx Hsub.
  assert (self ≠ self ++ [x]) as Hneq by apply snoc_ne.
  assert (is_Some (modules (State (<[self := pns]> m) w) !! (self ++ [x])))
    as Hsub' by (cbn [modules]; by rewrite lookup_insert_ne).
  rewrite (exec_import_relative _ _ _ _ pns);
    [|first [done|apply lookup_insert_eq
            |apply gcd_import_hit; cbn [modules]; by rewrite lookup_insert_eq]..].
  rewrite (gcd_import_hit _ _ _ Hsub').
  rewrite (bind_done _ _ _ _ _ (import_from_module _ _ _ pns
             (lookup_insert_eq _ _ _) Hx Hsub')).
  apply store_insert.
Qed.

(** A run of [from . import x] statements whose submodules all load
    quietly. *)
Lemma exec_import_stmts fuel self xs rest vs pns m w :
  valid_modname self → self ≠ [] →
  pns !! "__package__" = Some (VStr (dotted self)) →
  pns !! "__path__" = Some (VList vs) →
  NoDup xs →
  Forall (λ x, pns !! x = None) xs →
  Forall (λ x, m !! (self ++ [x]) = None) xs →
  Forall (quiet_submodule self (path_entries vs)) xs →
  exec_body (gcd_import (S fuel)) self (import_stmts xs ++ rest)
    (State (<[self := pns]> m) w)
  = exec_body (gcd_import (S fuel)) self rest
      (State (<[self := bind_submodules self xs pns]>
                (enter_submodules self (submodule_ns self (path_entries vs)) xs m))
             w).
Proof.
  intros Hok Hne. revert pns m.
  induction xs as [|x xs IH]; intros pns m Hpkg Hpath Hdup Hpns Hm Hq; [done|].
  apply NoDup_cons in Hdup as [Hx Hdup].
  apply Forall_cons in Hpns as [Hpx Hpns]. apply Forall_cons in Hm as [Hmx Hm].
  apply Forall_cons in Hq as [(s & Hfind & Hns)%quiet_submodule_spec Hq].
  cbn [import_stmts fmap list_fmap app]. rewrite exec_body_cons.
  rewrite (bind_done _ _ _ tt _
             (from_import_quiet fuel self x pns vs s _ m w
                Hpkg Hok Hne Hpath Hpx Hmx Hfind Hns)).
  apply IH; [rewrite lookup_insert_ne; [done|congruence]..|done| | |done].
  - apply Forall_forall. intros y Hy. rewrite Forall_forall in Hpns.
    rewrite lookup_insert_ne; [by apply Hpns|by intros ->].
  - apply Forall_forall. intros y Hy. rewrite Forall_forall in Hm.
    rewrite lookup_insert_ne; [by apply Hm|]. by intros [= ->]%app_inv_head.
Qed.

(** What the submodules add to the namespace of the package and to
    [sys.modules]. *)
Lemma bind_submodules_cons self x xs pns :
  bind_submodules self (x :: xs) pns
  = bind_submodules self xs (<[x := VModule (self ++ [x])]> pns).
Proof. done. Qed.

Lemma enter_submodules_cons self nsof x xs m :
  enter_submodules self nsof (x :: xs) m
  = enter_submodules self nsof xs (<[self ++ [x] := nsof x]> m).
Proof. done. Qed.

Lemma bind_submodules_lookup_ne self xs pns y :
  y ∉ xs → bind_submodules self xs pns !! y = pns !! y.
Proof.
  revert pns. induction xs as [|x xs IH]; intros pns Hy; [done|].
  apply not_elem_of_cons in Hy as [Hne Hy]. rewrite bind_submodules_cons.
  rewrite IH by done. by apply lookup_insert_ne.
Qed.

Lemma bind_submodules_lookup self xs pns x :
  x ∈ xs → bind_submodules self xs pns !! x = Some (VModule (self ++ [x])).
Proof.
  revert pns. induction xs as [|y xs IH]; intros pns Hx; [by apply elem_of_nil in Hx|].
  rewrite bind_submodules_cons. destruct (decide (x ∈ xs)) as [Hin|Hout].
  - by apply IH.
  - apply elem_of_cons in Hx as [->|?]; [|done].
    rewrite bind_submodules_lookup_ne by done. apply lookup_insert_eq.
Qed.

Lemma enter_submodules_lookup_ne self nsof xs m n :
  (∀ x, x ∈ xs → n ≠ self ++ [x]) →
  enter_submodules self nsof xs m !! n = m !! n.
Proof.
  revert m. induction xs as [|x xs IH]; intros m Hn; [done|].
  rewrite !enter_submodules_cons.
  rewrite IH by (intros y Hy; by apply Hn, list_elem_of_further).
  apply lookup_insert_ne. intros Heq. by eapply Hn; [apply list_elem_of_here|].
Qed.

Lemma enter_submodules_lookup self nsof xs m x :
  x ∈ xs → enter_submodules self nsof xs m !! (self ++ [x]) = Some (nsof x).
Proof.
  revert m. induction xs as [|y xs IH]; intros m Hx; [by apply elem_of_nil in Hx|].
  rewrite !enter_submodules_cons. destruct (decide (x ∈ xs)) as [Hin|Hout].
  - by apply IH.
  - apply elem_of_cons in Hx as [->|?]; [|done].
    rewrite enter_submodules_lookup_ne; [apply lookup_insert_eq|].
    intros z Hz [= ->]%app_inv_head. done.
Qed.

(** A module that is not one of the submodules is entered before or
    after them, as one likes. *)
Lemma enter_submodules_insert self nsof xs m n ns :
  (∀ x, x ∈ xs → n ≠ self ++ [x]) →
  enter_submodules self nsof xs (<[n := ns]> m)
  = <[n := ns]> (enter_submodules self nsof xs m).
Proof.
  revert m. induction xs as [|x xs IH]; intros m Hn; [done|].
  rewrite !enter_submodules_cons. rewrite insert_insert_ne.
  - apply IH. intros y Hy. by apply Hn, list_elem_of_further.
  - apply not_eq_sym, Hn, list_elem_of_here.
Qed.

End quiet.

(** * Definite assignment *)

Lemma up_closed_all_bound self xs : up_closed (all_bound self xs).
Proof.
  apply up_closed_and; [apply up_closed_present|].
  apply (up_closed_forall (.∈ xs) (bound self)). intros x. apply up_closed_bound.
Qed.

Lemma all_bound_world self xs : ignores_world (all_bound self xs).
Proof. apply up_closed_world, up_closed_all_bound. Qed.

Section definite.
Context `{!Finder, !Builtins}.
Implicit Types (r : modname → M exn state unit) (st : state).

(** What is kept on every path is kept on the normal one. *)
Lemma bind_keeps {A B} (c : M exn state A) (k : A → M exn state B) I Q :
  invariant I c →
  (∀ a, triple I (k a) Q (λ _ _, True)) →
  triple I (bind c k) Q (λ _ _, True).
Proof.
  intros Hc Hk. eapply triple_bind; [|exact Hk].
  by eapply triple_conseq; [exact Hc|..].
Qed.

Lemma store_binds self xs x v :
  triple (all_bound self xs) (store self x v)
    (λ _, all_bound self (xs ++ [x])) (λ _ _, True).
Proof.
  intros st [Hp Hb]. simpl. split.
  - eapply up_closed_present; [done|apply grows_store].
  - intros y [Hy| ->%list_elem_of_singleton]%elem_of_app; [|by apply bound_store].
    eapply up_closed_bound; [by apply Hb|apply grows_store].
Qed.

(** A run of statements, each of which binds its names. *)
Lemma stmts_bind (f : stmt → M exn state unit) self body xs :
  Forall (λ s, ∀ xs, triple (all_bound self xs) (f s)
                       (λ _, all_bound self (xs ++ binds s)) (λ _ _, True)) body →
  triple (all_bound self xs) (forM_ f body)
    (λ _, all_bound self (xs ++ binds_body body)) (λ _ _, True).
Proof.
  intros Hbody. rewrite <- (app_nil_r xs) at 1.
  apply (triple_forM_elem (λ seen, all_bound self (xs ++ binds_body seen))).
  intros seen s Hs. unfold binds_body. rewrite bind_app, app_assoc. simpl.
  rewrite app_nil_r. by apply (proj1 (Forall_forall _ _) Hbody).
Qed.

Lemma exec_import_binds r self level module names xs :
  rec_grows r →
  triple (all_bound self xs) (exec_import r self level module names)
    (λ _, all_bound self (xs ++ names)) (λ _ _, True).
Proof.
  intros Hr. unfold exec_import.
  assert (∀ ys n, invariant (all_bound self ys) (r n)) as Hrec.
  { intros ys n. apply up_closed_invariant; [apply Hr|apply up_closed_all_bound]. }
  apply bind_keeps; [apply invariant_gets|]. intros g.
  apply bind_keeps; [apply invariant_import_base|]. intros base.
  apply bind_keeps; [apply Hrec|]. intros _.
  apply bind_keeps; [apply invariant_gets|]. intros ns.
  apply bind_keeps.
  { case_decide; [by apply invariant_handle_fromlist|apply invariant_ret]. }
  intros _. eapply triple_conseq;
    [apply (triple_forM_ (λ seen, all_bound self (xs ++ seen)))| |done..].
  - intros seen x. apply bind_keeps; [apply invariant_import_from|].
    intros v. rewrite app_assoc. apply store_binds.
  - intros st. by rewrite app_nil_r.
Qed.

Lemma exec_stmt_binds r self s :
  rec_grows r →
  ∀ xs, triple (all_bound self xs) (exec_stmt r self s)
          (λ _, all_bound self (xs ++ binds s)) (λ _ _, True).
Proof.
  intros Hr. induction s as [d|x e|e|level module names|e x body IH]
    using stmt_ind_nested; intros xs.
  - apply store_binds.
  - apply (bind_keeps (eval_in self e)); [apply invariant_eval_in, all_bound_world|].
    intros v. apply store_binds.
  - apply (bind_keeps (eval_in self e)); [apply invariant_eval_in, all_bound_world|].
    intros v. apply triple_ret. intros st. by rewrite app_nil_r.
  - by apply exec_import_binds.
  - apply (bind_keeps (eval_in self e)); [apply invariant_eval_in, all_bound_world|].
    intros mgr. apply bind_keeps; [apply invariant_in_world, all_bound_world|]. intros v.
    change (binds (SWith e x body)) with ([x] ++ binds_body body).
    rewrite app_assoc.
    apply (triple_finally _ _ _ _
             (λ _, all_bound self ((xs ++ [x]) ++ binds_body body))
             _ (λ _ _, True)).
    + eapply triple_bind; [apply store_binds|]. intros ?.
      by apply (stmts_bind (exec_stmt r self)).
    + intros _. eapply triple_conseq;
        [apply invariant_in_world, all_bound_world|done..].
    + intros _ st _. by destruct (in_world _ st).
Qed.

(** After a body that finished, every name it binds is an attribute of
    its module. *)
Lemma exec_body_binds r self body xs :
  rec_grows r →
  triple (all_bound self xs) (exec_body r self body)
    (λ _, all_bound self (xs ++ binds_body body)) (λ _ _, True).
Proof.
  intros Hr. apply (stmts_bind (exec_stmt r self)). apply Forall_forall.
  intros s _. by apply exec_stmt_binds.
Qed.

End definite.

(** * [from base import *] *)

Section star.
Context `{!Finder, !Builtins}.
Implicit Types (r : modname → M exn state unit) (st : state).

(** The names of an [__all__] that holds strings only. *)
Lemma all_names (xs : list string) st :
  mapM (λ v, match v with
             | VStr x => ret x
             | _ => raise (TypeError "__all__")
             end) (VStr <$> xs) st = Done (E:=exn) xs st.
Proof.
  induction xs as [|x xs IH]; [done|].
  rewrite fmap_cons, mapM_cons. unfold bind at 1. cbn [ret].
  by rewrite (bind_done _ _ _ xs st IH).
Qed.

(** Names that are attributes already are not tried as submodules. *)
Lemma handle_fromlist_bound r base names st :
  Forall (λ x, is_Some (namespace_of base st !! x)) names →
  handle_fromlist r base names st = Done tt st.
Proof.
  unfold handle_fromlist. induction 1 as [|x names Hx _ IH]; [done|].
  cbn [forM_]. unfold bind at 1. unfold bind at 1, gets at 1.
  by rewrite decide_True.
Qed.

(** Reading the names. *)
Lemma read_names base (names : list string) st :
  Forall (λ x, is_Some (namespace_of base st !! x)) names →
  mapM (λ x, do ns' <- gets (namespace_of base);
             do v <- of_option (ns' !! x) (AttributeError x);
             ret (x, v)) names st
  = Done ((λ x, (x, default VNone (namespace_of base st !! x))) <$> names) st.
Proof.
  induction 1 as [|x names [v Hx] _ IH]; [done|].
  rewrite mapM_cons.
  rewrite (bind_done _ _ _ (x, v) st) by (unfold bind, gets; by rewrite Hx).
  rewrite (bind_done _ _ _ _ st IH). by rewrite fmap_cons, Hx.
Qed.

(** When the module is imported, its [__all__] is a list of strings and
    each of them is an attribute, [import *] returns the names with
    their values and changes nothing. *)
Lemma import_star_bound fuel base names st :
  present base st →
  namespace_of base st !! "__all__" = Some (VList (VStr <$> names)) →
  Forall (λ x, is_Some (namespace_of base st !! x)) names →
  import_star (S fuel) base st
  = Done ((λ x, (x, default VNone (namespace_of base st !! x))) <$> names) st.
Proof.
  intros Hbase Hall Hnames. unfold import_star.
  rewrite (bind_done _ _ _ tt st (gcd_import_hit _ _ _ Hbase)).
  unfold bind at 1, gets at 1. rewrite Hall.
  rewrite (bind_done _ _ _ names st); [by apply read_names|].
  rewrite (bind_done _ _ _ names st (all_names _ _)).
  rewrite (bind_done _ _ _ tt st); [done|].
  case_decide; [by apply handle_fromlist_bound|done].
Qed.

End star.

Lemma bound_namespace_of m x st :
  bound m x st ↔ is_Some (namespace_of m st !! x).
Proof. unfold bound, namespace_of. by destruct (modules st !! m). Qed.

Section all_bound.
Context `{!Finder, !Builtins}.
Implicit Types (r : modname → M exn state unit) (st : state).

(** A body that ends by assigning to [__all__] names that it binds:
    when it has finished, [__all__] holds these names and each of them
    is an attribute of the module. *)
Lemma exec_body_all r self pre names st st' :
  rec_grows r → present self st →
  names ⊆ binds_body pre →
  exec_body r self (pre ++ [SAssign "__all__" (EList (EStr <$> names))]) st
  = Done tt st' →
  present self st' ∧
  namespace_of self st' !! "__all__" = Some (VList (VStr <$> names)) ∧
  Forall (λ x, is_Some (namespace_of self st' !! x)) names.
Proof.
  intros Hr Hself Hnames. rewrite exec_body_app.
  intros ([] & st1 & Hpre & Hlast)%bind_done_inv.
  pose proof (exec_body_binds r self pre [] Hr st
                (conj Hself (λ x Hx, False_ind _ (not_elem_of_nil x Hx)))) as Hb.
  rewrite Hpre in Hb. destruct Hb as [Hp Hb]. pose proof Hp as [ns Hns].
  rewrite exec_body_cons in Hlast.
  rewrite (bind_done _ _ _ tt _ (exec_assign_pure _ _ _ _ _ _
             (eval_str_list _ _ names))) in Hlast.
  injection Hlast as <-. pose proof (grows_store self "__all__"
    (VList (VStr <$> names)) st1) as Hst1.
  split_and!.
  - by apply (up_closed_present self st1).
  - unfold namespace_of, set_modules. cbn [modules].
    by rewrite lookup_alter_eq, Hns; cbn; rewrite lookup_insert_eq.
  - apply Forall_forall. intros x Hx. apply bound_namespace_of.
    apply (up_closed_bound self x st1); [|done]. by apply Hb, Hnames.
Qed.

(** So a star import after a successful import of such a module, at the
    top level, returns the names of [__all__] with their values and
    changes nothing. *)
Lemma import_then_star fuel fuel' name s pre names st st' :
  parent name = [] →
  find_spec name None = Some s →
  spec_loader s
  = SourceFileLoader (pre ++ [SAssign "__all__" (EList (EStr <$> names))]) →
  names ⊆ binds_body pre →
  modules st !! name = None →
  gcd_import fuel name st = Done tt st' →
  import_star (S fuel') name st'
  = Done ((λ x, (x, default VNone (namespace_of name st' !! x))) <$> names) st'.
Proof.
  intros Hparent Hfind Hloader Hnames Hname.
  destruct fuel as [|fuel]; [done|].
  rewrite gcd_import_miss, find_and_load_top by done.
  rewrite (load_found_some _ _ _ _ _ Hfind), decide_True by done.
  intros ([] & st1 & Hload & [= ->])%bind_done_inv.
  apply (load_unlocked_done_inv _ _ _ _ _ Hloader) in Hload.
  rewrite (find_spec_name _ _ _ Hfind) in Hload.
  apply exec_body_all in Hload as (? & ? & ?);
    [by apply import_star_bound|intros n; apply gcd_import_grows| |done].
  unfold present, set_modules. cbn [modules]. by rewrite lookup_insert_eq.
Qed.

End all_bound.

(** One docstring or assignment of a literal in a body, executed on a
    state whose module entry is an [insert]. *)
Ltac exec_quiet_step :=
  rewrite exec_body_cons;
  erewrite bind_done by (apply exec_quiet_stmt; reflexivity);
  unfold set_modules; cbn [modules world fst snd]; rewrite alter_insert_eq.

(** [Forall P l] on a list that is given element by element. *)
Ltac Forall_each tac :=
  repeat (apply Forall_cons_2; [tac|]); apply Forall_nil_2.
