(* ===== verification/Scripts.v ===== *)
(** * Scripts: expressions that read names, and absolute imports

    - [pure_eval]: the value of an expression that reads names and
      attributes of built-in objects and builds literals, and so has no
      effect; [eval_pure]: [eval] agrees with it.
    - [eval_in_insert], [exec_assign], [exec_expr]: an expression evaluated
      in a module whose entry in [sys.modules] is an [insert].
    - [exec_import_attrs]: [from base import names] when [base] is not a
      package and the names are its attributes.
    - [run_script_body]: [python file] runs the body as [__main__]. *)

From stdpp Require Import gmap strings list fin_maps.
From S2P Require Import Prelude PySyntax Interfaces Interp InterpFacts Bodies.

Section scripts.
Context `{!Finder, !Builtins}.
Implicit Types (r : modname → M exn state unit) (st : state) (g : namespace).

(** ** Expressions without effects *)

Definition pure_eval (g : namespace) (e : expr) : option value :=
  match e with
  | EName x => lookup_name g x
  | EAttr (EName x) a =>
      v ← lookup_name g x;
      match v with
      | VModule _ => None
      | _ => builtin_getattr v a
      end
  | _ => literal e
  end.

Definition pure_items (g : namespace) (kvs : list (string * expr))
  : option (list (string * value)) :=
  traverse (λ ke, (ke.1,.) <$> pure_eval g ke.2) kvs.

(** The namespace after binding [names] to the attributes they have in
    [bns]. *)
Definition bind_attrs (bns : namespace) (names : list string) (g : namespace)
  : namespace :=
  foldl (λ g x, <[x := default VNone (bns !! x)]> g) g names.

Lemma eval_pure mods g e v w :
  pure_eval g e = Some v → eval mods g e w = Done v w.
Proof.
  destruct e as [s|b|x|es|kvs|e a|f args kwargs];
    try (by apply eval_literal); cbn [pure_eval].
  - intros Hx. cbn [eval]. by rewrite Hx.
  - destruct e as [| |x| | | |]; try done.
    destruct (lookup_name g x) as [u|] eqn:Hx; [|done]. intros Ha.
    change (eval mods g (EAttr (EName x) a) w)
      with (bind (of_option (lookup_name g x) (NameError x))
              (λ v, getattr mods v a) w).
    rewrite Hx. unfold bind, getattr. cbn [of_option ret].
    destruct u; try done; cbn [mbind option_bind] in Ha; by rewrite Ha.
Qed.

Lemma eval_pure_items mods g kvs d w :
  pure_items g kvs = Some d →
  mapM (λ ke, match ke with
              | (k, e') => do v <- eval mods g e'; ret (k, v)
              end) kvs w = Done d w.
Proof.
  apply mapM_traverse, Forall_forall. intros [k e] _ [k' v]. cbn [fst snd].
  destruct (pure_eval g e) as [v'|] eqn:He; [|done]. intros [= <- <-].
  by rewrite (bind_done _ _ _ v' w (eval_pure _ _ _ _ _ He)).
Qed.

Lemma eval_pure_list mods g es vs w :
  traverse (pure_eval g) es = Some vs →
  mapM (eval mods g) es w = Done vs w.
Proof.
  apply mapM_traverse, Forall_forall. intros e _ v. apply eval_pure.
Qed.

(** A call whose function and arguments have no effects. *)
Lemma eval_call_pure mods g f args kwargs fv avs kvs w :
  pure_eval g f = Some fv →
  traverse (pure_eval g) args = Some avs →
  pure_items g kwargs = Some kvs →
  eval mods g (ECall f args kwargs) w = call_builtin fv avs kvs w.
Proof.
  intros Hf Hargs Hkwargs. rewrite eval_call.
  rewrite (bind_done _ _ _ fv w (eval_pure _ _ _ _ _ Hf)).
  rewrite (bind_done _ _ _ avs w (eval_pure_list _ _ _ _ _ Hargs)).
  by rewrite (bind_done _ _ _ kvs w (eval_pure_items _ _ _ _ _ Hkwargs)).
Qed.

(** ** Statements in a module whose entry is an [insert] *)

Lemma eval_in_insert self e g m w :
  eval_in self e (State (<[self := g]> m) w)
  = match eval (<[self := g]> m) g e w with
    | Done v w' => Done v (State (<[self := g]> m) w')
    | Raise x w' => Raise x (State (<[self := g]> m) w')
    | OutOfFuel => OutOfFuel
    end.
Proof.
  unfold eval_in, bind, get, in_world, zoom, namespace_of.
  cbn [modules world]. by rewrite lookup_insert_eq.
Qed.

Lemma exec_assign r self x e g m w v w' :
  eval (<[self := g]> m) g e w = Done v w' →
  exec_stmt r self (SAssign x e) (State (<[self := g]> m) w)
  = Done tt (State (<[self := <[x := v]> g]> m) w').
Proof.
  intros He.
  change (bind (eval_in self e) (λ v, store self x v) (State (<[self := g]> m) w)
          = Done tt (State (<[self := <[x := v]> g]> m) w')).
  unfold bind. rewrite eval_in_insert, He. apply store_insert.
Qed.

Lemma exec_expr r self e g m w v w' :
  eval (<[self := g]> m) g e w = Done v w' →
  exec_stmt r self (SExpr e) (State (<[self := g]> m) w)
  = Done tt (State (<[self := g]> m) w').
Proof.
  intros He.
  change (bind (eval_in self e) (λ _, ret tt) (State (<[self := g]> m) w)
          = Done tt (State (<[self := g]> m) w')).
  unfold bind. by rewrite eval_in_insert, He.
Qed.

Lemma eval_in_raises self e g m w x w' :
  eval (<[self := g]> m) g e w = Raise x w' →
  eval_in self e (State (<[self := g]> m) w)
  = Raise x (State (<[self := g]> m) w').
Proof. intros He. by rewrite eval_in_insert, He. Qed.

(** ** [with] *)

(** Entering the block: the manager is evaluated and entered, the
    result is bound, and the body runs before the exit. *)
Lemma exec_with r self e x body g m w mgr w1 v w2 :
  eval (<[self := g]> m) g e w = Done mgr w1 →
  with_enter mgr w1 = Done v w2 →
  exec_stmt r self (SWith e x body) (State (<[self := g]> m) w)
  = finally (exec_body r self body) (in_world (with_exit mgr))
      (State (<[self := <[x := v]> g]> m) w2).
Proof.
  intros He Henter.
  change (exec_stmt r self (SWith e x body))
    with (do mgr <- eval_in self e;
          do v <- in_world (with_enter mgr);
          finally (run store self x v; exec_body r self body)
                  (in_world (with_exit mgr))).
  unfold bind at 1. rewrite eval_in_insert, He.
  rewrite (bind_done _ _ _ v _ (in_world_done _ _ _ _ _ Henter)).
  unfold finally. by rewrite (bind_done _ _ _ tt _ (store_insert _ _ _ _ _ _)).
Qed.

(** ** Absolute imports of attributes *)

(** A top-level module that loads quietly. *)
Lemma gcd_import_quiet_top fuel name s ns m w :
  parent name = [] → m !! name = None →
  find_spec name None = Some s → loaded_ns s = Some ns →
  gcd_import (S fuel) name (State m w) = Done tt (State (<[name := ns]> m) w).
Proof.
  intros Hparent Hname Hfind Hns.
  rewrite gcd_import_miss, find_and_load_top by done.
  rewrite (load_found_some _ _ _ _ _ Hfind).
  rewrite (bind_done _ _ _ tt _ (load_unlocked_quiet _ _ _ _ _ Hns)).
  by rewrite (find_spec_name _ _ _ Hfind), decide_True.
Qed.

(** The names are read from the module and bound, in order. *)
Lemma import_attrs self base names bns g m w :
  self ≠ base →
  Forall (λ x, is_Some (bns !! x)) names →
  forM_ (λ x, do v <- import_from base x; store self x v) names
    (State (<[self := g]> (<[base := bns]> m)) w)
  = Done tt (State (<[self := bind_attrs bns names g]> (<[base := bns]> m)) w).
Proof.
  intros Hne Hnames. revert g.
  induction Hnames as [|x names [v Hx] _ IH]; intros g; [done|].
  assert (modules (State (<[self := g]> (<[base := bns]> m)) w) !! base
          = Some bns) as Hb
    by (cbn [modules]; by rewrite lookup_insert_ne, lookup_insert_eq).
  cbn [forM_]. unfold bind at 1.
  rewrite (bind_done _ _ _ v _ (import_from_attr base x _ bns v Hb Hx)).
  rewrite store_insert. unfold bind_attrs. cbn [foldl]. rewrite Hx. apply IH.
Qed.

(** [from base import names] when [base] can be imported, is not a
    package, and has the names as attributes. *)
Lemma exec_import_attrs r self base names bns g m w :
  base ≠ [] → self ≠ base →
  r base (State (<[self := g]> m) w)
  = Done tt (State (<[self := g]> (<[base := bns]> m)) w) →
  bns !! "__path__" = None →
  Forall (λ x, is_Some (bns !! x)) names →
  exec_stmt r self (SImportFrom 0 base names) (State (<[self := g]> m) w)
  = Done tt (State (<[self := bind_attrs bns names g]> (<[base := bns]> m)) w).
Proof.
  intros Hbase Hne Hr Hpath Hnames.
  change (exec_stmt r self (SImportFrom 0 base names))
    with (exec_import r self 0 base names).
  unfold exec_import. unfold bind at 1, gets at 1.
  rewrite decide_False by done. unfold bind at 1. cbn [ret].
  rewrite (bind_done _ _ _ tt _ Hr). unfold bind at 1, gets at 1.
  assert (namespace_of base (State (<[self := g]> (<[base := bns]> m)) w) = bns)
    as -> by (unfold namespace_of; cbn [modules];
              by rewrite lookup_insert_ne, lookup_insert_eq).
  rewrite decide_False by (rewrite Hpath; by intros [? ?]).
  unfold bind at 1. cbn [ret]. by apply import_attrs.
Qed.

(** [from base import names] when [base] is not imported and cannot be
    found. *)
Lemma exec_import_not_found fuel self base names st :
  base ≠ [] → parent base = [] →
  modules st !! base = None →
  find_spec base None = None →
  exec_stmt (gcd_import (S fuel)) self (SImportFrom 0 base names) st
  = Raise (ModuleNotFoundError base) st.
Proof.
  intros Hbase Hparent Hm Hfind.
  change (exec_stmt ?r self (SImportFrom 0 base names))
    with (exec_import r self 0 base names).
  unfold exec_import. unfold bind at 1, gets at 1.
  rewrite decide_False by done. unfold bind at 1. cbn [ret].
  apply bind_raise.
  rewrite gcd_import_miss, find_and_load_top by done.
  by apply load_found_none.
Qed.

(** ** Running a script *)

Lemma run_script_body fuel file body m w :
  run_script fuel file body (State m w)
  = exec_body (gcd_import fuel) main body
      (State (<[main := main_attrs file]> m) w).
Proof. done. Qed.

End scripts.
