(* ===== verification/Sealed.v ===== *)
(** * Submodules that cannot appear

    A package whose [__init__.py] imports a submodule with
    [from . import x] cannot be imported when the finder finds no such
    submodule, whatever the other modules of the tree hold and whatever
    they import.  The reason is an invariant of the import system
    ([sealed]): as long as [x] is neither an attribute of the package nor
    a module that can be found, no import, successful or not, makes it
    one, so the body of the package reaches its import of [x] with
    nothing to bind.  (A statement of the fragment stores in the
    namespace of its own module only; the import system stores a module
    in its parent.) *)

From stdpp Require Import gmap strings list fin_maps.
From S2P Require Import Prelude PySyntax Interfaces Interp InterpFacts FileSystem.
From S2P Require Import Bodies Invariants.

(** ** The invariant *)

(** [__package__] of package [pkg] is as the loader set it, or has been
    replaced by a submodule of that name. *)
Definition package_attr (pkg : modname) (ns : namespace) : Prop :=
  match ns !! "__package__" with
  | Some (VStr s) => s = dotted pkg
  | Some (VModule _) => True
  | _ => False
  end.

(** Package [pkg] is in [sys.modules] and has no attribute [x]. *)
Definition unbound (pkg : modname) (x : string) (st : state) : Prop :=
  ∃ ns, modules st !! pkg = Some ns ∧ ns !! x = None ∧ package_attr pkg ns.

(** Why nothing binds [x]: the submodule is being loaded, so no import
    loads it again, or it cannot be found. *)
Inductive seal : Type := Loading | Unfindable.

Definition sealed (pkg : modname) (x : string) (k : seal) (st : state) : Prop :=
  unbound pkg x st ∧
  match k with
  | Loading => is_Some (modules st !! (pkg ++ [x]))
  | Unfindable => modules st !! (pkg ++ [x]) = None
  end.

Definition seal_ok `{!Finder} (pkg : modname) (x : string) (k : seal) : Prop :=
  match k with
  | Loading => True
  | Unfindable => ∀ search, find_spec (pkg ++ [x]) search = None
  end.

(** A module other than the package and the submodule. *)
Definition foreign_to (pkg : modname) (x : string) (name : modname) : Prop :=
  name ≠ pkg ∧ name ≠ pkg ++ [x].

(** The body stops at [from . import x]: this is the first statement that
    binds [x] or [__package__]. *)
Fixpoint stops_at (x : string) (body : list stmt) : bool :=
  match body with
  | [] => false
  | s :: body' =>
      if decide (x ∈ binds s ∨ "__package__" ∈ binds s)
      then match s with
           | SImportFrom 1 [] [y] => bool_decide (y = x)
           | _ => false
           end
      else stops_at x body'
  end.

Section sealed.
Context `{!Finder, !Builtins}.
Variables (pkg : modname) (x : string).
Implicit Types (k : seal) (st : state).

Lemma unbound_insert name ns st :
  name ≠ pkg → unbound pkg x st →
  unbound pkg x (set_modules (<[name := ns]>) st).
Proof.
  intros Hne (pns & ? & ? & ?). exists pns.
  cbn [modules set_modules]. by rewrite lookup_insert_ne.
Qed.

Lemma unbound_delete name st :
  name ≠ pkg → unbound pkg x st → unbound pkg x (set_modules (delete name) st).
Proof.
  intros Hne (pns & ? & ? & ?). exists pns.
  cbn [modules set_modules]. by rewrite lookup_delete_ne.
Qed.

(** A store keeps the package unbound unless it binds [x] in it, or a
    string or [None] as its [__package__]. *)
Lemma unbound_store name y v st :
  name ≠ pkg ∨ (y ≠ x ∧ (y = "__package__" → ∃ n, v = VModule n)) →
  unbound pkg x st →
  unbound pkg x (set_modules (alter (<[y := v]>) name) st).
Proof.
  intros Hy (pns & Hpkg & Hx & Hattr). unfold unbound. cbn [modules set_modules].
  destruct (decide (name = pkg)) as [->|Hne].
  - destruct Hy as [?|[Hyx Hv]]; [done|]. exists (<[y := v]> pns).
    rewrite lookup_alter_eq, Hpkg. split_and!; [done|by rewrite lookup_insert_ne|].
    unfold package_attr in *. destruct (decide (y = "__package__")) as [->|?].
    + destruct Hv as [n ->]; [done|]. by rewrite lookup_insert_eq.
    + by rewrite lookup_insert_ne.
  - exists pns. by rewrite lookup_alter_ne.
Qed.

Lemma sealed_alter k name f st :
  unbound pkg x (set_modules (alter f name) st) → sealed pkg x k st →
  sealed pkg x k (set_modules (alter f name) st).
Proof.
  intros Hu [_ Hsub]. split; [done|]. cbn [modules set_modules].
  destruct k; [by apply lookup_alter_is_Some|by apply lookup_alter_None].
Qed.

Lemma sealed_world k : ignores_world (sealed pkg x k).
Proof. by intros w st [??]. Qed.

(** A statement of another module keeps it, and so does a statement of
    the package that binds neither [x] nor [__package__]. *)
Lemma exec_stmt_sealed k r self s :
  (∀ n, invariant (sealed pkg x k) (r n)) →
  self ≠ pkg ∨ ((x ∉ binds s) ∧ ("__package__" ∉ binds s)) →
  invariant (sealed pkg x k) (exec_stmt r self s).
Proof.
  intros Hr Hs. apply invariant_exec_stmt; [apply sealed_world|done|].
  intros y v Hy. apply invariant_modify. intros st Hst.
  apply sealed_alter; [|done]. apply unbound_store; [|by destruct Hst].
  destruct Hs as [?|[Hx Hp]]; [by left|right].
  split; [by intros ->|by intros ->].
Qed.

Lemma exec_body_sealed k r self body :
  (∀ n, invariant (sealed pkg x k) (r n)) → self ≠ pkg →
  invariant (sealed pkg x k) (exec_body r self body).
Proof.
  intros Hr Hself. apply invariant_forM_. intros s _.
  apply exec_stmt_sealed; auto.
Qed.

Section invariant.
Variable k : seal.
Hypothesis k_ok : seal_ok pkg x k.

(** A module that is found and was not in [sys.modules] is neither the
    package nor the submodule. *)
Lemma sealed_foreign name search s st :
  sealed pkg x k st → modules st !! name = None →
  find_spec name search = Some s → foreign_to pkg x name.
Proof.
  intros [(pns & Hpkg & _) Hsub] Hname Hfind. split; intros ->.
  - by rewrite Hpkg in Hname.
  - destruct k; [rewrite Hname in Hsub; by destruct Hsub|].
    by rewrite k_ok in Hfind.
Qed.

Lemma sealed_invariant : ImportInvariant (sealed pkg x k) (foreign_to pkg x).
Proof.
  split.
  - apply sealed_world.
  - apply sealed_foreign.
  - intros name ns st [??] [??]. split; [by apply unbound_insert|].
    cbn [modules set_modules]. by destruct k; rewrite lookup_insert_ne.
  - intros name st [??] [??]. split; [by apply unbound_delete|].
    cbn [modules set_modules]. by destruct k; rewrite lookup_delete_ne.
  - intros name y v st [??] [??]. apply sealed_alter; [|done].
    apply unbound_store; auto.
  - intros name st [? Hsub] Hparent [??]. apply sealed_alter; [|done].
    apply unbound_store; [|done].
    destruct (decide (parent name = pkg)) as [<-|]; [right|by left].
    split; [|by eexists]. intros <-. apply Hsub. symmetry. apply parent_child.
    by intros ->.
Qed.

(** So every import keeps the seal. *)
Lemma gcd_import_sealed fuel name :
  invariant (sealed pkg x k) (gcd_import fuel name).
Proof. apply (@gcd_import_invariant _ _ _ _ sealed_invariant). Qed.

End invariant.

(** ** The import that finds nothing *)

Section unfindable.
Hypothesis pkg_ok : valid_modname pkg.
Hypothesis pkg_ne : pkg ≠ [].
Variable r : modname → M exn state unit.
Hypothesis r_sealed : ∀ n, invariant (sealed pkg x Unfindable) (r n).

(** One dot, seen from the package, is the package. *)
Lemma import_base_sealed k st :
  sealed pkg x k st →
  let base := do p <- calc_package (namespace_of pkg st); resolve_name [] p 1 in
  base st = Done pkg st ∨ base st = Raise TypeError_package st.
Proof.
  intros [(ns & Hpkg & _ & Hattr) _]. unfold namespace_of. rewrite Hpkg. simpl.
  unfold calc_package, package_attr in *.
  destruct (ns !! "__package__") as [[]|]; try done; [left|by right].
  subst. rewrite undotted_dotted by done. unfold bind, ret, resolve_name. simpl.
  rewrite decide_False by done.
  rewrite decide_False by (destruct pkg; [done|simpl; lia]).
  by rewrite Nat.sub_0_r, firstn_all, app_nil_r.
Qed.

(** The statement [from . import x] of the package raises. *)
Lemma exec_import_fails :
  triple (sealed pkg x Unfindable) (exec_stmt r pkg (SImportFrom 1 [] [x]))
    (λ _ _, False) (λ _, sealed pkg x Unfindable).
Proof.
  change (exec_stmt r pkg (SImportFrom 1 [] [x]))
    with (exec_import r pkg 1 [] [x]). unfold exec_import.
  apply (triple_bind _ _ _ (λ g st, sealed pkg x Unfindable st ∧
                                     g = namespace_of pkg st));
    [by apply triple_gets|]. intros g.
  apply (triple_bind _ _ _ (λ base st, sealed pkg x Unfindable st ∧ base = pkg)).
  { intros st [Hst ->].
    by destruct (import_base_sealed _ st Hst) as [-> | ->]. }
  intros base. apply triple_pure. intros ->.
  apply (triple_bind _ _ _ (λ _, sealed pkg x Unfindable)); [apply r_sealed|].
  intros _.
  apply (triple_bind _ _ _ (λ _, sealed pkg x Unfindable));
    [apply invariant_gets|]. intros ns.
  apply (triple_bind _ _ _ (λ _, sealed pkg x Unfindable)).
  { case_decide; [by apply invariant_handle_fromlist|apply invariant_ret]. }
  intros _ st Hst. pose proof Hst as [(pns & Hpkg & Hx & _) Hsub].
  cbn [forM_].
  by rewrite (bind_raise _ _ _ (ImportError_cannot_import x pkg) st)
    by (apply bind_raise; by apply (import_from_missing _ _ _ pns)).
Qed.

(** A body that stops at [from . import x] raises, there or before. *)
Lemma exec_body_fails body :
  stops_at x body = true →
  triple (sealed pkg x Unfindable) (exec_body r pkg body)
    (λ _ _, False) (λ _, sealed pkg x Unfindable).
Proof.
  induction body as [|s body IH]; [done|]. cbn [stops_at]. intros Hstop st Hst.
  rewrite exec_body_cons. case_decide as Hs.
  - destruct s as [| | |[|[|]] [|] [|y []]|]; try done.
    apply bool_decide_eq_true in Hstop as ->.
    refine (triple_bind _ _ _ (λ _ _, False) _ _ exec_import_fails _ st Hst).
    by intros _ ? [].
  - refine (triple_bind _ _ _ (λ _, sealed pkg x Unfindable) _ _ _ _ st Hst);
      [|intros _; by apply IH].
    apply exec_stmt_sealed; [done..|]. right. tauto.
Qed.

(** Loading the package raises and takes it out of [sys.modules]. *)
Lemma load_unlocked_fails s body ls :
  spec_name s = pkg →
  spec_loader s = SourceFileLoader body →
  spec_locations s = Some ls →
  init_module_attrs s !! x = None →
  stops_at x body = true →
  triple (λ st, modules st !! pkg = None ∧ modules st !! (pkg ++ [x]) = None)
    (load_unlocked r s) (λ _ _, False)
    (λ _ st, modules st !! pkg = None ∧ modules st !! (pkg ++ [x]) = None).
Proof.
  intros Hname Hloader Hls Hx Hstop st [Hpkg Hsub].
  rewrite (load_unlocked_source _ _ body), Hname by done.
  assert (sealed pkg x Unfindable
            (set_modules (<[pkg := init_module_attrs s]>) st)) as Hst.
  { split; [|cbn [modules set_modules]; rewrite lookup_insert_ne; [done|apply snoc_ne]].
    exists (init_module_attrs s). cbn [modules set_modules].
    rewrite lookup_insert_eq. split_and!; [done..|].
    unfold package_attr. by rewrite (init_attrs_package s ls), Hname. }
  pose proof (exec_body_fails body Hstop _ Hst) as Hbody.
  destruct (exec_body _ _ _ _) as [|e st'|]; [done| |done].
  destruct Hbody as [_ Hsub']. cbn [modules set_modules].
  rewrite lookup_delete_eq, lookup_delete_ne; [done|apply snoc_ne].
Qed.

End unfindable.

End sealed.

(** A top-level package whose body stops at the import of a submodule
    that cannot be found is never imported: whatever the finder finds
    for the other names, the import raises or runs out of fuel, and
    leaves the package out of [sys.modules]. *)
Lemma gcd_import_fails `{!Finder, !Builtins} pkg x s body ls fuel :
  valid_modname pkg → parent pkg = [] → pkg ≠ [] →
  (∀ search, find_spec (pkg ++ [x]) search = None) →
  find_spec pkg None = Some s →
  spec_loader s = SourceFileLoader body →
  spec_locations s = Some ls →
  init_module_attrs s !! x = None →
  stops_at x body = true →
  triple (λ st, modules st !! pkg = None ∧ modules st !! (pkg ++ [x]) = None)
    (gcd_import fuel pkg) (λ _ _, False)
    (λ _ st, modules st !! pkg = None ∧ modules st !! (pkg ++ [x]) = None).
Proof.
  intros Hok Hparent Hne Hsub Hfind Hloader Hls Hx Hstop st [Hpkg Hx'].
  destruct fuel as [|fuel]; [done|].
  rewrite gcd_import_miss, find_and_load_top by done.
  rewrite (load_found_some _ _ _ s) by done.
  refine (triple_bind
            (λ st, modules st !! pkg = None ∧ modules st !! (pkg ++ [x]) = None)
            _ _ (λ _ _, False) _ _ _ _ st (conj Hpkg Hx')); [|by intros _ ? []].
  apply (load_unlocked_fails pkg x Hok Hne (gcd_import fuel)
           (gcd_import_sealed pkg x Unfindable Hsub fuel) s body ls);
    [by apply (find_spec_name _ _ _ Hfind)|done..].
Qed.
