(* ===== verification/Package.v ===== *)
(** * The package: [src/__init__.py], [src/models/__init__.py],
      [src/pricing/__init__.py]

    Each module body is a [list stmt], statement by statement as in the
    source; the values the source assigns are definitions of their own in
    a module named after the file ([SrcInit], [ModelsInit],
    [PricingInit]).  [package_files] is the package directory as the
    sources give it, [installed_files] the layout [setup.py] installs.

    The theorems are about importing the package in an arbitrary
    interpreter state and an arbitrary environment in which the files are
    found: what is raised, and that nothing is left in [sys.modules]. *)

From stdpp Require Import gmap strings list fin_maps.
From S2P Require Import Prelude PySyntax Interfaces Interp InterpFacts FileSystem Bodies.

(** ** [src/__init__.py] *)

Module SrcInit.

Definition __doc__ : string :=
"Monte Carlo Option Pricing Lab

A professional quantitative finance library for option pricing using Monte Carlo simulations.

Main Components:
    - pricing: Core pricing engines for European, American, and exotic options
    - models: Stochastic models (GBM, jump-diffusion, volatility surfaces)
    - variance_reduction: Advanced techniques (antithetic, control variates, stratified sampling)
    - portfolio: Portfolio risk analysis (VaR, CVaR, stress testing)
    - data: Market data utilities and calibration
    - utils: Helper functions and metrics
".

Definition __version__ : string := "0.1.0".
Definition __author__ : string := "Lorenzo Martínez Malvar".
Definition __email__ : string := "lorenlorenloren@gmail.com".

Definition __all__ : list string :=
  ["pricing"; "models"; "variance_reduction"; "portfolio"; "data"; "utils"].

End SrcInit.

Definition src_init : list stmt :=
  [ SDoc SrcInit.__doc__;
    SAssign "__version__" (EStr SrcInit.__version__);
    SAssign "__author__" (EStr SrcInit.__author__);
    SAssign "__email__" (EStr SrcInit.__email__);
    SImportFrom 1 [] ["pricing"];
    SImportFrom 1 [] ["models"];
    SImportFrom 1 [] ["variance_reduction"];
    SImportFrom 1 [] ["portfolio"];
    SImportFrom 1 [] ["data"];
    SImportFrom 1 [] ["utils"];
    SAssign "__all__" (EList (EStr <$> SrcInit.__all__)) ].

(** ** [src/models/__init__.py] *)

Module ModelsInit.

Definition __doc__ : string :=
"Stochastic models for option pricing.

Contains: GBM, jump-diffusion, volatility surfaces.
".

Definition __all__ : list string := [].

End ModelsInit.

Definition models_init : list stmt :=
  [ SDoc ModelsInit.__doc__;
    SAssign "__all__" (EList (EStr <$> ModelsInit.__all__)) ].

(** ** [src/pricing/__init__.py] *)

Module PricingInit.

Definition __doc__ : string :=
"Option pricing engines module.

Submodules:
    - european: European call and put options
    - american: American options with LSM algorithm
    - exotic: Exotic options (Asian, Barrier, Basket)
    - engine: Base Monte Carlo simulation engine
    - greeks: Greeks calculation (Delta, Gamma, Vega, Theta)
".

Definition __all__ : list string :=
  ["european"; "american"; "exotic"; "engine"; "greeks"].

End PricingInit.

Definition pricing_init : list stmt :=
  [ SDoc PricingInit.__doc__;
    SImportFrom 1 [] ["european"];
    SImportFrom 1 [] ["american"];
    SImportFrom 1 [] ["exotic"];
    SImportFrom 1 [] ["engine"];
    SImportFrom 1 [] ["greeks"];
    SAssign "__all__" (EList (EStr <$> PricingInit.__all__)) ].

(** ** The package in a project directory *)

(** The names under which the three files are importable from the
    project root. *)
Definition src : modname := ["src"].
Definition src_models : modname := ["src"; "models"].
Definition src_pricing : modname := ["src"; "pricing"].

(** The three files by path, and the project directory that holds them
    and nothing else. *)
Definition package_files : gmap path (list stmt) :=
  {[ ["src"; "__init__.py"] := src_init;
     ["src"; "models"; "__init__.py"] := models_init;
     ["src"; "pricing"; "__init__.py"] := pricing_init ]}.

Definition package_env : environment :=
  Environment (FileSystem package_files ∅) ∅.

(** What the finder answers for the three files. *)
Definition src_spec : module_spec := package_spec src ["src"] src_init.
Definition models_spec : module_spec :=
  package_spec src_models ["src"; "models"] models_init.
Definition pricing_spec : module_spec :=
  package_spec src_pricing ["src"; "pricing"] pricing_init.

(** The exception an import of [pricing] under the name [pkg] ends
    in, and the one every import of the package ends in. *)
Definition european_missing (pkg : modname) : exn :=
  ImportError_cannot_import "european" pkg.

Definition european_error : exn := european_missing src_pricing.

(** The namespace of [src] when its first import statement starts. *)
Definition src_ns_before_imports : namespace :=
  <["__email__" := VStr SrcInit.__email__]>
    (<["__author__" := VStr SrcInit.__author__]>
       (<["__version__" := VStr SrcInit.__version__]>
          (<["__doc__" := VStr SrcInit.__doc__]> (init_module_attrs src_spec)))).

(** The namespace of [models], imported under the name [name] from
    directory [dir]. *)
Definition models_ns (name : modname) (dir : path) : namespace :=
  <["__all__" := VList (VStr <$> ModelsInit.__all__)]>
    (<["__doc__" := VStr ModelsInit.__doc__]>
       (init_module_attrs (package_spec name dir models_init))).

(** Nothing of the package is imported. *)
Definition not_imported (st : state) : Prop :=
  ∀ n, src `prefix_of` n → modules st !! n = None.

(** The packages as [setup.py] installs them: [models] and [pricing] at
    the top level. *)
Definition installed_files : gmap path (list stmt) :=
  {[ ["models"; "__init__.py"] := models_init;
     ["pricing"; "__init__.py"] := pricing_init ]}.

Definition installed_env : environment :=
  Environment (FileSystem installed_files ∅) ∅.

(** * [pricing] cannot be imported *)

Section pricing.
Context `{!Finder, !Builtins}.
Variables (pkg : modname) (dir : path).
Hypothesis pkg_ok : valid_modname pkg.
Hypothesis pkg_ne : pkg ≠ [].
Hypothesis dir_ok : valid_path dir.

(** The finder finds no [european] in the directory of the package. *)
Hypothesis find_european : find_spec (pkg ++ ["european"]) (Some [dir]) = None.

Let spec : module_spec := package_spec pkg dir pricing_init.

(** The body of [pricing/__init__.py] stops at its first import. *)
Lemma pricing_init_raises fuel m w :
  m !! (pkg ++ ["european"]) = None →
  exec_body (gcd_import (S fuel)) pkg pricing_init
    (State (<[pkg := init_module_attrs spec]> m) w)
  = Raise (european_missing pkg)
      (State (<[pkg := <["__doc__" := VStr PricingInit.__doc__]>
                         (init_module_attrs spec)]> m) w).
Proof.
  intros Hm. unfold pricing_init.
  rewrite exec_body_cons, (bind_done _ _ _ _ _ (exec_doc _ _ _ _)).
  unfold set_modules; cbn [modules world]. rewrite alter_insert_eq.
  rewrite exec_body_cons. apply bind_raise.
  apply (from_import_missing _ _ _ _
           (<["__doc__" := VStr PricingInit.__doc__]> (init_module_attrs spec))
           [VStr (path_str dir)]); [apply lookup_insert_eq| |done|done| | | |].
  - rewrite lookup_insert_ne by done. by apply (init_attrs_package spec [dir]).
  - rewrite lookup_insert_ne by done. by apply (init_attrs_path spec [dir]).
  - rewrite lookup_insert_ne by done.
    by apply init_attrs_fresh, (bool_decide_unpack _).
  - cbn [modules]. rewrite lookup_insert_ne; [done|apply snoc_ne].
  - by rewrite path_entries_singleton.
Qed.

(** With no fuel for the import of its package, the body runs out of
    fuel at its first import. *)
Lemma pricing_init_out_of_fuel m w :
  exec_body (gcd_import 0) pkg pricing_init
    (State (<[pkg := init_module_attrs spec]> m) w) = OutOfFuel.
Proof.
  unfold pricing_init.
  rewrite exec_body_cons, (bind_done _ _ _ _ _ (exec_doc _ _ _ _)).
  unfold set_modules; cbn [modules world]. rewrite alter_insert_eq.
  rewrite exec_body_cons. apply bind_out_of_fuel.
  apply (exec_import_out_of_fuel _ _ _ _
           (<["__doc__" := VStr PricingInit.__doc__]> (init_module_attrs spec)));
    [apply lookup_insert_eq| |done..].
  rewrite lookup_insert_ne by done. by apply (init_attrs_package spec [dir]).
Qed.

(** Loading it raises and takes the module out of [sys.modules] again. *)
Lemma load_pricing_raises fuel m w :
  m !! pkg = None →
  m !! (pkg ++ ["european"]) = None →
  load_unlocked (gcd_import (S fuel)) spec (State m w)
  = Raise (european_missing pkg) (State m w).
Proof.
  intros Hpkg Heuropean.
  rewrite (load_unlocked_raises _ spec pricing_init (State m w) _ _
             eq_refl (pricing_init_raises fuel m w Heuropean)).
  unfold set_modules; cbn [modules world spec_name spec package_spec].
  by rewrite delete_insert_eq, delete_id.
Qed.

End pricing.

(** * Importing the package from the project root *)

Section import_src.
Context `{!Finder, !Builtins}.

(** The finder finds [src/__init__.py] and [src/pricing/__init__.py] and
    finds no [european] below [src/pricing]. *)
Hypothesis find_src : find_spec src None = Some src_spec.
Hypothesis find_pricing :
  find_spec src_pricing (Some [["src"]]) = Some pricing_spec.
Hypothesis find_european :
  find_spec (src_pricing ++ ["european"]) (Some [["src"; "pricing"]]) = None.

(** Importing [src.pricing] from a state in which [src] is a package
    raises, and leaves the state as it was. *)
Lemma import_pricing_raises fuel m w ns :
  m !! src = Some ns →
  ns !! "__path__" = Some (VList [VStr "src"]) →
  m !! src_pricing = None →
  m !! (src_pricing ++ ["european"]) = None →
  gcd_import (S (S fuel)) src_pricing (State m w) = Raise european_error (State m w).
Proof.
  intros Hsrc Hpath Hpricing Heuropean.
  rewrite gcd_import_miss by done.
  rewrite (find_and_load_sub _ _ _ ns [VStr "src"]) by done.
  rewrite (load_found_some _ _ _ pricing_spec) by exact find_pricing.
  apply bind_raise.
  apply (load_pricing_raises src_pricing ["src"; "pricing"]);
    first [done|by apply (bool_decide_unpack _)].
Qed.

(** The body of [src/__init__.py] stops at [from . import pricing]. *)
Lemma src_init_raises fuel m w :
  m !! src_pricing = None →
  m !! (src_pricing ++ ["european"]) = None →
  exec_body (gcd_import (S (S fuel))) src src_init
    (State (<[src := init_module_attrs src_spec]> m) w)
  = Raise european_error (State (<[src := src_ns_before_imports]> m) w).
Proof.
  intros Hpricing Heuropean. unfold src_init.
  do 4 exec_quiet_step. fold src_ns_before_imports.
  rewrite exec_body_cons. apply bind_raise.
  rewrite (exec_import_relative _ _ _ _ src_ns_before_imports);
    [|apply lookup_insert_eq|by vm_compute|by apply (bool_decide_unpack _)
     |done|by_compute|by vm_compute
     |apply gcd_import_hit; cbn [modules]; by rewrite lookup_insert_eq].
  by rewrite (import_pricing_raises _ _ _ src_ns_before_imports)
    by (by rewrite ?lookup_insert_eq, ?lookup_insert_ne).
Qed.

(** Importing [src] raises [ImportError] for [european] and leaves the
    interpreter state exactly as it was. *)
Lemma import_src_outcome fuel st :
  modules st !! src = None →
  modules st !! src_pricing = None →
  modules st !! (src_pricing ++ ["european"]) = None →
  gcd_import (S (S (S fuel))) src st = Raise european_error st.
Proof.
  destruct st as [m w]; cbn [modules]. intros Hsrc Hpricing Heuropean.
  rewrite gcd_import_miss, find_and_load_top by done.
  rewrite (load_found_some _ _ _ src_spec) by exact find_src.
  apply bind_raise.
  rewrite (load_unlocked_raises _ src_spec src_init (State m w) _ _
             eq_refl (src_init_raises fuel m w Hpricing Heuropean)).
  unfold set_modules; cbn [modules world spec_name src_spec package_spec].
  by rewrite delete_insert_eq, delete_id.
Qed.

(** The import nests three levels deep: with less fuel the body of
    [src] or the body of [src.pricing] runs out of it. *)
Lemma import_pricing_out_of_fuel m w ns :
  m !! src = Some ns →
  ns !! "__path__" = Some (VList [VStr "src"]) →
  m !! src_pricing = None →
  gcd_import 1 src_pricing (State m w) = OutOfFuel.
Proof.
  intros Hsrc Hpath Hpricing.
  rewrite gcd_import_miss by done.
  rewrite (find_and_load_sub _ _ _ ns [VStr "src"]) by done.
  rewrite (load_found_some _ _ _ pricing_spec) by exact find_pricing.
  apply bind_out_of_fuel, (load_unlocked_out_of_fuel _ _ pricing_init); [done|].
  apply (pricing_init_out_of_fuel src_pricing ["src"; "pricing"]); by_compute.
Qed.

Lemma src_init_out_of_fuel fuel m w :
  fuel < 2 →
  m !! src_pricing = None →
  exec_body (gcd_import fuel) src src_init
    (State (<[src := init_module_attrs src_spec]> m) w) = OutOfFuel.
Proof.
  intros Hfuel Hpricing. unfold src_init.
  do 4 exec_quiet_step. fold src_ns_before_imports.
  rewrite exec_body_cons. apply bind_out_of_fuel.
  destruct fuel as [|[|fuel]]; [| |lia].
  - apply (exec_import_out_of_fuel _ _ _ _ src_ns_before_imports);
      [apply lookup_insert_eq|by vm_compute|by_compute|done|done].
  - rewrite (exec_import_relative _ _ _ _ src_ns_before_imports);
      [|apply lookup_insert_eq|by vm_compute|by_compute
       |done|by_compute|by vm_compute
       |apply gcd_import_hit; cbn [modules]; by rewrite lookup_insert_eq].
    by rewrite (import_pricing_out_of_fuel _ _ src_ns_before_imports)
      by (by rewrite ?lookup_insert_eq, ?lookup_insert_ne).
Qed.

Lemma import_src_out_of_fuel fuel st :
  fuel < 3 →
  modules st !! src = None →
  modules st !! src_pricing = None →
  gcd_import fuel src st = OutOfFuel.
Proof.
  destruct st as [m w]; cbn [modules]. intros Hfuel Hsrc Hpricing.
  destruct fuel as [|fuel]; [done|].
  rewrite gcd_import_miss, find_and_load_top by done.
  rewrite (load_found_some _ _ _ src_spec) by exact find_src.
  apply bind_out_of_fuel, (load_unlocked_out_of_fuel _ _ src_init); [done|].
  apply src_init_out_of_fuel; [lia|done].
Qed.

(** So does importing anything below [src]: the parent packages are
    imported first, outermost first. *)
Lemma import_below_src_outcome fuel rest st :
  not_imported st →
  gcd_import (length rest + 3 + fuel) (src ++ rest) st = Raise european_error st.
Proof.
  intros Hst. induction rest as [|x rest IH] using rev_ind.
  - rewrite app_nil_r.
    apply import_src_outcome; apply Hst; eexists; reflexivity.
  - rewrite length_app, app_assoc. cbn [length].
    replace (length rest + 1 + 3 + fuel) with (S (length rest + 3 + fuel)) by lia.
    rewrite gcd_import_miss by (apply Hst; rewrite <- app_assoc; by apply prefix_app_r).
    apply find_and_load_parent_raises; rewrite parent_snoc;
      [by destruct rest|apply Hst; by apply prefix_app_r|exact IH].
Qed.

End import_src.

(** C1. In any environment whose finder finds [src/__init__.py] and
    [src/pricing/__init__.py] with the bodies of the sources and finds no
    module [european] below [src/pricing], and from any interpreter state
    in which none of the three is imported yet, [import src] raises
    [ImportError: cannot import name 'european' from 'src.pricing'] for
    every amount of fuel from 3 on, and leaves [sys.modules] and the
    outside world exactly as they were: neither [src] nor [src.pricing]
    stays behind half-initialised. *)
Theorem import_src_raises `{!Finder, !Builtins} (fuel : nat) (st : state) :
  find_spec src None = Some (package_spec src ["src"] src_init) →
  find_spec src_pricing (Some [["src"]])
    = Some (package_spec src_pricing ["src"; "pricing"] pricing_init) →
  find_spec (src_pricing ++ ["european"]) (Some [["src"; "pricing"]]) = None →
  3 ≤ fuel →
  modules st !! src = None →
  modules st !! src_pricing = None →
  modules st !! (src_pricing ++ ["european"]) = None →
  import_module fuel src st = Raise european_error st.
Proof.
  intros Hsrc Hpricing Heuropean Hfuel.
  destruct fuel as [|[|[|fuel]]]; [lia..|].
  by apply import_src_outcome.
Qed.

Lemma import_src_raises_witness :
  @import_module (env_finder package_env) no_builtins 3 src initial_state
  = Raise european_error initial_state.
Proof.
  apply (@import_src_raises (env_finder package_env) no_builtins 3 initial_state);
    [by vm_compute|by vm_compute|by vm_compute|lia|done|done|done].
Defined.

(** C15. Under the same finder and from the same states, the import
    of [src] is exactly three imports deep ([src], [src.pricing],
    [src.pricing.european]): the model runs out of fuel with less than 3
    and with no other amount, so the outcome of the first theorem is the
    outcome for every amount of fuel that is enough. *)
Theorem import_src_fuel `{!Finder, !Builtins} (fuel : nat) (st : state) :
  find_spec src None = Some (package_spec src ["src"] src_init) →
  find_spec src_pricing (Some [["src"]])
    = Some (package_spec src_pricing ["src"; "pricing"] pricing_init) →
  find_spec (src_pricing ++ ["european"]) (Some [["src"; "pricing"]]) = None →
  modules st !! src = None →
  modules st !! src_pricing = None →
  modules st !! (src_pricing ++ ["european"]) = None →
  import_module fuel src st = OutOfFuel ↔ fuel < 3.
Proof.
  intros Hsrc Hpricing Heuropean Hm1 Hm2 Hm3. unfold import_module. split.
  - destruct fuel as [|[|[|fuel]]]; [lia..|].
    by rewrite import_src_outcome.
  - intros Hfuel. by apply import_src_out_of_fuel.
Qed.

Lemma import_src_fuel_witness :
  @import_module (env_finder package_env) no_builtins 2 src initial_state
  = OutOfFuel.
Proof.
  apply (@import_src_fuel (env_finder package_env) no_builtins 2 initial_state);
    [by vm_compute|by vm_compute|by vm_compute|done|done|done|lia].
Defined.

(** C5. Under the same finder, importing any module below [src]
    ([src.models], [src.pricing.engine], a name that does not exist)
    raises the same [ImportError] and leaves the state as it was, for
    every amount of fuel from the number of components of the name plus 2
    on: no part of the package can be imported on its own. *)
Theorem import_below_src_raises `{!Finder, !Builtins} (fuel : nat)
    (rest : modname) (st : state) :
  find_spec src None = Some (package_spec src ["src"] src_init) →
  find_spec src_pricing (Some [["src"]])
    = Some (package_spec src_pricing ["src"; "pricing"] pricing_init) →
  find_spec (src_pricing ++ ["european"]) (Some [["src"; "pricing"]]) = None →
  length (src ++ rest) + 2 ≤ fuel →
  not_imported st →
  import_module fuel (src ++ rest) st = Raise european_error st.
Proof.
  intros Hsrc Hpricing Heuropean Hfuel Hst. unfold import_module.
  replace fuel with (length rest + 3 + (fuel - length rest - 3))
    by (rewrite length_app in Hfuel; simpl in Hfuel; lia).
  by apply import_below_src_outcome.
Qed.

Lemma import_below_src_raises_witness :
  @import_module (env_finder package_env) no_builtins 4 src_models initial_state
  = Raise european_error initial_state.
Proof.
  apply (@import_below_src_raises (env_finder package_env) no_builtins 4
           ["models"] initial_state);
    [by vm_compute|by vm_compute|by vm_compute|simpl; lia|by intros n _].
Defined.

Section installed.
Context `{!Finder, !Builtins}.

Lemma import_models_outcome fuel name dir st :
  parent name = [] →
  find_spec name None = Some (package_spec name dir models_init) →
  modules st !! name = None →
  gcd_import (S fuel) name st
  = Done tt (set_modules (<[name := models_ns name dir]>) st).
Proof.
  destruct st as [m w]. intros Hparent Hfind Hname.
  rewrite gcd_import_miss, find_and_load_top by done.
  rewrite (load_found_some _ _ _ _ _ Hfind).
  rewrite (bind_done _ _ _ tt _
             (load_unlocked_quiet _ (package_spec name dir models_init)
                (models_ns name dir) m w eq_refl)).
  by rewrite decide_True.
Qed.

Lemma import_pricing_outcome fuel p dir st :
  valid_modname [p] → valid_path dir →
  find_spec [p] None = Some (package_spec [p] dir pricing_init) →
  find_spec [p; "european"] (Some [dir]) = None →
  modules st !! [p] = None →
  modules st !! [p; "european"] = None →
  gcd_import (S (S fuel)) [p] st = Raise (european_missing [p]) st.
Proof.
  destruct st as [m w]. intros Hp Hdir Hfind Heuropean Hm Hme.
  rewrite gcd_import_miss, find_and_load_top by done.
  rewrite (load_found_some _ _ _ _ _ Hfind). apply bind_raise.
  by apply (load_pricing_raises [p] dir).
Qed.

End installed.

(** C8. [models/__init__.py] found as a top-level package, under any name
    and in any directory, can be imported from any state in which it is
    not imported yet, with any fuel from 1 on: the import enters one
    module in [sys.modules], whose namespace holds the attributes the
    loader sets, the docstring and an empty [__all__], and changes
    nothing else. *)
Theorem import_models_toplevel `{!Finder, !Builtins} (fuel : nat)
    (name : modname) (dir : path) (st : state) :
  parent name = [] →
  find_spec name None = Some (package_spec name dir models_init) →
  1 ≤ fuel →
  modules st !! name = None →
  import_module fuel name st
  = Done tt (set_modules (<[name := models_ns name dir]>) st).
Proof.
  intros Hparent Hfind Hfuel Hname. destruct fuel as [|fuel]; [lia|].
  by apply import_models_outcome.
Qed.

Lemma import_models_toplevel_witness :
  @import_module (env_finder installed_env) no_builtins 1 ["models"] initial_state
  = Done tt (set_modules (<[["models"] := models_ns ["models"] ["models"]]>)
               initial_state).
Proof.
  apply (@import_models_toplevel (env_finder installed_env) no_builtins 1
           ["models"] ["models"] initial_state);
    [done|by vm_compute|lia|done].
Defined.

(** C7. [pricing/__init__.py] found as a top-level package, under any
    name [p] and in any directory in which the finder finds no
    [european], cannot be imported: the import raises [ImportError:
    cannot import name 'european' from p] with any fuel from 2 on and
    leaves the state as it was.  This is the layout [setup.py] installs. *)
Theorem import_pricing_toplevel `{!Finder, !Builtins} (fuel : nat)
    (p : string) (dir : path) (st : state) :
  valid_modname [p] → valid_path dir →
  find_spec [p] None = Some (package_spec [p] dir pricing_init) →
  find_spec [p; "european"] (Some [dir]) = None →
  2 ≤ fuel →
  modules st !! [p] = None →
  modules st !! [p; "european"] = None →
  import_module fuel [p] st = Raise (european_missing [p]) st.
Proof.
  intros Hp Hdir Hfind Heuropean Hfuel. destruct fuel as [|[|fuel]]; [lia..|].
  by apply (import_pricing_outcome fuel p dir).
Qed.

Lemma import_pricing_toplevel_witness :
  @import_module (env_finder installed_env) no_builtins 2 ["pricing"] initial_state
  = Raise (european_missing ["pricing"]) initial_state.
Proof.
  apply (@import_pricing_toplevel (env_finder installed_env) no_builtins 2
           "pricing" ["pricing"] initial_state);
    [by apply (bool_decide_unpack _)|by apply (bool_decide_unpack _)
    |by vm_compute|by vm_compute|lia|done|done].
Defined.
