(* ===== verification/Completed.v ===== *)
(** * The package in a completed source tree

    The [__init__] files import eleven modules and packages the
    repository does not hold.  This file shows what the three files do
    once they are there: in any environment in which each of them is
    found and loads quietly (a source file of docstrings and literal
    assignments, a namespace package, an installed library),
    [import src] succeeds, and [sys.modules] and the namespaces of [src]
    and [src.pricing] are the ones given here.

    Whatever the environment, when the body of an [__init__] file has
    finished, every name of its [__all__] is bound, so that
    [from src import *] cannot fail. *)

From stdpp Require Import gmap strings list fin_maps.
From S2P Require Import Prelude PySyntax Interfaces Interp InterpFacts.
From S2P Require Import FileSystem Bodies Package.

(** The subpackages [src/__init__.py] imports after [pricing]. *)
Definition src_quiet : list string :=
  ["models"; "variance_reduction"; "portfolio"; "data"; "utils"].

(** A source tree with every module the package imports: the three
    files of the repository and an empty file for each of the others. *)
Definition completed_files : gmap path (list stmt) :=
  package_files ∪
  list_to_map ((λ x, (["src"; "pricing"; x +:+ ".py"], [])) <$> PricingInit.__all__) ∪
  list_to_map ((λ x, (["src"; x; "__init__.py"], []))
                 <$> ["variance_reduction"; "portfolio"; "data"; "utils"]).

Definition completed_env : environment :=
  Environment (FileSystem completed_files ∅) ∅.

(** What [from src import *] binds in state [st]: the names of
    [__all__] with the values they have as attributes of [src]. *)
Definition src_star (st : state) : list (string * value) :=
  (λ x, (x, default VNone (namespace_of src st !! x))) <$> SrcInit.__all__.

(** * Star imports *)

(** C4. Whatever the environment: if [import src] succeeds (the finder
    finds [src/__init__.py] with the body of the source as a top-level
    package in some directory, [src] is not imported yet), then in the
    state it leaves, [from src import *] succeeds with any fuel from 1 on,
    binds exactly the six names of [__all__] to the values they have as
    attributes of [src], and changes nothing: every name of [__all__] is
    bound by the body before [__all__] is assigned. *)
Theorem star_import_src `{!Finder, !Builtins} (fuel fuel' : nat) (dir : path)
    (st st' : state) :
  find_spec src None = Some (package_spec src dir src_init) →
  modules st !! src = None →
  import_module fuel src st = Done tt st' →
  1 ≤ fuel' →
  import_star fuel' src st' = Done (src_star st') st'.
Proof.
  intros Hfind Hsrc Himport Hfuel. destruct fuel' as [|fuel']; [lia|].
  apply (import_then_star fuel fuel' src _ (removelast src_init) _ st st'
           eq_refl Hfind eq_refl); [|done..].
  by apply (bool_decide_unpack _).
Qed.

(** * The completed tree *)

Section completed.
Context `{!Finder, !Builtins}.

(** The namespaces of [src.pricing] and [src] after their bodies have
    run, and [sys.modules] after [import src]. *)
Definition pricing_ns_completed : namespace :=
  <["__all__" := VList (VStr <$> PricingInit.__all__)]>
    (bind_submodules src_pricing PricingInit.__all__
       (<["__doc__" := VStr PricingInit.__doc__]>
          (init_module_attrs pricing_spec))).

Definition src_ns_completed : namespace :=
  <["__all__" := VList (VStr <$> SrcInit.__all__)]>
    (bind_submodules src SrcInit.__all__ src_ns_before_imports).

Definition pricing_completed (m : gmap modname namespace)
  : gmap modname namespace :=
  <[src_pricing := pricing_ns_completed]>
    (enter_submodules src_pricing (submodule_ns src_pricing [["src"; "pricing"]])
       PricingInit.__all__ m).

Definition modules_completed (m : gmap modname namespace)
  : gmap modname namespace :=
  <[src := src_ns_completed]>
    (enter_submodules src (submodule_ns src [["src"]]) src_quiet
       (pricing_completed m)).

(** Loading [src.pricing] enters nothing but the package and its
    submodules. *)
Lemma pricing_completed_fresh m n :
  m !! n = None → n ≠ src_pricing →
  (∀ x, x ∈ PricingInit.__all__ → n ≠ src_pricing ++ [x]) →
  pricing_completed m !! n = None.
Proof.
  intros Hn Hne Hsub. unfold pricing_completed.
  rewrite lookup_insert_ne by done. by rewrite enter_submodules_lookup_ne.
Qed.

Hypothesis find_src : find_spec src None = Some src_spec.
Hypothesis find_pricing :
  find_spec src_pricing (Some [["src"]]) = Some pricing_spec.
Hypothesis pricing_subs :
  Forall (quiet_submodule src_pricing [["src"; "pricing"]]) PricingInit.__all__.
Hypothesis src_subs : Forall (quiet_submodule src [["src"]]) src_quiet.

(** The body of [src/pricing/__init__.py] runs to its end. *)
Lemma pricing_init_completed fuel m w :
  Forall (λ x, m !! (src_pricing ++ [x]) = None) PricingInit.__all__ →
  exec_body (gcd_import (S fuel)) src_pricing pricing_init
    (State (<[src_pricing := init_module_attrs pricing_spec]> m) w)
  = Done tt (State (pricing_completed m) w).
Proof.
  intros Hm. unfold pricing_init. exec_quiet_step.
  change (SImportFrom 1 [] ["european"] :: ?rest)
    with (import_stmts PricingInit.__all__
            ++ [SAssign "__all__" (EList (EStr <$> PricingInit.__all__))]).
  rewrite (exec_import_stmts _ _ _ _ [VStr "src/pricing"]);
    [|by apply (bool_decide_unpack _)|done|by vm_compute|by vm_compute
     |by apply (bool_decide_unpack _)|Forall_each ltac:(by vm_compute)
     |done|exact pricing_subs].
  exec_quiet_step. done.
Qed.

Lemma load_pricing_completed fuel m w :
  Forall (λ x, m !! (src_pricing ++ [x]) = None) PricingInit.__all__ →
  load_unlocked (gcd_import (S fuel)) pricing_spec (State m w)
  = Done tt (State (pricing_completed m) w).
Proof.
  intros Hm. rewrite (load_unlocked_source _ pricing_spec pricing_init) by done.
  unfold set_modules; cbn [modules world spec_name pricing_spec package_spec].
  by rewrite pricing_init_completed.
Qed.

(** Importing [src.pricing] from a state in which [src] is a package:
    the submodules and the package are entered, and the package is bound
    in [src]. *)
Lemma import_pricing_completed fuel pns m w :
  pns !! "__path__" = Some (VList [VStr "src"]) →
  m !! src_pricing = None →
  Forall (λ x, m !! (src_pricing ++ [x]) = None) PricingInit.__all__ →
  gcd_import (S (S fuel)) src_pricing (State (<[src := pns]> m) w)
  = Done tt (State (<[src := <["pricing" := VModule src_pricing]> pns]>
                      (pricing_completed m)) w).
Proof.
  intros Hpath Hpricing Hm.
  rewrite gcd_import_miss by (cbn [modules]; by rewrite lookup_insert_ne).
  rewrite (find_and_load_sub _ _ _ pns [VStr "src"]);
    [|first [done|apply lookup_insert_eq|cbn [modules]; by rewrite lookup_insert_ne]..].
  rewrite (load_found_some _ _ _ pricing_spec) by exact find_pricing.
  assert (Forall (λ x, <[src := pns]> m !! (src_pricing ++ [x]) = None)
            PricingInit.__all__) as Hm'.
  { eapply Forall_impl; [exact Hm|]. intros x Hx. by rewrite lookup_insert_ne. }
  rewrite (bind_done _ _ _ tt _ (load_pricing_completed fuel _ w Hm')).
  rewrite decide_False by done. unfold pricing_completed.
  rewrite enter_submodules_insert by (by intros x _).
  rewrite (insert_insert_ne _ src_pricing src) by done. apply store_insert.
Qed.

(** [from . import pricing] in [src/__init__.py]. *)
Lemma from_import_pricing_completed fuel m w :
  m !! src_pricing = None →
  Forall (λ x, m !! (src_pricing ++ [x]) = None) PricingInit.__all__ →
  exec_stmt (gcd_import (S (S fuel))) src (SImportFrom 1 [] ["pricing"])
    (State (<[src := src_ns_before_imports]> m) w)
  = Done tt (State (<[src := <["pricing" := VModule src_pricing]>
                               src_ns_before_imports]>
                      (pricing_completed m)) w).
Proof.
  intros Hpricing Hm.
  rewrite (from_import_loaded _ _ _ _ src_ns_before_imports
             (State (<[src := <["pricing" := VModule src_pricing]>
                                src_ns_before_imports]>
                       (pricing_completed m)) w)
             (<["pricing" := VModule src_pricing]> src_ns_before_imports)
             (VModule src_pricing));
    [|apply lookup_insert_eq|by vm_compute|by apply (bool_decide_unpack _)
     |done|by_compute|by vm_compute
     |apply gcd_import_hit; cbn [modules]; by rewrite lookup_insert_eq
     |apply import_pricing_completed; [by vm_compute|done|done]
     |apply lookup_insert_eq|apply lookup_insert_eq].
  unfold set_modules; cbn [modules world].
  by rewrite alter_insert_eq, insert_insert_eq.
Qed.

(** The body of [src/__init__.py] runs to its end. *)
Lemma src_init_completed fuel m w :
  m !! src_pricing = None →
  Forall (λ x, m !! (src_pricing ++ [x]) = None) PricingInit.__all__ →
  Forall (λ x, m !! (src ++ [x]) = None) src_quiet →
  exec_body (gcd_import (S (S fuel))) src src_init
    (State (<[src := init_module_attrs src_spec]> m) w)
  = Done tt (State (modules_completed m) w).
Proof.
  intros Hpricing Hm Hsrc. unfold src_init.
  do 4 exec_quiet_step. fold src_ns_before_imports.
  rewrite exec_body_cons,
    (bind_done _ _ _ tt _ (from_import_pricing_completed fuel m w Hpricing Hm)).
  change (SImportFrom 1 [] ["models"] :: ?rest)
    with (import_stmts src_quiet
            ++ [SAssign "__all__" (EList (EStr <$> SrcInit.__all__))]).
  rewrite (exec_import_stmts _ _ _ _ [VStr "src"]);
    [|by apply (bool_decide_unpack _)|done|by vm_compute|by vm_compute
     |by apply (bool_decide_unpack _)|Forall_each ltac:(by vm_compute)
     | |exact src_subs].
  - exec_quiet_step. done.
  - assert ("pricing" ∉ src_quiet) as Hnp by by_compute.
    rewrite Forall_forall in Hsrc. apply Forall_forall. intros x Hx.
    apply pricing_completed_fresh; [by apply Hsrc|by intros [= ->]|by intros ? _].
Qed.

End completed.

(** The state after [import src] in a completed tree. *)
Lemma import_src_completed_outcome `{!Finder, !Builtins} fuel st :
  find_spec src None = Some src_spec →
  find_spec src_pricing (Some [["src"]]) = Some pricing_spec →
  Forall (quiet_submodule src_pricing [["src"; "pricing"]]) PricingInit.__all__ →
  Forall (quiet_submodule src [["src"]]) src_quiet →
  not_imported st →
  gcd_import (S (S (S fuel))) src st
  = Done tt (set_modules modules_completed st).
Proof.
  destruct st as [m w]. intros Hsrc Hpricing Hps Hss Hst.
  rewrite gcd_import_miss, find_and_load_top by (first [done|by apply Hst]).
  rewrite (load_found_some _ _ _ _ _ Hsrc).
  rewrite (bind_done _ _ _ tt (State (modules_completed m) w)); [done|].
  apply (load_unlocked_done _ src_spec src_init); [done|].
  apply src_init_completed; [done..|by apply Hst; eexists| |];
    apply Forall_forall; intros x _; apply Hst; by eexists.
Qed.

(** C2. In a completed source tree, that is, with a finder that finds
    [src/__init__.py] and [src/pricing/__init__.py] with the bodies of the
    sources, and finds each of [european], [american], [exotic], [engine]
    and [greeks] below [src/pricing] and each of [models],
    [variance_reduction], [portfolio], [data] and [utils] below [src] as
    a module that loads quietly, [import src] succeeds from any state in
    which nothing of the package is imported, with any fuel from 3 on.
    The modules are entered in [sys.modules] innermost first, every
    submodule is bound in its package, [__version__] and [__all__] are
    set, and nothing else changes. *)
Theorem import_src_completed `{!Finder, !Builtins} (fuel : nat) (st : state) :
  find_spec src None = Some (package_spec src ["src"] src_init) →
  find_spec src_pricing (Some [["src"]])
    = Some (package_spec src_pricing ["src"; "pricing"] pricing_init) →
  Forall (quiet_submodule src_pricing [["src"; "pricing"]]) PricingInit.__all__ →
  Forall (quiet_submodule src [["src"]])
    ["models"; "variance_reduction"; "portfolio"; "data"; "utils"] →
  3 ≤ fuel →
  not_imported st →
  import_module fuel src st = Done tt (set_modules modules_completed st).
Proof.
  intros Hsrc Hpricing Hps Hss Hfuel Hst.
  destruct fuel as [|[|[|fuel]]]; [lia..|].
  by apply import_src_completed_outcome.
Qed.

Lemma import_src_completed_witness :
  @import_module (env_finder completed_env) no_builtins 3 src initial_state
  = Done tt (set_modules (@modules_completed (env_finder completed_env))
               initial_state).
Proof.
  apply (@import_src_completed (env_finder completed_env) no_builtins 3
           initial_state);
    [by vm_compute|by vm_compute
    |apply (bool_decide_unpack _); by vm_compute
    |apply (bool_decide_unpack _); by vm_compute
    |lia|by intros n _].
Defined.

Lemma star_import_src_witness :
  let st' := set_modules (@modules_completed (env_finder completed_env))
               initial_state in
  @import_star (env_finder completed_env) no_builtins 1 src st'
  = Done (src_star st') st'.
Proof.
  apply (@star_import_src (env_finder completed_env) no_builtins 3 1 ["src"]
           initial_state);
    [by vm_compute|done| |lia].
  apply (@import_src_completed_outcome (env_finder completed_env) no_builtins 0
           initial_state);
    [by vm_compute|by vm_compute
    |apply (bool_decide_unpack _); by vm_compute
    |apply (bool_decide_unpack _); by vm_compute
    |by intros n _].
Defined.
