(* ===== verification/Partial.v ===== *)
(** * A partly completed tree: what a failed import leaves behind

    When the modules below [src/pricing] exist and load, but
    [src/variance_reduction] does not, the body of [src/__init__.py] gets
    past [pricing] and [models] and raises at [variance_reduction].  The
    loader takes [src] out of [sys.modules] again, but not the modules the
    body had imported before: [src.pricing], its submodules and
    [src.models] stay, without a parent.  A second [import src] finds them
    there, binds them again, and raises the same exception. *)

From stdpp Require Import gmap strings list fin_maps.
From S2P Require Import Prelude PySyntax Interfaces Interp InterpFacts.
From S2P Require Import FileSystem Bodies Package Completed.

(** The exception of an import of [src] without [variance_reduction]. *)
Definition variance_reduction_error : exn :=
  ImportError_cannot_import "variance_reduction" src.

(** The repository with the five submodules of [pricing] as empty
    files. *)
Definition partial_files : gmap path (list stmt) :=
  package_files ∪
  list_to_map ((λ x, (["src"; "pricing"; x +:+ ".py"], [])) <$> PricingInit.__all__).

Definition partial_env : environment :=
  Environment (FileSystem partial_files ∅) ∅.

Section partial.
Context `{!Finder, !Builtins}.

(** [sys.modules] after the failed import: the modules of
    [pricing_completed] and [src.models]. *)
Definition orphans (m : gmap modname namespace) : gmap modname namespace :=
  <[src_models := submodule_ns src [["src"]] "models"]> (pricing_completed m).

(** The namespace of [src] when [from . import variance_reduction]
    starts. *)
Definition src_ns_before_variance_reduction : namespace :=
  bind_submodules src ["pricing"; "models"] src_ns_before_imports.

Hypothesis find_src : find_spec src None = Some src_spec.
Hypothesis find_pricing :
  find_spec src_pricing (Some [["src"]]) = Some pricing_spec.
Hypothesis pricing_subs :
  Forall (quiet_submodule src_pricing [["src"; "pricing"]]) PricingInit.__all__.
Hypothesis find_models : quiet_submodule src [["src"]] "models".
Hypothesis find_variance_reduction :
  find_spec (src ++ ["variance_reduction"]) (Some [["src"]]) = None.

(** The last statement the body reaches. *)
Lemma from_import_variance_reduction fuel m w :
  m !! (src ++ ["variance_reduction"]) = None →
  exec_stmt (gcd_import (S fuel)) src (SImportFrom 1 [] ["variance_reduction"])
    (State (<[src := src_ns_before_variance_reduction]> m) w)
  = Raise variance_reduction_error
      (State (<[src := src_ns_before_variance_reduction]> m) w).
Proof.
  intros Hm.
  apply (from_import_missing _ _ _ _ src_ns_before_variance_reduction [VStr "src"]);
    [apply lookup_insert_eq|by vm_compute|by_compute|done|by vm_compute
    |by vm_compute| |done].
  cbn [modules]. by rewrite lookup_insert_ne.
Qed.

(** [from . import models], after [pricing]. *)
Lemma from_import_models fuel m w :
  m !! src_models = None →
  exec_stmt (gcd_import (S fuel)) src (SImportFrom 1 [] ["models"])
    (State (<[src := <["pricing" := VModule src_pricing]> src_ns_before_imports]>
              m) w)
  = Done tt (State (<[src := src_ns_before_variance_reduction]>
                      (<[src_models := submodule_ns src [["src"]] "models"]> m)) w).
Proof.
  intros Hm. destruct (quiet_submodule_spec _ _ _ find_models) as (s & Hfind & Hns).
  exact (from_import_quiet fuel src "models"
           (<["pricing" := VModule src_pricing]> src_ns_before_imports)
           [VStr "src"] s _ m w ltac:(by vm_compute) ltac:(by_compute)
           ltac:(done) ltac:(by vm_compute) ltac:(by vm_compute) Hm Hfind Hns).
Qed.

(** The body of [src/__init__.py] on the first import. *)
Lemma src_init_partial fuel m w :
  m !! src_pricing = None →
  Forall (λ x, m !! (src_pricing ++ [x]) = None) PricingInit.__all__ →
  m !! src_models = None →
  m !! (src ++ ["variance_reduction"]) = None →
  exec_body (gcd_import (S (S fuel))) src src_init
    (State (<[src := init_module_attrs src_spec]> m) w)
  = Raise variance_reduction_error
      (State (<[src := src_ns_before_variance_reduction]> (orphans m)) w).
Proof.
  intros Hpricing Hm Hmodels Hvr. unfold src_init.
  do 4 exec_quiet_step. fold src_ns_before_imports.
  rewrite exec_body_cons,
    (bind_done _ _ _ tt _ (from_import_pricing_completed find_pricing pricing_subs
                             fuel m w Hpricing Hm)).
  rewrite exec_body_cons, (bind_done _ _ _ tt _ (from_import_models _ _ w
    (pricing_completed_fresh m src_models Hmodels ltac:(done) ltac:(by intros ? _)))).
  rewrite exec_body_cons. apply bind_raise, from_import_variance_reduction.
  unfold orphans. rewrite lookup_insert_ne by done.
  by apply pricing_completed_fresh; [|done|intros ? _].
Qed.

(** [orphans] holds [src.pricing] and [src.models], and nothing else
    that the body of [src] looks for. *)
Lemma orphans_fresh m n :
  m !! n = None → n ≠ src_pricing → n ≠ src_models →
  (∀ x, x ∈ PricingInit.__all__ → n ≠ src_pricing ++ [x]) →
  orphans m !! n = None.
Proof.
  intros Hn Hp Hm Hsub. unfold orphans.
  rewrite lookup_insert_ne by done. by apply pricing_completed_fresh.
Qed.

Lemma orphans_pricing m : is_Some (orphans m !! src_pricing).
Proof.
  unfold orphans, pricing_completed.
  by rewrite lookup_insert_ne, lookup_insert_eq by done.
Qed.

Lemma orphans_models m : is_Some (orphans m !! src_models).
Proof. unfold orphans. by rewrite lookup_insert_eq. Qed.

(** The body of [src/__init__.py] on a second import: [pricing] and
    [models] are found in [sys.modules] and bound again. *)
Lemma src_init_retry fuel m w :
  m !! (src ++ ["variance_reduction"]) = None →
  exec_body (gcd_import (S fuel)) src src_init
    (State (<[src := init_module_attrs src_spec]> (orphans m)) w)
  = Raise variance_reduction_error
      (State (<[src := src_ns_before_variance_reduction]> (orphans m)) w).
Proof.
  intros Hvr. unfold src_init.
  do 4 exec_quiet_step. fold src_ns_before_imports.
  rewrite exec_body_cons, (bind_done _ _ _ tt _
    (from_import_present fuel src "pricing" src_ns_before_imports (orphans m) w
       ltac:(by vm_compute) ltac:(by_compute) ltac:(done) ltac:(by_compute)
       ltac:(by vm_compute) (orphans_pricing m))).
  rewrite exec_body_cons, (bind_done _ _ _ tt _
    (from_import_present fuel src "models"
       (<["pricing" := VModule (src ++ ["pricing"])]> src_ns_before_imports)
       (orphans m) w
       ltac:(by vm_compute) ltac:(by_compute) ltac:(done) ltac:(by_compute)
       ltac:(by vm_compute) (orphans_models m))).
  rewrite exec_body_cons. apply bind_raise, from_import_variance_reduction.
  by apply orphans_fresh; [|done|done|intros ? _].
Qed.

End partial.

(** C11. With a finder that finds the three files of the repository and
    the five submodules of [pricing] (each loading quietly) but no
    [variance_reduction] below [src], [import src] from a state in which
    nothing of the package is imported raises [ImportError: cannot import
    name 'variance_reduction' from 'src'], with any fuel from 3 on.  [src]
    is taken out of [sys.modules] again, but [src.pricing], its five
    submodules and [src.models] stay behind: the state after the failed
    import is [orphans] of the state before. *)
Theorem import_src_partial `{!Finder, !Builtins} (fuel : nat) (st : state) :
  find_spec src None = Some (package_spec src ["src"] src_init) →
  find_spec src_pricing (Some [["src"]])
    = Some (package_spec src_pricing ["src"; "pricing"] pricing_init) →
  Forall (quiet_submodule src_pricing [["src"; "pricing"]]) PricingInit.__all__ →
  quiet_submodule src [["src"]] "models" →
  find_spec (src ++ ["variance_reduction"]) (Some [["src"]]) = None →
  3 ≤ fuel →
  not_imported st →
  import_module fuel src st
  = Raise variance_reduction_error (set_modules orphans st).
Proof.
  destruct st as [m w]. intros Hsrc Hpricing Hsubs Hmodels Hvr Hfuel Hst.
  destruct fuel as [|[|[|fuel]]]; [lia..|].
  assert (∀ rest, m !! (src ++ rest) = None) as Hm
    by (intros rest; apply Hst; by eexists).
  apply (gcd_import_top_raises _ src src_spec src_init _ _
           src_ns_before_variance_reduction);
    [done|apply (Hm [])|done|done| |].
  - apply src_init_partial; [done..|apply (Hm ["pricing"])| |apply (Hm ["models"])
                            |apply (Hm ["variance_reduction"])].
    apply Forall_forall. intros x _. apply (Hm ["pricing"; x]).
  - by apply orphans_fresh; [apply (Hm [])|..|intros ? _].
Qed.

Lemma import_src_partial_witness :
  @import_module (env_finder partial_env) no_builtins 3 src initial_state
  = Raise variance_reduction_error
      (set_modules (@orphans (env_finder partial_env)) initial_state).
Proof.
  apply (@import_src_partial (env_finder partial_env) no_builtins 3 initial_state);
    [by vm_compute|by vm_compute|by_compute|by_compute|by vm_compute|lia
    |by intros n _].
Defined.

(** C12. In the state such a failed import leaves, a second [import src]
    raises the same [ImportError] and changes nothing, with any fuel from
    2 on: the body finds [src.pricing] and [src.models] in [sys.modules],
    binds them without loading anything, and fails at
    [variance_reduction] again. *)
Theorem import_src_retry `{!Finder, !Builtins} (fuel : nat) (st : state) :
  find_spec src None = Some (package_spec src ["src"] src_init) →
  find_spec (src ++ ["variance_reduction"]) (Some [["src"]]) = None →
  2 ≤ fuel →
  not_imported st →
  import_module fuel src (set_modules orphans st)
  = Raise variance_reduction_error (set_modules orphans st).
Proof.
  destruct st as [m w]. intros Hsrc Hvr Hfuel Hst.
  destruct fuel as [|[|fuel]]; [lia..|].
  assert (∀ rest, m !! (src ++ rest) = None) as Hm
    by (intros rest; apply Hst; by eexists).
  assert (orphans m !! src = None) as Horphans
    by (by apply orphans_fresh; [apply (Hm [])|..|intros ? _]).
  unfold set_modules; cbn [modules world].
  apply (gcd_import_top_raises _ src src_spec src_init _ _
           src_ns_before_variance_reduction);
    [done..| |done].
  by apply src_init_retry, (Hm ["variance_reduction"]).
Qed.

Lemma import_src_retry_witness :
  let st := set_modules (@orphans (env_finder partial_env)) initial_state in
  @import_module (env_finder partial_env) no_builtins 2 src st
  = Raise variance_reduction_error st.
Proof.
  apply (@import_src_retry (env_finder partial_env) no_builtins 2 initial_state);
    [by vm_compute|by vm_compute|lia|by intros n _].
Defined.
