(* ===== verification/Missing.v ===== *)
(** * Every module the package imports is needed

    [src/__init__.py] imports six subpackages and
    [src/pricing/__init__.py] five submodules.  When the finder finds
    none for one of these eleven names, the import of [src] does not
    succeed, whatever the finder answers for every other name and
    whatever the modules it finds contain: the import raises or, when the
    other modules nest deeper than the fuel, runs out of fuel, and [src]
    is not in [sys.modules] afterwards.

    [Package] and [Partial] run the interpreter on given trees and name
    the exception and the final state; here nothing is known of the
    tree but the one missing module, and the proof is by the invariant
    of [Sealed].

    The other modules are source files of the fragment of [PySyntax]
    (docstrings, assignments to names, calls, imports, [with] blocks),
    namespace packages or installed libraries given by their namespace.
    Python code outside the fragment could assign to an attribute of
    another module or to [sys.modules] itself, and so stand in for the
    missing module; none of the sources does. *)

From stdpp Require Import gmap strings list fin_maps.
From S2P Require Import Prelude PySyntax Interfaces Interp InterpFacts FileSystem.
From S2P Require Import Bodies Invariants Sealed Package Completed.

(** An import that has not succeeded: it raised and left [name] out of
    [sys.modules], or it ran out of fuel. *)
Definition failed (name : modname) (o : outcome exn state unit) : Prop :=
  match o with
  | Done _ _ => False
  | Raise _ st' => modules st' !! name = None
  | OutOfFuel => True
  end.

(** The completed source tree without one of its files. *)
Definition completed_without (file : path) : environment :=
  Environment (FileSystem (delete file completed_files) ∅) ∅.

(** The names a loader sets. *)
Definition loader_attrs : list string :=
  ["__name__"; "__doc__"; "__package__"; "__path__"; "__file__"].

(** Each body stops at each of its imports: no earlier statement binds
    the name, and the loader does not set it. *)
Lemma src_init_stops :
  Forall (λ x, stops_at x src_init = true ∧ x ∉ loader_attrs) SrcInit.__all__.
Proof. by_compute. Qed.

Lemma pricing_init_stops :
  Forall (λ x, stops_at x pricing_init = true ∧ x ∉ loader_attrs)
    PricingInit.__all__.
Proof. by_compute. Qed.

(** ** Below [pricing] *)

Section below_pricing.
Context `{!Finder, !Builtins}.
Variable y : string.
Hypothesis find_pricing :
  find_spec src_pricing (Some [["src"]]) = Some pricing_spec.
Hypothesis y_imported : y ∈ PricingInit.__all__.
Hypothesis unfindable : ∀ search, find_spec (src_pricing ++ [y]) search = None.

(** The state in which [src] imports [pricing]. *)
Let importing (m : gmap modname namespace) (w : effects) : state :=
  State (<[src := src_ns_before_imports]> m) w.

(** What the import of [pricing] leaves when it raises: [pricing] is
    neither an attribute of [src] nor in [sys.modules]. *)
Let unloaded (o : outcome exn state unit) : Prop :=
  match o with
  | Done _ _ => False
  | Raise _ st' => unbound src "pricing" st' ∧ modules st' !! src_pricing = None
  | OutOfFuel => True
  end.

Lemma load_pricing_fails fuel m w :
  m !! src_pricing = None →
  m !! (src_pricing ++ [y]) = None →
  unloaded (load_unlocked (gcd_import fuel) pricing_spec (importing m w)).
Proof.
  intros Hpricing Hy.
  destruct (proj1 (Forall_forall _ _) pricing_init_stops y y_imported)
    as [Hstop Hattr].
  assert (valid_modname src_pricing) as Hok by by_compute.
  rewrite (load_unlocked_source _ _ pricing_init) by done.
  change (spec_name pricing_spec) with src_pricing.
  set (st := set_modules _ (importing m w)).
  assert (sealed src_pricing y Unfindable st) as Hsub.
  { unfold st.
    split; [|cbn [modules set_modules importing]; by rewrite !lookup_insert_ne].
    exists (init_module_attrs pricing_spec). cbn [modules set_modules importing].
    rewrite lookup_insert_eq. split_and!; [done|by apply init_attrs_fresh|].
    unfold package_attr. by rewrite (init_attrs_package _ [["src"; "pricing"]]). }
  assert (sealed src "pricing" Loading st) as Hsrc.
  { unfold st.
    split; [|cbn [modules set_modules importing]; by rewrite lookup_insert_eq].
    exists src_ns_before_imports. cbn [modules set_modules importing].
    rewrite lookup_insert_ne, lookup_insert_eq by done.
    split_and!; [done|by vm_compute|by vm_compute]. }
  pose proof (triple_and _ _ _ _ _ _ _
    (exec_body_fails src_pricing y Hok (λ H, nil_cons (eq_sym H))
       (gcd_import fuel) (gcd_import_sealed _ _ Unfindable unfindable fuel)
       pricing_init Hstop)
    (exec_body_sealed src "pricing" Loading (gcd_import fuel) src_pricing
       pricing_init (gcd_import_sealed _ _ Loading I fuel)
       (λ H, nil_cons (eq_sym (f_equal tail H))))
    st (conj Hsub Hsrc)) as Hbody.
  destruct (exec_body _ _ _ st) as [|e st'|]; [by destruct Hbody| |done].
  destruct Hbody as [_ [Hu _]]. split; [by apply unbound_delete|].
  apply lookup_delete_eq.
Qed.

Lemma import_pricing_fails fuel m w :
  m !! src_pricing = None →
  m !! (src_pricing ++ [y]) = None →
  unloaded (gcd_import fuel src_pricing (importing m w)).
Proof.
  intros Hpricing Hy. destruct fuel as [|fuel]; [done|].
  rewrite gcd_import_miss
    by (cbn [modules importing]; by rewrite lookup_insert_ne).
  rewrite (find_and_load_sub _ _ _ src_ns_before_imports [VStr "src"]);
    [|done|apply lookup_insert_eq
     |cbn [modules importing]; by rewrite lookup_insert_ne|by vm_compute].
  rewrite (load_found_some _ _ _ pricing_spec) by exact find_pricing.
  pose proof (load_pricing_fails fuel m w Hpricing Hy) as Hload.
  unfold bind. by destruct (load_unlocked _ _ _).
Qed.

(** The body of [src/__init__.py] does not get past its first import. *)
Lemma src_init_fails fuel m w :
  m !! src_pricing = None →
  m !! (src_pricing ++ [y]) = None →
  unfinished (exec_body (gcd_import fuel) src src_init
                (State (<[src := init_module_attrs src_spec]> m) w)).
Proof.
  intros Hpricing Hy. unfold src_init.
  do 4 exec_quiet_step. fold src_ns_before_imports.
  rewrite exec_body_cons. apply bind_unfinished.
  destruct fuel as [|fuel].
  { by rewrite (exec_import_out_of_fuel _ _ _ _ src_ns_before_imports);
      [|apply lookup_insert_eq|by vm_compute|by_compute|..]. }
  rewrite (exec_import_relative _ _ _ _ src_ns_before_imports);
    [|apply lookup_insert_eq|by vm_compute|by_compute
     |done|by_compute|by vm_compute
     |apply gcd_import_hit; cbn [modules]; by rewrite lookup_insert_eq].
  pose proof (import_pricing_fails (S fuel) m w Hpricing Hy) as Himport.
  unfold importing in Himport.
  change (src ++ ["pricing"]) with src_pricing.
  destruct (gcd_import (S fuel) src_pricing _) as [|e st'|]; [done| |done].
  destruct Himport as [(ns & Hsrc & Hx & _) Hsub].
  case_decide; [|done].
  by rewrite (bind_raise _ _ _ (ImportError_cannot_import "pricing" src) st')
    by (by apply (import_from_missing _ _ _ ns)).
Qed.

(** The import of [src] fails with it. *)
Lemma import_src_fails fuel st :
  find_spec src None = Some src_spec →
  modules st !! src = None →
  modules st !! src_pricing = None →
  modules st !! (src_pricing ++ [y]) = None →
  failed src (gcd_import fuel src st).
Proof.
  destruct st as [m w]. cbn [modules]. intros Hfind Hsrc Hpricing Hy.
  destruct fuel as [|fuel]; [done|].
  rewrite gcd_import_miss, find_and_load_top by done.
  rewrite (load_found_some _ _ _ src_spec) by done.
  unfold bind. rewrite (load_unlocked_source _ _ src_init) by done.
  pose proof (src_init_fails fuel m w Hpricing Hy) as Hbody.
  change (set_modules _ (State m w))
    with (State (<[src := init_module_attrs src_spec]> m) w).
  destruct (exec_body _ _ _ _) as [|e st'|]; [done| |done].
  apply lookup_delete_eq.
Qed.

End below_pricing.

(** C13. Whatever else the environment holds: when the finder finds
    [src/__init__.py] with the body of the source as a top-level package
    and finds nothing for [src.x], where [x] is one of the six names the
    body imports, no import of [src] succeeds, from any state in which
    [src] and [src.x] are not imported.  With every amount of fuel the
    outcome is an exception that leaves [src] out of [sys.modules], or
    the fuel is used up by the modules imported before [x]; it is never
    a normal end.  The other five subpackages may exist or not and run
    any code of the fragment: none of it can make [x] an attribute of
    [src], so the body reaches [from . import x] with nothing to bind. *)
Theorem import_src_needs `{!Finder, !Builtins} (fuel : nat) (dir : path)
    (x : string) (st : state) :
  find_spec src None = Some (package_spec src dir src_init) →
  x ∈ SrcInit.__all__ →
  (∀ search, find_spec (src ++ [x]) search = None) →
  modules st !! src = None →
  modules st !! (src ++ [x]) = None →
  failed src (import_module fuel src st).
Proof.
  intros Hfind Hx Hsub Hsrc Hx'.
  destruct (proj1 (Forall_forall _ _) src_init_stops x Hx) as [Hstop Hattr].
  assert (valid_modname src) as Hok by by_compute.
  pose proof (gcd_import_fails src x (package_spec src dir src_init) src_init
                [dir] fuel Hok eq_refl ltac:(done) Hsub Hfind eq_refl eq_refl
                (init_attrs_fresh _ x Hattr) Hstop st (conj Hsrc Hx')) as Himport.
  unfold import_module, failed.
  destruct (gcd_import fuel src st) as [| |]; [done|by destruct Himport|done].
Qed.

(** The completed tree without [src/utils/__init__.py]. *)
Lemma import_src_needs_witness :
  failed src
    (@import_module (env_finder (completed_without ["src"; "utils"; "__init__.py"]))
       no_builtins 3 src initial_state).
Proof.
  apply (@import_src_needs _ no_builtins 3 ["src"] "utils" initial_state);
    [by vm_compute|by_compute| |done|done].
  intros search. apply env_find_spec_nothing; [by_compute|done].
Defined.

(** C14. Likewise below [pricing]: when the finder finds
    [src/__init__.py] and [src/pricing/__init__.py] with the bodies of
    the sources and finds nothing for [src.pricing.y], where [y] is one
    of the five names [pricing] imports, no import of [src] succeeds,
    whatever the other four submodules and the other subpackages hold:
    the import of [src.pricing] raises and leaves [pricing] neither in
    [sys.modules] nor an attribute of [src], and with it the import of
    [src]. *)
Theorem import_src_needs_pricing `{!Finder, !Builtins} (fuel : nat)
    (y : string) (st : state) :
  find_spec src None = Some (package_spec src ["src"] src_init) →
  find_spec src_pricing (Some [["src"]])
    = Some (package_spec src_pricing ["src"; "pricing"] pricing_init) →
  y ∈ PricingInit.__all__ →
  (∀ search, find_spec (src_pricing ++ [y]) search = None) →
  modules st !! src = None →
  modules st !! src_pricing = None →
  modules st !! (src_pricing ++ [y]) = None →
  failed src (import_module fuel src st).
Proof.
  intros Hsrc Hpricing Hy Hsub Hm1 Hm2 Hm3.
  by apply (import_src_fails y).
Qed.

(** The completed tree without [src/pricing/greeks.py]. *)
Lemma import_src_needs_pricing_witness :
  failed src
    (@import_module (env_finder (completed_without ["src"; "pricing"; "greeks.py"]))
       no_builtins 4 src initial_state).
Proof.
  apply (@import_src_needs_pricing _ no_builtins 4 "greeks" initial_state);
    [by vm_compute|by vm_compute|by_compute| |done|done|done].
  intros search. apply env_find_spec_nothing; [by_compute|done].
Defined.
