(* ===== verification/Setup.v ===== *)
(** * [setup.py]

    The script, statement by statement, with the values it passes to
    [setuptools.setup] as definitions of module [SetupPy]; the built-in
    functions and objects the script uses ([open], the file object and
    its [read], [setuptools.find_packages], [setuptools.setup]) as a
    [Builtins] instance over a file system; and what running the script
    does: which calls reach the outside world, in which order and with
    which arguments, and which exception ends the run when [README.md] or
    [setuptools] is missing.

    What [setuptools.setup] does with its arguments (building, installing,
    uploading, as the command line says) is outside the model: the call
    is recorded with its arguments in [calls]. *)

From stdpp Require Import gmap strings list fin_maps.
From S2P Require Import Prelude PySyntax Interfaces Interp InterpFacts.
From S2P Require Import FileSystem Bodies Scripts Package.

(** ** The values of the script *)

Module SetupPy.

Definition readme : string := "README.md".

Definition name : string := "monte-carlo-option-pricing-lab".
Definition version : string := "0.1.0".
Definition author : string := "Lorenzo Martínez Malvar".
Definition author_email : string := "lorenlorenloren@gmail.com".
Definition description : string :=
  "Professional quantitative finance lab for option pricing using Monte Carlo simulations".
Definition long_description_content_type : string := "text/markdown".
Definition url : string :=
  "https://github.com/lorenlorenloren/monte-carlo-option-pricing-lab".

(** [find_packages(where="src")] and [package_dir={"": "src"}]. *)
Definition where_ : string := "src".
Definition package_dir : list (string * string) := [("", "src")].

Definition classifiers : list string :=
  [ "Programming Language :: Python :: 3";
    "Programming Language :: Python :: 3.8";
    "Programming Language :: Python :: 3.9";
    "Programming Language :: Python :: 3.10";
    "Programming Language :: Python :: 3.11";
    "License :: OSI Approved :: MIT License";
    "Operating System :: OS Independent";
    "Development Status :: 3 - Alpha";
    "Intended Audience :: Financial and Insurance Industry";
    "Intended Audience :: Education";
    "Topic :: Office/Business :: Financial :: Investment" ].

Definition python_requires : string := ">=3.8".

Definition install_requires : list string :=
  [ "numpy>=1.21.0";
    "scipy>=1.7.0";
    "pandas>=1.3.0";
    "yfinance>=0.1.70";
    "matplotlib>=3.4.0" ].

Definition extras_require : list (string * list string) :=
  [ ("dev", ["pytest"; "pytest-cov"; "jupyter"]);
    ("gpu", ["jax>=0.2.0"]) ].

Definition include_package_data : bool := true.
Definition zip_safe : bool := false.

End SetupPy.

(** ** The script *)

Definition strs (l : list string) : expr := EList (EStr <$> l).

(** The keyword arguments of the call of [setup], in the order of the
    source. *)
Definition setup_kwargs : list (string * expr) :=
  [ ("name", EStr SetupPy.name);
    ("version", EStr SetupPy.version);
    ("author", EStr SetupPy.author);
    ("author_email", EStr SetupPy.author_email);
    ("description", EStr SetupPy.description);
    ("long_description", EName "long_description");
    ("long_description_content_type", EStr SetupPy.long_description_content_type);
    ("url", EStr SetupPy.url);
    ("packages", ECall (EName "find_packages") [] [("where", EStr SetupPy.where_)]);
    ("package_dir", EDict (prod_map id EStr <$> SetupPy.package_dir));
    ("classifiers", strs SetupPy.classifiers);
    ("python_requires", EStr SetupPy.python_requires);
    ("install_requires", strs SetupPy.install_requires);
    ("extras_require", EDict (prod_map id strs <$> SetupPy.extras_require));
    ("include_package_data", EBool SetupPy.include_package_data);
    ("zip_safe", EBool SetupPy.zip_safe) ].

Definition setup_py : list stmt :=
  [ SImportFrom 0 ["setuptools"] ["setup"; "find_packages"];
    SWith (ECall (EName "open") [EStr SetupPy.readme; EStr "r"]
             [("encoding", EStr "utf-8")]) "fh"
      [ SAssign "long_description" (ECall (EAttr (EName "fh") "read") [] []) ];
    SExpr (ECall (EName "setup") [] setup_kwargs) ].

(** ** Built-in functions and objects *)

(** What [setuptools] exports to the script. *)
Definition setuptools : modname := ["setuptools"].

Definition setuptools_ns : namespace :=
  {[ "setup" := VBuiltin "setup";
     "find_packages" := VBuiltin "find_packages" ]}.

(** [open(p, "r", encoding=...)]: the file must exist; it is open from
    then on.  The contents of a text file are a string already, so the
    [encoding] argument is recorded with the call and not used; a call
    that raises is not recorded. *)
Definition builtin_open (fs : file_system) (args : list value)
  (kwargs : list (string * value)) : M exn effects value :=
  match args with
  | [VStr p; VStr "r"] =>
      match text_files fs !! normpath p with
      | Some _ =>
          run modify (set_open_files ({[p]} ∪.));
          run modify (log_call (Call "open" args kwargs));
          ret (VFile p)
      | None => raise (FileNotFoundError p)
      end
  | _ => raise (TypeError "open")
  end.

(** [f.read()]: the contents, when [f] is open. *)
Definition file_read (fs : file_system) (p : string) : M exn effects value :=
  do w <- get;
  if decide (p ∈ open_files w) then
    run modify (log_call (Call "read" [VFile p] []));
    ret (VStr (default "" (text_files fs !! normpath p)))
  else raise (ValueError "I/O operation on closed file.").

(** [find_packages(where=w)], as a list of dotted names. *)
Definition builtin_find_packages (fs : file_system)
  (kwargs : list (string * value)) : M exn effects value :=
  match kwargs with
  | [("where", VStr w)] =>
      run modify (log_call (Call "find_packages" [] kwargs));
      ret (VList ((λ n, VStr (dotted n)) <$> find_packages fs (normpath w)))
  | _ => raise (TypeError "find_packages")
  end.

(** [setup] with keyword arguments: the call is recorded. *)
Definition builtin_setup (kwargs : list (string * value)) : M exn effects value :=
  run modify (log_call (Call "setup" [] kwargs));
  ret VNone.

Definition script_call (fs : file_system) (f : value) (args : list value)
  (kwargs : list (string * value)) : M exn effects value :=
  match f with
  | VBuiltin "open" => builtin_open fs args kwargs
  | VBuiltin "find_packages" =>
      match args with
      | [] => builtin_find_packages fs kwargs
      | _ => raise (TypeError "find_packages")
      end
  | VBuiltin "setup" =>
      match args with
      | [] => builtin_setup kwargs
      | _ => raise (TypeError "setup")
      end
  | VMethod (VFile p) "read" =>
      match args, kwargs with
      | [], [] => file_read fs p
      | _, _ => raise (TypeError "read")
      end
  | _ => raise (TypeError "object is not callable")
  end.

(** A file object is its own context manager; leaving the block closes
    it. *)
Definition file_enter (v : value) : M exn effects value :=
  match v with
  | VFile p =>
      do w <- get;
      if decide (p ∈ open_files w) then ret v
      else raise (ValueError "I/O operation on closed file.")
  | _ => raise (AttributeError "__enter__")
  end.

Definition file_exit (v : value) : M exn effects unit :=
  match v with
  | VFile p => modify (set_open_files (.∖ {[p]}))
  | _ => raise (AttributeError "__exit__")
  end.

Definition script_builtins (fs : file_system) : Builtins :=
  {| builtin_name := λ x, if decide (x = "open") then Some (VBuiltin "open")
                          else None;
     builtin_getattr := λ v a,
       match v with
       | VFile _ => if decide (a = "read") then Some (VMethod v "read") else None
       | _ => None
       end;
     call_builtin := script_call fs;
     with_enter := file_enter;
     with_exit := file_exit |}.

(** ** What the script passes to [setup] *)

(** The keyword arguments [setup] receives when [README.md] holds
    [readme] and [find_packages] returns [packages]. *)
Definition setup_args (readme : string) (packages : list modname)
  : list (string * value) :=
  [ ("name", VStr SetupPy.name);
    ("version", VStr SetupPy.version);
    ("author", VStr SetupPy.author);
    ("author_email", VStr SetupPy.author_email);
    ("description", VStr SetupPy.description);
    ("long_description", VStr readme);
    ("long_description_content_type", VStr SetupPy.long_description_content_type);
    ("url", VStr SetupPy.url);
    ("packages", VList ((λ n, VStr (dotted n)) <$> packages));
    ("package_dir", VDict (prod_map id VStr <$> SetupPy.package_dir));
    ("classifiers", VList (VStr <$> SetupPy.classifiers));
    ("python_requires", VStr SetupPy.python_requires);
    ("install_requires", VList (VStr <$> SetupPy.install_requires));
    ("extras_require",
       VDict (prod_map id (λ l, VList (VStr <$> l)) <$> SetupPy.extras_require));
    ("include_package_data", VBool SetupPy.include_package_data);
    ("zip_safe", VBool SetupPy.zip_safe) ].

(** The calls of a run that reaches its end, in order. *)
Definition setup_calls (readme : string) (packages : list modname) : list call :=
  [ Call "open" [VStr SetupPy.readme; VStr "r"] [("encoding", VStr "utf-8")];
    Call "read" [VFile SetupPy.readme] [];
    Call "find_packages" [] [("where", VStr SetupPy.where_)];
    Call "setup" [] (setup_args readme packages) ].

(** The project directory as the sources give it, and with a
    [README.md]. *)
Definition repo_fs : file_system :=
  FileSystem (<[["setup.py"] := setup_py]> package_files) ∅.

Definition repo_fs_with (readme : string) : file_system :=
  FileSystem (<[["setup.py"] := setup_py]> package_files)
    {[ ["README.md"] := readme ]}.

(** An installation with [setuptools]. *)
Definition site_env (fs : file_system) : environment :=
  Environment fs {[ setuptools := setuptools_ns ]}.

(** ** The namespaces of a run *)

(** [setuptools] once imported, and [__main__] after the import
    statement and after the [with] block. *)
Definition setuptools_loaded : namespace :=
  setuptools_ns ∪ init_module_attrs (external_spec setuptools setuptools_ns).

Definition main_after_import : namespace :=
  bind_attrs setuptools_loaded ["setup"; "find_packages"]
    (main_attrs ["setup.py"]).

Definition main_after_with (readme : string) : namespace :=
  <["long_description" := VStr readme]>
    (<["fh" := VFile SetupPy.readme]> main_after_import).

(** The keyword arguments before and after [packages]. *)
Definition kwargs_before : list (string * expr) := take 8 setup_kwargs.
Definition kwargs_after : list (string * expr) := drop 9 setup_kwargs.

(** * Built-in calls *)

Section builtins.
Context (fs : file_system).

Lemma builtin_open_found p c kwargs w :
  text_files fs !! normpath p = Some c →
  builtin_open fs [VStr p; VStr "r"] kwargs w
  = Done (VFile p)
      (Effects ({[p]} ∪ open_files w)
         (calls w ++ [Call "open" [VStr p; VStr "r"] kwargs])).
Proof. intros Hp. unfold builtin_open. by rewrite Hp. Qed.

Lemma builtin_open_missing p kwargs w :
  text_files fs !! normpath p = None →
  builtin_open fs [VStr p; VStr "r"] kwargs w = Raise (FileNotFoundError p) w.
Proof. intros Hp. unfold builtin_open. by rewrite Hp. Qed.

Lemma file_read_open p c w :
  text_files fs !! normpath p = Some c →
  p ∈ open_files w →
  file_read fs p w
  = Done (VStr c) (Effects (open_files w) (calls w ++ [Call "read" [VFile p] []])).
Proof.
  intros Hp Hopen. unfold file_read, bind, get.
  rewrite decide_True by done. by rewrite Hp.
Qed.

Lemma file_enter_open p w :
  p ∈ open_files w → file_enter (VFile p) w = Done (VFile p) w.
Proof. intros Hopen. unfold file_enter, bind, get. by rewrite decide_True. Qed.

Lemma builtin_find_packages_where w_ w :
  builtin_find_packages fs [("where", VStr w_)] w
  = Done (VList ((λ n, VStr (dotted n)) <$> find_packages fs (normpath w_)))
      (Effects (open_files w)
         (calls w ++ [Call "find_packages" [] [("where", VStr w_)]])).
Proof. done. Qed.

End builtins.

(** * Running the script *)

Section running.
Context (fs : file_system) `{!Finder}.
Let builtins : Builtins := script_builtins fs.
#[local] Existing Instance builtins.

Implicit Types (m : gmap modname namespace) (w : effects).

(** [from setuptools import setup, find_packages]. *)
Lemma import_setuptools fuel m w :
  find_spec setuptools None = Some (external_spec setuptools setuptools_ns) →
  m !! setuptools = None →
  exec_stmt (gcd_import (S fuel)) main
    (SImportFrom 0 setuptools ["setup"; "find_packages"])
    (State (<[main := main_attrs ["setup.py"]]> m) w)
  = Done tt (State (<[main := main_after_import]>
                      (<[setuptools := setuptools_loaded]> m)) w).
Proof.
  intros Hfind Hm.
  unfold main_after_import.
  apply (exec_import_attrs (gcd_import (S fuel)) main setuptools
           ["setup"; "find_packages"] setuptools_loaded (main_attrs ["setup.py"])
           m w); [done|done| |by vm_compute|].
  - rewrite (insert_insert_ne _ main setuptools) by done.
    apply (gcd_import_quiet_top _ setuptools
             (external_spec setuptools setuptools_ns)); [done| |done..].
    by rewrite lookup_insert_ne.
  - by_compute.
Qed.

(** The [with] block when [README.md] exists: the file is opened, read
    and closed, and its contents are bound to [long_description]. *)
Lemma with_readme r m w c :
  text_files fs !! [SetupPy.readme] = Some c →
  SetupPy.readme ∉ open_files w →
  exec_stmt r main
    (SWith (ECall (EName "open") [EStr SetupPy.readme; EStr "r"]
              [("encoding", EStr "utf-8")]) "fh"
       [SAssign "long_description" (ECall (EAttr (EName "fh") "read") [] [])])
    (State (<[main := main_after_import]> m) w)
  = Done tt (State (<[main := main_after_with c]> m)
               (Effects (open_files w)
                  (calls w ++ take 2 (setup_calls c [])))).
Proof.
  intros Hreadme Hclosed.
  pose (w1 := Effects ({[SetupPy.readme]} ∪ open_files w)
                (calls w ++ [Call "open" [VStr SetupPy.readme; VStr "r"]
                                         [("encoding", VStr "utf-8")]])).
  rewrite (exec_with _ _ _ _ _ _ _ _ (VFile SetupPy.readme) w1
             (VFile SetupPy.readme) w1).
  - eapply finally_done.
    + rewrite exec_body_cons. erewrite bind_done; [apply exec_body_nil|].
      apply exec_assign.
      erewrite (eval_call_pure _ _ _ _ _ (VMethod (VFile SetupPy.readme) "read")
                  [] []) by (vm_compute; reflexivity).
      apply (file_read_open fs SetupPy.readme c w1 Hreadme). set_solver.
    + apply in_world_done. unfold with_exit, builtins, script_builtins, file_exit.
      unfold modify, set_open_files. cbn [open_files calls w1].
      f_equal. f_equal; [|by rewrite <- app_assoc].
      apply leibniz_equiv. set_solver.
  - erewrite (eval_call_pure _ _ _ _ _ (VBuiltin "open")
                [VStr SetupPy.readme; VStr "r"] [("encoding", VStr "utf-8")])
      by (vm_compute; reflexivity).
    by apply (builtin_open_found fs SetupPy.readme c).
  - apply file_enter_open. set_solver.
Qed.

(** The [with] block when [README.md] does not exist: [open] raises,
    and nothing has changed. *)
Lemma with_readme_missing r m w x body :
  text_files fs !! [SetupPy.readme] = None →
  exec_stmt r main
    (SWith (ECall (EName "open") [EStr SetupPy.readme; EStr "r"]
              [("encoding", EStr "utf-8")]) x body)
    (State (<[main := main_after_import]> m) w)
  = Raise (FileNotFoundError SetupPy.readme)
      (State (<[main := main_after_import]> m) w).
Proof.
  intros Hreadme. apply bind_raise, eval_in_raises.
  erewrite (eval_call_pure _ _ _ _ _ (VBuiltin "open")
              [VStr SetupPy.readme; VStr "r"] [("encoding", VStr "utf-8")])
    by (vm_compute; reflexivity).
  by apply (builtin_open_missing fs SetupPy.readme).
Qed.

(** The keyword arguments of [setup]: [find_packages] is called when
    its turn comes. *)
Lemma eval_packages mods g w :
  lookup_name g "find_packages" = Some (VBuiltin "find_packages") →
  eval mods g (ECall (EName "find_packages") [] [("where", EStr SetupPy.where_)]) w
  = Done (VList ((λ n, VStr (dotted n))
                   <$> find_packages fs (normpath SetupPy.where_)))
      (Effects (open_files w)
         (calls w ++ [Call "find_packages" [] [("where", VStr SetupPy.where_)]])).
Proof.
  intros Hg.
  by rewrite (eval_call_pure mods g (EName "find_packages") []
                [("where", EStr SetupPy.where_)] (VBuiltin "find_packages") []
                [("where", VStr SetupPy.where_)] w Hg eq_refl eq_refl).
Qed.

Lemma eval_setup_kwargs mods c w :
  mapM (λ ke, match ke with
              | (k, e') => do v <- eval mods (main_after_with c) e'; ret (k, v)
              end) setup_kwargs w
  = Done (setup_args c (find_packages fs (normpath SetupPy.where_)))
      (Effects (open_files w)
         (calls w ++ [Call "find_packages" [] [("where", VStr SetupPy.where_)]])).
Proof.
  change setup_kwargs
    with (kwargs_before
          ++ ("packages", ECall (EName "find_packages") []
                            [("where", EStr SetupPy.where_)])
          :: kwargs_after).
  rewrite mapM_app.
  rewrite (bind_done _ _ _ (take 8 (setup_args c [])) w)
    by (apply eval_pure_items; vm_compute; reflexivity).
  erewrite bind_done; [reflexivity|]. rewrite mapM_cons.
  erewrite bind_done;
    [|erewrite bind_done; [reflexivity|apply eval_packages; by vm_compute]].
  erewrite bind_done; [reflexivity|].
  apply eval_pure_items. vm_compute. reflexivity.
Qed.

(** The call of [setup]. *)
Lemma call_setup r m w c :
  exec_stmt r main (SExpr (ECall (EName "setup") [] setup_kwargs))
    (State (<[main := main_after_with c]> m) w)
  = Done tt (State (<[main := main_after_with c]> m)
               (Effects (open_files w)
                  (calls w ++ drop 2 (setup_calls c
                     (find_packages fs (normpath SetupPy.where_)))))).
Proof.
  apply (exec_expr _ _ _ _ _ _ VNone). rewrite eval_call.
  rewrite (bind_done _ _ _ (VBuiltin "setup") w)
    by (apply eval_pure; vm_compute; reflexivity).
  rewrite (bind_done _ _ _ [] w) by done.
  rewrite (bind_done _ _ _ _ _ (eval_setup_kwargs _ c w)).
  unfold call_builtin, builtins, script_builtins, script_call, builtin_setup.
  unfold bind, modify, log_call, ret. cbn [open_files calls].
  by rewrite <- app_assoc.
Qed.

(** The whole script, from the state in which [__main__] starts. *)
Lemma setup_py_outcome fuel m w c :
  text_files fs !! [SetupPy.readme] = Some c →
  find_spec setuptools None = Some (external_spec setuptools setuptools_ns) →
  m !! setuptools = None →
  SetupPy.readme ∉ open_files w →
  exec_body (gcd_import (S fuel)) main setup_py
    (State (<[main := main_attrs ["setup.py"]]> m) w)
  = Done tt (State (<[main := main_after_with c]>
                      (<[setuptools := setuptools_loaded]> m))
               (Effects (open_files w)
                  (calls w ++ setup_calls c
                     (find_packages fs (normpath SetupPy.where_))))).
Proof.
  intros Hreadme Hfind Hm Hclosed. unfold setup_py.
  rewrite exec_body_cons, (bind_done _ _ _ tt _ (import_setuptools _ _ _ Hfind Hm)).
  rewrite exec_body_cons, (bind_done _ _ _ tt _ (with_readme _ _ _ _ Hreadme Hclosed)).
  rewrite exec_body_cons, (bind_done _ _ _ tt _ (call_setup _ _ _ _)).
  cbn [open_files calls]. by rewrite <- app_assoc.
Qed.

Lemma setup_py_no_readme fuel m w :
  text_files fs !! [SetupPy.readme] = None →
  find_spec setuptools None = Some (external_spec setuptools setuptools_ns) →
  m !! setuptools = None →
  exec_body (gcd_import (S fuel)) main setup_py
    (State (<[main := main_attrs ["setup.py"]]> m) w)
  = Raise (FileNotFoundError SetupPy.readme)
      (State (<[main := main_after_import]>
                (<[setuptools := setuptools_loaded]> m)) w).
Proof.
  intros Hreadme Hfind Hm. unfold setup_py.
  rewrite exec_body_cons, (bind_done _ _ _ tt _ (import_setuptools _ _ _ Hfind Hm)).
  rewrite exec_body_cons. by apply bind_raise, with_readme_missing.
Qed.

Lemma setup_py_no_setuptools fuel m w :
  find_spec setuptools None = None →
  m !! setuptools = None →
  exec_body (gcd_import (S fuel)) main setup_py
    (State (<[main := main_attrs ["setup.py"]]> m) w)
  = Raise (ModuleNotFoundError setuptools)
      (State (<[main := main_attrs ["setup.py"]]> m) w).
Proof.
  intros Hfind Hm. unfold setup_py. rewrite exec_body_cons.
  apply bind_raise, exec_import_not_found; [done..| |done].
  cbn [modules]. by rewrite lookup_insert_ne.
Qed.

End running.

(** C3. [python setup.py] in a project directory that holds a
    [README.md], with [setuptools] installed and not yet imported and
    with [README.md] not open, runs to its end with any fuel from 1 on.
    It makes four calls, in this order: [open("README.md", "r",
    encoding="utf-8")], [read()] on that file, [find_packages(where="src")]
    and [setup] with the sixteen keyword arguments of the source, among
    them the contents of [README.md] as [long_description] and the result
    of [find_packages] as [packages].  The file is closed again when
    [setup] is called, and [sys.modules] gains [setuptools] and
    [__main__]. *)
Theorem run_setup `{!Finder} (fs : file_system) (fuel : nat) (c : string)
    (st : state) :
  text_files fs !! [SetupPy.readme] = Some c →
  find_spec setuptools None = Some (external_spec setuptools setuptools_ns) →
  1 ≤ fuel →
  modules st !! setuptools = None →
  SetupPy.readme ∉ open_files (world st) →
  @run_script _ (script_builtins fs) fuel ["setup.py"] setup_py st
  = Done tt (State (<[main := main_after_with c]>
                      (<[setuptools := setuptools_loaded]> (modules st)))
               (Effects (open_files (world st))
                  (calls (world st)
                   ++ setup_calls c (find_packages fs (normpath SetupPy.where_))))).
Proof.
  destruct st as [m w]. intros Hreadme Hfind Hfuel Hm Hclosed.
  destruct fuel as [|fuel]; [lia|].
  rewrite run_script_body. by apply setup_py_outcome.
Qed.

Lemma run_setup_witness :
  @run_script (env_finder (site_env (repo_fs_with "# Lab")))
    (script_builtins (repo_fs_with "# Lab")) 1 ["setup.py"] setup_py initial_state
  = Done tt (State (<[main := main_after_with "# Lab"]>
                      (<[setuptools := setuptools_loaded]> ∅))
               (Effects ∅ (setup_calls "# Lab"
                  (find_packages (repo_fs_with "# Lab") (normpath SetupPy.where_))))).
Proof.
  apply (@run_setup (env_finder (site_env (repo_fs_with "# Lab")))
           (repo_fs_with "# Lab") 1 "# Lab" initial_state);
    [by vm_compute|by vm_compute|lia|done|set_solver].
Defined.

(** C6. In a project directory without [README.md] (the repository
    holds none beside [setup.py]), the script raises [FileNotFoundError]
    for [README.md] at the [with] statement: [setuptools] is imported and
    [setup] and [find_packages] are bound, but no call reaches the outside
    world, no file is open, and [setup] is never called. *)
Theorem run_setup_no_readme `{!Finder} (fs : file_system) (fuel : nat)
    (st : state) :
  text_files fs !! [SetupPy.readme] = None →
  find_spec setuptools None = Some (external_spec setuptools setuptools_ns) →
  1 ≤ fuel →
  modules st !! setuptools = None →
  @run_script _ (script_builtins fs) fuel ["setup.py"] setup_py st
  = Raise (FileNotFoundError SetupPy.readme)
      (State (<[main := main_after_import]>
                (<[setuptools := setuptools_loaded]> (modules st)))
         (world st)).
Proof.
  destruct st as [m w]. intros Hreadme Hfind Hfuel Hm.
  destruct fuel as [|fuel]; [lia|].
  rewrite run_script_body. by apply setup_py_no_readme.
Qed.

Lemma run_setup_no_readme_witness :
  @run_script (env_finder (site_env repo_fs)) (script_builtins repo_fs) 1
    ["setup.py"] setup_py initial_state
  = Raise (FileNotFoundError SetupPy.readme)
      (State (<[main := main_after_import]>
                (<[setuptools := setuptools_loaded]> ∅)) no_effects).
Proof.
  apply (@run_setup_no_readme (env_finder (site_env repo_fs)) repo_fs 1
           initial_state); [by vm_compute|by vm_compute|lia|done].
Defined.

(** C10. Without [setuptools] (the finder does not find it and it is not
    imported), the script raises [ModuleNotFoundError] for [setuptools] at
    its first statement and does nothing else. *)
Theorem run_setup_no_setuptools `{!Finder} (fs : file_system) (fuel : nat)
    (st : state) :
  find_spec setuptools None = None →
  1 ≤ fuel →
  modules st !! setuptools = None →
  @run_script _ (script_builtins fs) fuel ["setup.py"] setup_py st
  = Raise (ModuleNotFoundError setuptools)
      (State (<[main := main_attrs ["setup.py"]]> (modules st)) (world st)).
Proof.
  destruct st as [m w]. intros Hfind Hfuel Hm.
  destruct fuel as [|fuel]; [lia|].
  rewrite run_script_body. by apply setup_py_no_setuptools.
Qed.

Lemma run_setup_no_setuptools_witness :
  @run_script (env_finder (Environment repo_fs ∅)) (script_builtins repo_fs) 1
    ["setup.py"] setup_py initial_state
  = Raise (ModuleNotFoundError setuptools)
      (State (<[main := main_attrs ["setup.py"]]> ∅) no_effects).
Proof.
  apply (@run_setup_no_setuptools (env_finder (Environment repo_fs ∅)) repo_fs 1
           initial_state); [by vm_compute|lia|done].
Defined.

(** * What is passed to [setup] in the repository *)

(** C9. In the project directory of the repository, completed by a
    [README.md] of any contents, the script passes
    [packages=["models", "pricing"]] to [setup]: the two subpackages, as
    top-level packages, and not [src].  (The two names come in the order
    in which the model lists a directory, by name; setuptools passes them
    in the order in which the file system lists [src/].) *)
Theorem run_setup_repo `{!Finder} (fuel : nat) (c : string) (st : state) :
  find_spec setuptools None = Some (external_spec setuptools setuptools_ns) →
  1 ≤ fuel →
  modules st !! setuptools = None →
  SetupPy.readme ∉ open_files (world st) →
  @run_script _ (script_builtins (repo_fs_with c)) fuel ["setup.py"] setup_py st
  = Done tt (State (<[main := main_after_with c]>
                      (<[setuptools := setuptools_loaded]> (modules st)))
               (Effects (open_files (world st))
                  (calls (world st)
                   ++ setup_calls c [["models"]; ["pricing"]]))).
Proof.
  destruct st as [m w]. intros Hfind Hfuel Hm Hclosed.
  destruct fuel as [|fuel]; [lia|]. rewrite run_script_body.
  rewrite (setup_py_outcome (repo_fs_with c) fuel m w c) by done.
  by replace (find_packages (repo_fs_with c) (normpath SetupPy.where_))
    with [["models"]; ["pricing"]] by (by vm_compute).
Qed.

Lemma run_setup_repo_witness :
  @run_script (env_finder (site_env (repo_fs_with "# Lab")))
    (script_builtins (repo_fs_with "# Lab")) 1 ["setup.py"] setup_py initial_state
  = Done tt (State (<[main := main_after_with "# Lab"]>
                      (<[setuptools := setuptools_loaded]> ∅))
               (Effects ∅ (setup_calls "# Lab" [["models"]; ["pricing"]]))).
Proof.
  apply (@run_setup_repo (env_finder (site_env (repo_fs_with "# Lab"))) 1
           "# Lab" initial_state); [by vm_compute|lia|done|set_solver].
Defined.
